(** * Multi-Singer generators: a shallow embedding of [models/Generator.py]

    The two generator classes [Generator1] and [Generator2] are embedded as
    Rocq functions: Python integers are [Z] (with Python's floor division and
    modulo and their [ZeroDivisionError]), Python floats are IEEE binary64
    numbers (Rocq's primitive floats), exceptions are a sum type, objects
    are attribute dictionaries ([gmap string pyobj]), Python dictionaries that
    are shared between calls live in a heap, and the collaborators taken from
    [layers], [models] and [torch] are parameters of the development. *)

From Stdlib Require Import ZArith QArith Lia List.
From Stdlib Require Import PrimFloat FloatOps SpecFloat.
From stdpp Require Import gmap strings list fin_maps.

Set Default Proof Using "Type".
Local Open Scope Z_scope.

(** ** Python values, exceptions and the small monads of the embedding *)

Inductive exn : Type :=
| AssertionError
| ZeroDivisionError
| AttributeError (name : string)
| KeyError (key : string)
| IndexError
| ValueError
| TypeError
| OverflowError
| RuntimeError.

Inductive result (A : Type) : Type :=
| Ok (a : A)
| Raise (e : exn).
Arguments Ok {A} a.
Arguments Raise {A} e.

(** The monad operations are stdpp's [mret], [mbind] (written [x ← m; k] and
    [m;; k]) and [mthrow]. *)
#[export] Instance result_ret : MRet result := fun A a => Ok a.
#[export] Instance result_bind : MBind result := fun A B k m =>
  match m with Ok a => k a | Raise e => Raise e end.
#[export] Instance result_throw : MThrow exn result := fun A e => Raise e.

(** Code with effects on a state [S]: the state at the point of a [Raise] is
    kept, so that what had been done before the exception stays visible. *)
Definition StateE (S A : Type) : Type := S -> result A * S.

#[export] Instance StateE_ret (S : Type) : MRet (StateE S) := fun A a s => (Ok a, s).
#[export] Instance StateE_bind (S : Type) : MBind (StateE S) := fun A B k m s =>
  match m s with
  | (Ok a, s') => k a s'
  | (Raise e, s') => (Raise e, s')
  end.
#[export] Instance StateE_throw (S : Type) : MThrow exn (StateE S) :=
  fun A e s => (Raise e, s).

Definition lift {S A : Type} (r : result A) : StateE S A := fun s => (r, s).
Definition modify {S : Type} (f : S -> S) : StateE S unit := fun s => (Ok tt, f s).

(** [assert b] *)
Definition py_assert {M} `{MRet M, MThrow exn M} (b : bool) : M unit :=
  if b then mret tt else mthrow AssertionError.

(** [for x in l: body x] *)
Fixpoint for_each {M} `{MRet M, MBind M} {A : Type}
    (l : list A) (body : A -> M unit) : M unit :=
  match l with
  | [] => mret tt
  | x :: l' => body x;; for_each l' body
  end.

(** Python's [a % b] and [a // b] on integers: floor semantics (the sign of
    the divisor), which is [Z.modulo] and [Z.div], and [ZeroDivisionError]
    for a zero divisor. *)
Definition py_mod (a b : Z) : result Z :=
  if b =? 0 then Raise ZeroDivisionError else Ok (a mod b).

Definition py_floordiv (a b : Z) : result Z :=
  if b =? 0 then Raise ZeroDivisionError else Ok (a / b).

(** [range(n)]: empty when [n <= 0]. *)
Definition py_range (n : Z) : list Z := map Z.of_nat (seq 0 (Z.to_nat n)).

(** ** Numbers

    A Python [float] is a binary64 number; its operations round to nearest,
    ties to even, as the primitive floats do. *)

(** The double nearest to an integer (ties to even), infinite when the
    integer is beyond the range of the doubles. *)
Definition Z_to_float (z : Z) : float :=
  SF2Prim (binary_normalize prec emax z 0 false).

(** The conversion of an [int] operand that meets a [float]:
    [OverflowError] ("int too large to convert to float") when no double is
    near. *)
Definition py_float (z : Z) : result float :=
  let f := Z_to_float z in
  if is_infinity f then Raise OverflowError else Ok f.

(** The rational a finite double denotes. *)
Definition float_Q (f : float) : option Q :=
  match Prim2SF f with
  | S754_zero _ => Some 0%Q
  | S754_finite s m e =>
      Some ((if s then - inject_Z (Z.pos m) else inject_Z (Z.pos m)) * Qpower 2 e)%Q
  | _ => None
  end.

(** Python numbers as the dilation arithmetic meets them: [2 ** e] is an
    [int] for [e >= 0] and a [float] for [e < 0]. *)
Inductive pynum : Type :=
| PInt (z : Z)
| PFloat (f : float).

(** [a + b] and [a * b]: exact on two integers; an integer that meets a
    float is converted first; the float operation itself never raises (it
    rounds, or gives an infinity). *)
Definition py_add (a b : pynum) : result pynum :=
  match a, b with
  | PInt x, PInt y => Ok (PInt (x + y))
  | PInt x, PFloat g => f ← py_float x; Ok (PFloat (f + g))
  | PFloat f, PInt y => g ← py_float y; Ok (PFloat (f + g))
  | PFloat f, PFloat g => Ok (PFloat (f + g))
  end.

Definition py_mul (a b : pynum) : result pynum :=
  match a, b with
  | PInt x, PInt y => Ok (PInt (x * y))
  | PInt x, PFloat g => f ← py_float x; Ok (PFloat (f * g))
  | PFloat f, PInt y => g ← py_float y; Ok (PFloat (f * g))
  | PFloat f, PFloat g => Ok (PFloat (f * g))
  end.

(** [lambda x: 2 ** x], the default [dilation] of [_get_receptive_field_size]
    and the expression of the constructors' loops. With a negative exponent
    Python computes the float [2.0 ** float(x)]: the power of two itself
    down to [2 ** -1074], and [0.0] below. (An exponent is here an index
    modulo a cycle length, below the length of a list: [float(x)] cannot
    overflow.) *)
Definition pow2 (x : Z) : pynum :=
  if x <? 0 then PFloat (Z.ldexp 1 x) else PInt (2 ^ x).

(** [sum(l)]: starts from the integer [0] and adds from the left (the
    additions as CPython up to 3.11 makes them; later versions compensate
    the rounding errors of float additions). *)
Fixpoint py_sum_from (acc : pynum) (l : list pynum) : result pynum :=
  match l with
  | [] => Ok acc
  | x :: l' => acc' ← py_add acc x; py_sum_from acc' l'
  end.

Definition py_sum (l : list pynum) : result pynum := py_sum_from (PInt 0) l.

(** ** Receptive field (static method, identical in both classes)

    [[
    def _get_receptive_field_size(layers, stacks, kernel_size, dilation=lambda x: 2 ** x):
        assert layers % stacks == 0
        layers_per_cycle = layers // stacks
        dilations = [dilation(i % layers_per_cycle) for i in range(layers)]
        return (kernel_size - 1) * sum(dilations) + 1
    ]] *)
Definition _get_receptive_field_size
    (layers stacks kernel_size : Z) (dilation : Z -> pynum) : result pynum :=
  r ← py_mod layers stacks;
  py_assert (r =? 0);;
  layers_per_cycle ← py_floordiv layers stacks;
  dilations ← mapM (fun i => e ← py_mod i layers_per_cycle; mret (dilation e))
                   (py_range layers);
  s ← py_sum dilations;
  p ← py_mul (PInt (kernel_size - 1)) s;
  py_add p (PInt 1).

(** ** Objects, dictionaries and sub-modules

    A dictionary passed as [upsample_params] is a Python object that the
    constructors update in place; it is therefore kept in a heap and passed by
    location. The default value of the parameter is one dictionary per
    function, created when the class is defined. *)

Inductive pyval : Type :=
| VBool (b : bool)
| VInt (z : Z)
| VInts (l : list Z).

Abbreviation dict := (gmap string pyval).
Abbreviation loc := nat.

(** The keyword arguments of [ResidualBlock(...)]; [None] is an argument the
    call does not pass. *)
Record rb_kwargs : Type := {
  rb_kernel_size : Z;
  rb_residual_channels : Z;
  rb_gate_channels : option Z;
  rb_skip_channels : option Z;
  rb_aux_channels : Z;
  rb_dilation : pynum;
  rb_dropout : float;
  rb_bias : bool;
  rb_use_causal_conv : option bool
}.

(** The constructor calls of collaborating classes, with their arguments. *)
Inductive ctor_call : Type :=
| CReLU (inplace : bool)
| CConv1d1x1 (in_channels out_channels : Z) (bias : bool)
| CConv1d (in_channels out_channels kernel_size stride padding : Z)
| CResidualBlock (kw : rb_kwargs)
| CPQMF (subbands : option Z)
| CUpsample (cls : string) (kw : dict)
| CModels (cls : string) (kw : dict).

(** A sub-module: the call that built it and its identity (two blocks built
    with equal arguments are different objects with their own weights). *)
Record module : Type := { mid : nat; mcall : ctor_call }.

(** The scalars [np.prod] returns besides Python integers. *)
Inductive np_scalar : Type :=
| NpInt64 (z : Z)
| NpUInt64 (z : Z)
| NpFloat64 (f : float).

Inductive pyobj : Type :=
| ONone
| OInt (z : Z)
| ONp (v : np_scalar)
| OInts (l : list Z)
| OModule (m : module)
| OModuleList (ms : list module).

(** An instance is its attribute dictionary. *)
Abbreviation obj := (gmap string pyobj).

Definition getattr (self : obj) (name : string) : result pyobj :=
  match self !! name with
  | Some v => Ok v
  | None => Raise (AttributeError name)
  end.

(** An attribute used as an integer operand ([%], [//], [range]); the other
    values of the model raise [TypeError] there. *)
Definition as_int (o : pyobj) : result Z :=
  match o with
  | OInt z => Ok z
  | _ => Raise TypeError
  end.

(** [[
    @property
    def receptive_field_size(self):
        return self._get_receptive_field_size(self.layers, self.stacks, self.kernel_size)
    ]]
    The same text in both classes: the three attributes are read from left
    to right, then the static method runs. *)
Definition receptive_field_size (self : obj) : result pynum :=
  layers ← getattr self "layers";
  stacks ← getattr self "stacks";
  kernel_size ← getattr self "kernel_size";
  layers ← as_int layers;
  stacks ← as_int stacks;
  kernel_size ← as_int kernel_size;
  _get_receptive_field_size layers stacks kernel_size pow2.

Inductive event : Type :=
| EvNew (m : module)
| EvApplyWeightNorm.

Record cstate : Type := {
  heap : gmap loc dict;
  self : obj;
  trace : list event
}.

Definition set_heap (f : gmap loc dict -> gmap loc dict) (s : cstate) : cstate :=
  {| heap := f (heap s); self := self s; trace := trace s |}.
Definition set_self (f : obj -> obj) (s : cstate) : cstate :=
  {| heap := heap s; self := f (self s); trace := trace s |}.
Definition set_trace (f : list event -> list event) (s : cstate) : cstate :=
  {| heap := heap s; self := self s; trace := f (trace s) |}.

(** [d[key]] *)
Definition dict_getitem (d : dict) (key : string) : result pyval :=
  match d !! key with
  | Some v => Ok v
  | None => Raise (KeyError key)
  end.

(** [l[i]] for a non-negative literal index *)
Definition py_index (l : list Z) (i : nat) : result Z :=
  match l !! i with
  | Some v => Ok v
  | None => Raise IndexError
  end.

(** *** [np.prod]

    numpy (on a 64-bit Linux build, where the default integer is [int64])
    turns the argument into an array first. A Python integer becomes an
    [int64] when it fits, a [uint64] when it is in [[2^63, 2^64)], a Python
    object otherwise; the elements of a list are promoted to a common type
    ([int64] with [uint64] gives [float64]); an empty list is a [float64]
    array. The product is taken in that type: 64-bit integers wrap around
    silently, doubles round, Python objects multiply exactly. *)
Inductive np_dtype : Type := DInt64 | DUInt64 | DFloat64 | DObject.

Definition wrap_int64 (z : Z) : Z := (z + 2 ^ 63) mod 2 ^ 64 - 2 ^ 63.
Definition wrap_uint64 (z : Z) : Z := z mod 2 ^ 64.

Definition dtype_of_int (z : Z) : np_dtype :=
  if (- 2 ^ 63 <=? z) && (z <? 2 ^ 63) then DInt64
  else if (0 <=? z) && (z <? 2 ^ 64) then DUInt64
  else DObject.

Definition promote_types (a b : np_dtype) : np_dtype :=
  match a, b with
  | DObject, _ | _, DObject => DObject
  | DFloat64, _ | _, DFloat64 => DFloat64
  | DInt64, DInt64 => DInt64
  | DUInt64, DUInt64 => DUInt64
  | _, _ => DFloat64
  end.

Definition dtype_of_ints (l : list Z) : np_dtype :=
  match l with
  | [] => DFloat64
  | z :: l' => fold_left (fun d x => promote_types d (dtype_of_int x)) l' (dtype_of_int z)
  end.

(** [np.multiply.reduce] over the elements, in order. *)
Definition np_prod_ints (l : list Z) : pyobj :=
  match dtype_of_ints l with
  | DInt64 => ONp (NpInt64 (fold_left (fun acc x => wrap_int64 (acc * x)) l 1))
  | DUInt64 => ONp (NpUInt64 (fold_left (fun acc x => wrap_uint64 (acc * x)) l 1))
  | DFloat64 => ONp (NpFloat64 (fold_left (fun acc x => (acc * Z_to_float x)%float) l 1%float))
  | DObject => OInt (fold_left Z.mul l 1)
  end.

(** [np.prod(v)]: a boolean is multiplied as an [int64]; an integer is the
    only element of its array. *)
Definition np_prod (v : pyval) : pyobj :=
  match v with
  | VBool b => ONp (NpInt64 (if b then 1 else 0))
  | VInt z => np_prod_ints [z]
  | VInts l => np_prod_ints l
  end.

Section Construction.

(** Whether the constructor of a collaborating class raises on the given
    arguments (an unknown class name, an argument it rejects). *)
Variable ext_raises : ctor_call -> option exn.

Abbreviation C := (StateE cstate).

(** [self.name = v] *)
Definition setattr (name : string) (v : pyobj) : C unit :=
  modify (set_self (insert name v)).

(** A call of a collaborating constructor. *)
Definition new (c : ctor_call) : C module := fun s =>
  match ext_raises c with
  | Some e => (Raise e, s)
  | None =>
      let m := {| mid := length (trace s); mcall := c |} in
      (Ok m, set_trace (fun t => t ++ [EvNew m]) s)
  end.

(** [self.name += ms] on a [ModuleList] *)
Definition iadd_modules (name : string) (ms : list module) : C unit := fun s =>
  match self s !! name with
  | Some (OModuleList l) => setattr name (OModuleList (l ++ ms)) s
  | Some _ => (Raise TypeError, s)
  | None => (Raise (AttributeError name), s)
  end.

(** The dictionary at a location; [d.update(...)] in place. *)
Definition dict_read (p : loc) : C dict := fun s => (Ok (heap s !!! p), s).
Definition dict_update (p : loc) (f : dict -> dict) : C unit :=
  modify (set_heap (fun h => <[p := f (h !!! p)]> h)).

(** [self.apply_weight_norm()]: the traversal of the sub-modules is the
    business of the weight-norm section below; here it is an event. *)
Definition apply_weight_norm_call : C unit :=
  modify (set_trace (fun t => t ++ [EvApplyWeightNorm])).

(** [cls(args)]: run [__init__] on a new, empty instance; the instance is
    the value of the call only when [__init__] returns. *)
Definition instantiate (init : C unit) : C obj := fun s =>
  match init (set_self (fun _ => ∅) s) with
  | (Ok _, s') => (Ok (self s'), s')
  | (Raise e, s') => (Raise e, s')
  end.

End Construction.

Module Generator1.

Definition default_upsample_params : loc := 0%nat.

Record Args : Type := {
  in_channels : Z;
  out_channels : Z;
  kernel_size : Z;
  layers : Z;
  stacks : Z;
  residual_channels : Z;
  gate_channels : Z;
  skip_channels : Z;
  aux_channels : Z;
  aux_context_window : Z;
  dropout : float;
  bias : bool;
  use_weight_norm : bool;
  use_causal_conv : bool;
  upsample_conditional_features : bool;
  upsample_net : string;
  upsample_params : loc
}.

Definition defaults : Args := {|
  in_channels := 1; out_channels := 1; kernel_size := 3;
  layers := 30; stacks := 3;
  residual_channels := 64; gate_channels := 128; skip_channels := 64;
  aux_channels := 80; aux_context_window := 2;
  dropout := 0%float; bias := true;
  use_weight_norm := true; use_causal_conv := false;
  upsample_conditional_features := true;
  upsample_net := "ConvInUpsampleNetwork";
  upsample_params := default_upsample_params
|}.

Section Init.
Variable ext_raises : ctor_call -> option exn.
Abbreviation new := (new ext_raises).

Definition block_kwargs (a : Args) (dilation : pynum) : rb_kwargs := {|
  rb_kernel_size := kernel_size a;
  rb_residual_channels := residual_channels a;
  rb_gate_channels := Some (gate_channels a);
  rb_skip_channels := Some (skip_channels a);
  rb_aux_channels := aux_channels a;
  rb_dilation := dilation;
  rb_dropout := dropout a;
  rb_bias := bias a;
  rb_use_causal_conv := Some (use_causal_conv a)
|}.

(** Lines 80-102: the upsampling network. *)
Definition init_upsample (a : Args) : StateE cstate unit :=
  let p := upsample_params a in
  if upsample_conditional_features a then
    dict_update p (insert "use_causal_conv" (VBool (use_causal_conv a)));;
    (if String.eqb (upsample_net a) "MelGANGenerator" then
       py_assert (aux_context_window a =? 0);;
       dict_update p (fun d =>
         <["use_final_nonlinear_activation" := VBool false]>
           (<["use_weight_norm" := VBool false]> d));;
       kw ← dict_read p;
       m ← new (CModels (upsample_net a) kw);
       setattr "upsample_net" (OModule m)
     else
       (if String.eqb (upsample_net a) "ConvInUpsampleNetwork" then
          dict_update p (fun d =>
            <["aux_context_window" := VInt (aux_context_window a)]>
              (<["aux_channels" := VInt (aux_channels a)]> d))
        else mret tt);;
       kw ← dict_read p;
       m ← new (CUpsample (upsample_net a) kw);
       setattr "upsample_net" (OModule m));;
    kw ← dict_read p;
    scales ← lift (dict_getitem kw "upsample_scales");
    setattr "upsample_factor" (np_prod scales)
  else
    setattr "upsample_net" ONone;;
    setattr "upsample_factor" (OInt 1).

(** Lines 107-119: the body of the loop over [range(layers)]. *)
Definition init_block (a : Args) (layers_per_stack : Z) (layer : Z) : StateE cstate unit :=
  e ← lift (py_mod layer layers_per_stack);
  let dilation := pow2 e in
  conv ← new (CResidualBlock (block_kwargs a dilation));
  iadd_modules "conv_layers" [conv].

(** Lines 104-119: the residual blocks. *)
Definition init_blocks (a : Args) (layers_per_stack : Z) : StateE cstate unit :=
  setattr "conv_layers" (OModuleList []);;
  for_each (py_range (layers a)) (init_block a layers_per_stack).

(** Lines 121-127: the output layers. *)
Definition init_last_conv_layers (a : Args) : StateE cstate unit :=
  m1 ← new (CReLU true);
  m2 ← new (CConv1d1x1 (skip_channels a) (skip_channels a) true);
  m3 ← new (CReLU true);
  m4 ← new (CConv1d1x1 (skip_channels a) (in_channels a) true);
  setattr "last_conv_layers" (OModuleList [m1; m2; m3; m4]).

Definition __init__ (a : Args) : StateE cstate unit :=
  setattr "in_channels" (OInt (in_channels a));;
  setattr "out_channels" (OInt (out_channels a));;
  setattr "aux_channels" (OInt (aux_channels a));;
  setattr "aux_context_window" (OInt (aux_context_window a));;
  setattr "layers" (OInt (layers a));;
  setattr "stacks" (OInt (stacks a));;
  setattr "kernel_size" (OInt (kernel_size a));;
  r ← lift (py_mod (layers a) (stacks a));
  py_assert (r =? 0);;
  layers_per_stack ← lift (py_floordiv (layers a) (stacks a));
  m ← new (CConv1d1x1 (in_channels a) (residual_channels a) true);
  setattr "first_conv" (OModule m);;
  init_upsample a;;
  init_blocks a layers_per_stack;;
  init_last_conv_layers a;;
  m ← new (CConv1d 1 128 (kernel_size a) 1 3);
  setattr "pqmf_conv1" (OModule m);;
  m ← new (CConv1d 128 1 (kernel_size a) 1 3);
  setattr "pqmf_conv2" (OModule m);;
  (if use_weight_norm a then apply_weight_norm_call else mret tt);;
  m ← new (CPQMF None);
  setattr "pqmf" (OModule m).

(** [Generator1(...)] *)
Definition create (a : Args) : StateE cstate obj := instantiate (__init__ a).
End Init.

End Generator1.

Module Generator2.

Definition default_upsample_params : loc := 1%nat.

Record Args : Type := {
  in_channels : Z;
  out_channels : Z;
  kernel_sizes : list Z;
  layers : list Z;
  stacks : list Z;
  residual_channels : Z;
  aux_channels : Z;
  aux_context_window : Z;
  dropout : float;
  bias : bool;
  use_weight_norm : bool;
  upsample_net : string;
  upsample_params : loc
}.

Definition defaults : Args := {|
  in_channels := 1; out_channels := 4;
  kernel_sizes := [7; 5]; layers := [16; 15]; stacks := [8; 5];
  residual_channels := 64; aux_channels := 80; aux_context_window := 2;
  dropout := 0%float; bias := true; use_weight_norm := true;
  upsample_net := "ConvInUpsampleNetwork";
  upsample_params := default_upsample_params
|}.

Section Init.
Variable ext_raises : ctor_call -> option exn.
Abbreviation new := (new ext_raises).

Definition block_kwargs (a : Args) (kernel_size : Z) (dilation : pynum) : rb_kwargs := {|
  rb_kernel_size := kernel_size;
  rb_residual_channels := residual_channels a;
  rb_gate_channels := None;
  rb_skip_channels := None;
  rb_aux_channels := aux_channels a;
  rb_dilation := dilation;
  rb_dropout := dropout a;
  rb_bias := bias a;
  rb_use_causal_conv := None
|}.

(** The body of the two loops: lines 275-284 with [j = 0] and
    [name = "low_conv_layers"], lines 288-297 with [j = 1] and
    [name = "up_conv_layers"]. *)
Definition init_block (a : Args) (name : string) (j : nat) (layer : Z)
    : StateE cstate unit :=
  s ← lift (py_index (stacks a) j);
  e ← lift (py_mod layer s);
  let dilation := pow2 e in
  k ← lift (py_index (kernel_sizes a) j);
  conv ← new (CResidualBlock (block_kwargs a k dilation));
  iadd_modules name [conv].

(** Lines 272-284 and 286-297: the two residual stacks. *)
Definition init_blocks (a : Args) (name : string) (j : nat) : StateE cstate unit :=
  setattr name (OModuleList []);;
  n ← lift (py_index (layers a) j);
  for_each (py_range n) (init_block a name j).

(** Lines 300-305 and 307-312: the two output heads. *)
Definition init_last_conv_layers (a : Args) (name : string) : StateE cstate unit :=
  m1 ← new (CReLU true);
  m2 ← new (CConv1d1x1 (residual_channels a) (residual_channels a) true);
  m3 ← new (CReLU true);
  m4 ← new (CConv1d1x1 (residual_channels a) (out_channels a / 2) true);
  setattr name (OModuleList [m1; m2; m3; m4]).

Definition __init__ (a : Args) : StateE cstate unit :=
  let p := upsample_params a in
  setattr "in_channels" (OInt (in_channels a));;
  setattr "out_channels" (OInt (out_channels a));;
  setattr "aux_channels" (OInt (aux_channels a));;
  setattr "stacks" (OInts (stacks a));;
  m ← new (CPQMF (Some (out_channels a)));
  setattr "pqmf" (OModule m);;
  setattr "aux_context_window" (OInt (aux_context_window a));;
  m ← new (CConv1d1x1 (in_channels a) (residual_channels a) true);
  setattr "low_first_conv" (OModule m);;
  m ← new (CConv1d1x1 (in_channels a) (residual_channels a) true);
  setattr "up_first_conv" (OModule m);;
  dict_update p (fun d =>
    <["aux_context_window" := VInt (aux_context_window a)]>
      (<["aux_channels" := VInt (aux_channels a)]> d));;
  kw ← dict_read p;
  m ← new (CUpsample (upsample_net a) kw);
  setattr "upsample_net" (OModule m);;
  init_blocks a "low_conv_layers" 0;;
  init_blocks a "up_conv_layers" 1;;
  init_last_conv_layers a "last_low_conv_layers";;
  init_last_conv_layers a "last_up_conv_layers";;
  kw ← dict_read p;
  scales ← lift (dict_getitem kw "upsample_scales");
  setattr "upsample_factor" (np_prod scales);;
  (if use_weight_norm a then apply_weight_norm_call else mret tt).

(** [Generator2(...)] *)
Definition create (a : Args) : StateE cstate obj := instantiate (__init__ a).
End Init.

End Generator2.

(** The state of a fresh interpreter after the module is imported: the two
    default dictionaries [{"upsample_scales": [4, 4, 4, 4]}] exist, nothing
    has been built. *)
Definition default_dict : dict := {[ "upsample_scales" := VInts [4; 4; 4; 4] ]}.

Definition initial_state : cstate := {|
  heap := <[Generator2.default_upsample_params := default_dict]>
            (<[Generator1.default_upsample_params := default_dict]> ∅);
  self := ∅;
  trace := []
|}.

(** No collaborating constructor raises. *)
Definition ext_ok : ctor_call -> option exn := fun _ => None.

(** ** Forward passes

    Tensors and the forward computations of the collaborating modules are
    parameters. The Python float that scales a tensor is a double. *)

Section Forward.

Variable Tensor : Type.
(** [t.size(-1)] *)
Variable size_last : Tensor -> Z.
(** [m(t)] for a convolution, activation or upsampling module *)
Variable call_module : module -> Tensor -> result Tensor.
(** [x, h = f(x, c)] for a residual block *)
Variable call_block : module -> Tensor -> option Tensor -> result (Tensor * Tensor).
(** [pqmf.analysis(t)], [pqmf.synthesis(t)] *)
Variable pqmf_analysis : module -> Tensor -> result Tensor.
Variable pqmf_synthesis : module -> Tensor -> result Tensor.
(** [z + t] for an integer [z] ([skips = 0; skips += h] the first time),
    [t += h] and [t *= r] on tensors *)
Variable int_add_tensor : Z -> Tensor -> Tensor.
Variable tensor_iadd : Tensor -> Tensor -> Tensor.
Variable tensor_imul : Tensor -> float -> Tensor.
(** [torch.cat((t1, t2), dim=1)] *)
Variable cat_dim1 : Tensor -> Tensor -> result Tensor.

(** [for f in o] and [len(o)] on an attribute value *)
Definition py_iter (o : pyobj) : result (list pyobj) :=
  match o with
  | OModuleList ms => Ok (map OModule ms)
  | OInts l => Ok (map OInt l)
  | _ => Raise TypeError
  end.

Definition py_len (o : pyobj) : result nat :=
  match o with
  | OModuleList ms => Ok (length ms)
  | OInts l => Ok (length l)
  | _ => Raise TypeError
  end.

Definition call_obj (f : pyobj) (t : Tensor) : result Tensor :=
  match f with
  | OModule m => call_module m t
  | _ => Raise TypeError
  end.

Definition call_block_obj (f : pyobj) (x : Tensor) (c : option Tensor)
    : result (Tensor * Tensor) :=
  match f with
  | OModule m => call_block m x c
  | _ => Raise TypeError
  end.

Definition analysis_obj (pqmf : pyobj) (t : Tensor) : result Tensor :=
  match pqmf with
  | OModule m => pqmf_analysis m t
  | _ => Raise (AttributeError "analysis")
  end.

Definition synthesis_obj (pqmf : pyobj) (t : Tensor) : result Tensor :=
  match pqmf with
  | OModule m => pqmf_synthesis m t
  | _ => Raise (AttributeError "synthesis")
  end.

(** [math.sqrt(1.0 / n)] for a length [n]: the integer is converted to a
    double (a length is below [2 ** 63], the conversion cannot overflow, and
    it gives zero for 0 only), a zero divisor raises [ZeroDivisionError], the
    quotient and then its square root are rounded. *)
Definition py_sqrt_inv (n : nat) : result float :=
  match n with
  | O => Raise ZeroDivisionError
  | S _ => Ok (sqrt (1 / Z_to_float (Z.of_nat n)))%float
  end.

(** [skips += h]: [skips] is the integer [0] ([None] here) until the first
    block has run. *)
Definition skips_iadd (skips : option Tensor) (h : Tensor) : Tensor :=
  match skips with
  | None => int_add_tensor 0 h
  | Some t => tensor_iadd t h
  end.

(** [[
    for f in blocks:
        x, h = f(x, c)
        skips += h
    ]] *)
Fixpoint run_blocks (blocks : list pyobj) (x : Tensor) (c : option Tensor)
    (skips : option Tensor) : result (Tensor * option Tensor) :=
  match blocks with
  | [] => Ok (x, skips)
  | f :: blocks' =>
      '(x', h) ← call_block_obj f x c;
      run_blocks blocks' x' c (Some (skips_iadd skips h))
  end.

(** [[
    skips = 0
    for f in self.<name>:
        x, h = f(x, c)
        skips += h
    skips *= math.sqrt(1.0 / len(self.<name>))
    ]]
    The value is the final [skips]. With no block the division raises; with
    at least one block [skips] is a tensor. *)
Definition skip_aggregate (self : obj) (name : string) (x : Tensor) (c : option Tensor)
    : result Tensor :=
  layers ← getattr self name;
  blocks ← py_iter layers;
  '(_, skips) ← run_blocks blocks x c None;
  layers ← getattr self name;
  n ← py_len layers;
  scale ← py_sqrt_inv n;
  match skips with
  | Some t => Ok (tensor_imul t scale)
  | None => Raise TypeError
  end.

(** [[
    for f in self.<name>:
        x = f(x)
    ]] *)
Fixpoint apply_layers (fs : list pyobj) (x : Tensor) : result Tensor :=
  match fs with
  | [] => Ok x
  | f :: fs' => x' ← call_obj f x; apply_layers fs' x'
  end.

Definition output_head (self : obj) (name : string) (x : Tensor) : result Tensor :=
  layers ← getattr self name;
  fs ← py_iter layers;
  apply_layers fs x.

(** [[
    if c is not None and self.upsample_net is not None:
        c = self.upsample_net(c)
        assert c.size(-1) * factor == x.size(-1)
    ]]
    with the literal [4] of [Generator1.forward] and no factor (1) in
    [Generator2.forward]. *)
Definition upsample_conditioning (self : obj) (factor : Z) (x : Tensor) (c : option Tensor)
    : result (option Tensor) :=
  match c with
  | None => Ok None
  | Some cv =>
      net ← getattr self "upsample_net";
      match net with
      | ONone => Ok (Some cv)
      | _ =>
          cu ← call_obj net cv;
          py_assert (size_last cu * factor =? size_last x);;
          mret (Some cu)
      end
  end.

Definition Generator1_forward (self : obj) (x : Tensor) (c : option Tensor)
    : result Tensor :=
  c ← upsample_conditioning self 4 x c;
  pqmf ← getattr self "pqmf";
  x ← analysis_obj pqmf x;
  first_conv ← getattr self "first_conv";
  x ← call_obj first_conv x;
  skips ← skip_aggregate self "conv_layers" x c;
  x ← output_head self "last_conv_layers" skips;
  pqmf ← getattr self "pqmf";
  x ← synthesis_obj pqmf x;
  conv1 ← getattr self "pqmf_conv1";
  x ← call_obj conv1 x;
  conv2 ← getattr self "pqmf_conv2";
  call_obj conv2 x.

Definition Generator2_forward (self : obj) (x : Tensor) (c : option Tensor)
    : result Tensor :=
  c ← upsample_conditioning self 1 x c;
  low_first_conv ← getattr self "low_first_conv";
  x1 ← call_obj low_first_conv x;
  up_first_conv ← getattr self "up_first_conv";
  x2 ← call_obj up_first_conv x;
  skips ← skip_aggregate self "low_conv_layers" x1 c;
  x1 ← output_head self "last_low_conv_layers" skips;
  skips ← skip_aggregate self "up_conv_layers" x2 c;
  x2 ← output_head self "last_up_conv_layers" skips;
  w ← cat_dim1 x1 x2;
  pqmf ← getattr self "pqmf";
  synthesis_obj pqmf w.

(** *** [Generator1.inference] *)

(** An argument of [inference] is a tensor or a numpy array; [len] is the
    size of the first dimension. *)
Variable Ndarray : Type.
Variable torch_tensor : Ndarray -> Tensor.
Variable tensor_len : Tensor -> Z.
Variable ndarray_len : Ndarray -> Z.
(** [t.transpose(1, 0)], [t.unsqueeze(0)], [t.squeeze(0)] *)
Variable transpose_1_0 : Tensor -> result Tensor.
Variable unsqueeze_0 : Tensor -> result Tensor.
Variable squeeze_0 : Tensor -> result Tensor.
(** [torch.nn.ReplicationPad1d(w)(t)] *)
Variable replication_pad1d : pyobj -> Tensor -> result Tensor.
(** [torch.randn(shape)] draws from the generator: the samples of the
    [k]-th call of a run for a given shape. *)
Variable randn : nat -> list Z -> result Tensor.

Inductive array_like : Type :=
| ATensor (t : Tensor)
| ANdarray (a : Ndarray).

Definition py_len_array (a : array_like) : Z :=
  match a with ATensor t => tensor_len t | ANdarray n => ndarray_len n end.

(** [if not isinstance(a, torch.Tensor): a = torch.tensor(a, ...)]; moving
    a tensor to the device of the parameters does not change it here. *)
Definition as_tensor (a : array_like) : Tensor :=
  match a with ATensor t => t | ANdarray n => torch_tensor n end.

(** [n * factor * 4] as a size of [torch.randn], for the length [n]: with a
    Python integer the product is exact; with an [int64] of numpy it is an
    [int64] again, wrapped around (with a warning, not an exception) when it
    does not fit; with a [uint64] or a [float64] of numpy it is a float (as
    numpy 1 promotes them with a Python integer), and with any other value it
    is no number: [torch.randn] refuses those sizes with [TypeError]. *)
Definition noise_length (n : Z) (factor : pyobj) : result Z :=
  match factor with
  | OInt f => Ok (n * f * 4)
  | ONp (NpInt64 f) => Ok (wrap_int64 (wrap_int64 (n * f) * 4))
  | _ => Raise TypeError
  end.

(** The calls of [torch.randn] made so far, with their shapes. *)
Abbreviation rng := (list (list Z)).

Definition torch_randn (shape : list Z) : StateE rng Tensor := fun calls =>
  (randn (length calls) shape, calls ++ [shape]).

Definition Generator1_inference (self : obj) (c x : option array_like)
    : StateE rng Tensor :=
  x ← match x with
      | Some xv =>
          t ← lift (transpose_1_0 (as_tensor xv));
          lift (unsqueeze_0 t)
      | None =>
          match c with
          | None => mthrow AssertionError
          | Some cv =>
              factor ← lift (getattr self "upsample_factor");
              n ← lift (noise_length (py_len_array cv) factor);
              torch_randn [1; 1; n]
          end
      end;
  c ← match c with
      | Some cv =>
          t ← lift (transpose_1_0 (as_tensor cv));
          t ← lift (unsqueeze_0 t);
          w ← lift (getattr self "aux_context_window");
          t ← lift (replication_pad1d w t);
          mret (Some t)
      | None => mret None
      end;
  y ← lift (Generator1_forward self x c);
  y ← lift (squeeze_0 y);
  lift (transpose_1_0 y).

(** The skip outputs [h] of the blocks, in order, each block receiving the
    hidden state its predecessor returned; and their sum as [skips]
    accumulates it. *)
Fixpoint block_skips (blocks : list pyobj) (x : Tensor) (c : option Tensor)
    : result (list Tensor) :=
  match blocks with
  | [] => Ok []
  | f :: blocks' =>
      '(x', h) ← call_block_obj f x c;
      hs ← block_skips blocks' x' c;
      mret (h :: hs)
  end.

Definition raw_sum (hs : list Tensor) : option Tensor :=
  fold_left (fun acc h => Some (skips_iadd acc h)) hs None.

End Forward.

(** ** Weight normalisation

    [torch.nn.Module.apply(fn)] calls [fn] on every sub-module, children
    first, then on the module itself. A module is seen here as a tree; of
    its state only the weight-norm hook matters. *)

Unset Elimination Schemes.
Inductive nn_module : Type :=
| NN (repr : string) (is_conv : bool) (weight_norm : bool) (children : list nn_module).
Set Elimination Schemes.

Definition nn_repr (m : nn_module) : string :=
  match m with NN r _ _ _ => r end.
Definition nn_is_conv (m : nn_module) : bool :=
  match m with NN _ c _ _ => c end.
Definition nn_weight_norm (m : nn_module) : bool :=
  match m with NN _ _ w _ => w end.
Definition nn_children (m : nn_module) : list nn_module :=
  match m with NN _ _ _ ch => ch end.

(** [torch.nn.utils.remove_weight_norm(m)]: removes the hook, and raises
    [ValueError] when the module has none. *)
Definition torch_remove_weight_norm (m : nn_module) : result nn_module :=
  match m with
  | NN r c true ch => Ok (NN r c false ch)
  | NN _ _ false _ => Raise ValueError
  end.

(** [torch.nn.utils.weight_norm(m)]: registers the hook, and refuses to
    register a second one. *)
Definition torch_weight_norm (m : nn_module) : result nn_module :=
  match m with
  | NN r c false ch => Ok (NN r c true ch)
  | NN _ _ true _ => Raise RuntimeError
  end.

(** The messages given to [logging.debug]. *)
Abbreviation log := (list string).

Definition logging_debug (msg : string) : StateE log unit :=
  modify (fun l => l ++ [msg]).

(** [try: body except ValueError: handler] *)
Definition try_except_ValueError {S A : Type} (body handler : StateE S A) : StateE S A :=
  fun s =>
    match body s with
    | (Raise ValueError, s') => handler s'
    | r => r
    end.

Fixpoint nn_apply (fn : nn_module -> StateE log nn_module) (m : nn_module)
    : StateE log nn_module :=
  match m with
  | NN r c w children =>
      children' ← mapM (nn_apply fn) children;
      fn (NN r c w children')
  end.

(** [f"Weight norm is removed from {m}."] *)
Definition removed_message (m : nn_module) : string :=
  "Weight norm is removed from " +:+ nn_repr m +:+ ".".

Definition _remove_weight_norm (m : nn_module) : StateE log nn_module :=
  try_except_ValueError
    (logging_debug (removed_message m);;
     lift (torch_remove_weight_norm m))
    (mret m).

Definition remove_weight_norm (self : nn_module) : StateE log nn_module :=
  nn_apply _remove_weight_norm self.

Definition _apply_weight_norm (m : nn_module) : StateE log nn_module :=
  if nn_is_conv m then
    m' ← lift (torch_weight_norm m);
    logging_debug ("Weight norm is applied to " +:+ nn_repr m +:+ ".");;
    mret m'
  else mret m.

Definition apply_weight_norm (self : nn_module) : StateE log nn_module :=
  nn_apply _apply_weight_norm self.

(** All sub-modules in the order in which [apply] reaches them, and the
    module with every hook removed. *)
Fixpoint submodules (m : nn_module) : list nn_module :=
  match m with
  | NN r c w children => flat_map submodules children ++ [m]
  end.

Fixpoint without_weight_norm (m : nn_module) : nn_module :=
  match m with
  | NN r c w children => NN r c false (map without_weight_norm children)
  end.

Fixpoint never_normalized (m : nn_module) : bool :=
  match m with
  | NN r c w children => negb w && forallb never_normalized children
  end.

(** The sum of [f 0 .. f (n - 1)] on integers. *)
Fixpoint sum_below (n : nat) (f : Z -> Z) : Z :=
  match n with
  | O => 0
  | S n' => sum_below n' f + f (Z.of_nat n')
  end.

(** The number a Python number denotes, when it is finite. *)
Definition pynum_Q (a : pynum) : option Q :=
  match a with PInt z => Some (inject_Z z) | PFloat f => float_Q f end.

(** The receptive field size as the specification words it, a rational
    number: [(kernel_size - 1) * (sum over i in [0, layers) of
    2^(i mod (layers/stacks))) + 1]. *)
Definition receptive_field_spec (layers stacks kernel_size : Z) : Q :=
  (inject_Z (kernel_size - 1)
   * fold_right Qplus 0 (map (fun i => Qpower 2 (i mod (layers / stacks))) (py_range layers))
   + 1)%Q.

(** The dilation a residual block was built with. *)
Definition dilation_of (m : module) : option pynum :=
  match mcall m with
  | CResidualBlock kw => Some (rb_dilation kw)
  | _ => None
  end.

(** ** Frame conditions of the constructors

    [preserves I m]: whatever [m] does, normally or with an exception, the
    states before and after are related by [I]. *)
Definition preserves {A : Type} (I : cstate -> cstate -> Prop) (m : StateE cstate A) : Prop :=
  forall s r s', m s = (r, s') -> I s s'.

Definition keeps_attr (name : string) : cstate -> cstate -> Prop :=
  fun s s' => self s' !! name = self s !! name.

Definition keeps_heap : cstate -> cstate -> Prop :=
  fun s s' => heap s' = heap s.

(** The entry [key] of the dictionary at [p] is left alone. *)
Definition keeps_key (p : loc) (key : string) : cstate -> cstate -> Prop :=
  fun s s' => (heap s' !!! p) !! key = (heap s !!! p) !! key.

(** No dictionary loses a key. *)
Definition keys_grow : cstate -> cstate -> Prop :=
  fun s s' => forall (p : loc) (key : string),
    is_Some ((heap s !!! p) !! key) -> is_Some ((heap s' !!! p) !! key).

(** Whether a run ended normally. *)
Definition succeeds {S A : Type} (r : result A * S) : bool :=
  match r with
  | (Ok _, _) => true
  | (Raise _, _) => false
  end.

(** A generator-like tree: a weight-normalised convolution, an activation,
    and a block that holds a weight-normalised convolution. *)
Definition example_tree : nn_module :=
  NN "Generator" false false
    [ NN "Conv1d1x1" true true [];
      NN "ReLU" false false [];
      NN "ResidualBlock" false false [ NN "Conv1d" true true [] ] ].

(** ** Example configurations *)

(** A four-band [Generator1]: the input of [first_conv] is the output of
    [pqmf.analysis], so [in_channels] is the number of bands. *)
Definition Generator1_four_band : Generator1.Args := {|
  Generator1.in_channels := 4; Generator1.out_channels := 1;
  Generator1.kernel_size := 3;
  Generator1.layers := 30; Generator1.stacks := 3;
  Generator1.residual_channels := 64; Generator1.gate_channels := 128;
  Generator1.skip_channels := 64;
  Generator1.aux_channels := 80; Generator1.aux_context_window := 2;
  Generator1.dropout := 0%float; Generator1.bias := true;
  Generator1.use_weight_norm := true; Generator1.use_causal_conv := false;
  Generator1.upsample_conditional_features := true;
  Generator1.upsample_net := "ConvInUpsampleNetwork";
  Generator1.upsample_params := Generator1.default_upsample_params
|}.

(** [Generator1(upsample_conditional_features=False)] *)
Definition Generator1_no_upsampling : Generator1.Args := {|
  Generator1.in_channels := 1; Generator1.out_channels := 1;
  Generator1.kernel_size := 3;
  Generator1.layers := 30; Generator1.stacks := 3;
  Generator1.residual_channels := 64; Generator1.gate_channels := 128;
  Generator1.skip_channels := 64;
  Generator1.aux_channels := 80; Generator1.aux_context_window := 2;
  Generator1.dropout := 0%float; Generator1.bias := true;
  Generator1.use_weight_norm := true; Generator1.use_causal_conv := false;
  Generator1.upsample_conditional_features := false;
  Generator1.upsample_net := "ConvInUpsampleNetwork";
  Generator1.upsample_params := Generator1.default_upsample_params
|}.

(** [Generator1(upsample_net="MelGANGenerator", aux_context_window=0)] *)
Definition Generator1_melgan : Generator1.Args := {|
  Generator1.in_channels := 1; Generator1.out_channels := 1;
  Generator1.kernel_size := 3;
  Generator1.layers := 30; Generator1.stacks := 3;
  Generator1.residual_channels := 64; Generator1.gate_channels := 128;
  Generator1.skip_channels := 64;
  Generator1.aux_channels := 80; Generator1.aux_context_window := 0;
  Generator1.dropout := 0%float; Generator1.bias := true;
  Generator1.use_weight_norm := true; Generator1.use_causal_conv := false;
  Generator1.upsample_conditional_features := true;
  Generator1.upsample_net := "MelGANGenerator";
  Generator1.upsample_params := Generator1.default_upsample_params
|}.

(** [Generator1(layers=10, stacks=3)] *)
Definition Generator1_ten_by_three : Generator1.Args := {|
  Generator1.in_channels := 1; Generator1.out_channels := 1;
  Generator1.kernel_size := 3;
  Generator1.layers := 10; Generator1.stacks := 3;
  Generator1.residual_channels := 64; Generator1.gate_channels := 128;
  Generator1.skip_channels := 64;
  Generator1.aux_channels := 80; Generator1.aux_context_window := 2;
  Generator1.dropout := 0%float; Generator1.bias := true;
  Generator1.use_weight_norm := true; Generator1.use_causal_conv := false;
  Generator1.upsample_conditional_features := true;
  Generator1.upsample_net := "ConvInUpsampleNetwork";
  Generator1.upsample_params := Generator1.default_upsample_params
|}.

(** [Generator2(layers=[16, 15], stacks=[3, 5])]: 16 is not a multiple of 3. *)
Definition Generator2_sixteen_by_three : Generator2.Args := {|
  Generator2.in_channels := 1; Generator2.out_channels := 4;
  Generator2.kernel_sizes := [7; 5];
  Generator2.layers := [16; 15]; Generator2.stacks := [3; 5];
  Generator2.residual_channels := 64; Generator2.aux_channels := 80;
  Generator2.aux_context_window := 2;
  Generator2.dropout := 0%float; Generator2.bias := true;
  Generator2.use_weight_norm := true;
  Generator2.upsample_net := "ConvInUpsampleNetwork";
  Generator2.upsample_params := Generator2.default_upsample_params
|}.

(** [Generator1(layers=l, stacks=st)] *)
Definition Generator1_layers (l st : Z) : Generator1.Args := {|
  Generator1.in_channels := 1; Generator1.out_channels := 1;
  Generator1.kernel_size := 3;
  Generator1.layers := l; Generator1.stacks := st;
  Generator1.residual_channels := 64; Generator1.gate_channels := 128;
  Generator1.skip_channels := 64;
  Generator1.aux_channels := 80; Generator1.aux_context_window := 2;
  Generator1.dropout := 0%float; Generator1.bias := true;
  Generator1.use_weight_norm := true; Generator1.use_causal_conv := false;
  Generator1.upsample_conditional_features := true;
  Generator1.upsample_net := "ConvInUpsampleNetwork";
  Generator1.upsample_params := Generator1.default_upsample_params
|}.

(** ** Further definitions for the properties of the remaining code *)

(** [f"Weight norm is applied to {m}."] *)
Definition applied_message (m : nn_module) : string :=
  "Weight norm is applied to " +:+ nn_repr m +:+ ".".

(** The tree after [apply_weight_norm]: a hook on every convolution. *)
Fixpoint with_weight_norm (m : nn_module) : nn_module :=
  match m with
  | NN r c w children => NN r c (c || w) (map with_weight_norm children)
  end.

(** The number of [EvNew] events of a trace: the sub-modules built. *)
Definition built (t : list event) : list module :=
  omap (fun e => match e with EvNew m => Some m | EvApplyWeightNorm => None end) t.

(** [Generator1(upsample_net="MelGANGenerator")], the context window left at
    its default 2. *)
Definition Generator1_melgan_context : Generator1.Args := {|
  Generator1.in_channels := 1; Generator1.out_channels := 1;
  Generator1.kernel_size := 3;
  Generator1.layers := 30; Generator1.stacks := 3;
  Generator1.residual_channels := 64; Generator1.gate_channels := 128;
  Generator1.skip_channels := 64;
  Generator1.aux_channels := 80; Generator1.aux_context_window := 2;
  Generator1.dropout := 0%float; Generator1.bias := true;
  Generator1.use_weight_norm := true; Generator1.use_causal_conv := false;
  Generator1.upsample_conditional_features := true;
  Generator1.upsample_net := "MelGANGenerator";
  Generator1.upsample_params := Generator1.default_upsample_params
|}.

(** [Generator1(upsample_params=d)] for a dictionary [d] of the caller that
    is still empty (location 2 of the heap). *)
Definition Generator1_own_params : Generator1.Args := {|
  Generator1.in_channels := 1; Generator1.out_channels := 1;
  Generator1.kernel_size := 3;
  Generator1.layers := 30; Generator1.stacks := 3;
  Generator1.residual_channels := 64; Generator1.gate_channels := 128;
  Generator1.skip_channels := 64;
  Generator1.aux_channels := 80; Generator1.aux_context_window := 2;
  Generator1.dropout := 0%float; Generator1.bias := true;
  Generator1.use_weight_norm := true; Generator1.use_causal_conv := false;
  Generator1.upsample_conditional_features := true;
  Generator1.upsample_net := "ConvInUpsampleNetwork";
  Generator1.upsample_params := 2%nat
|}.

(** [Generator2(kernel_sizes=k, layers=l, stacks=s)] *)
Definition Generator2_lists (l s k : list Z) : Generator2.Args := {|
  Generator2.in_channels := 1; Generator2.out_channels := 4;
  Generator2.kernel_sizes := k;
  Generator2.layers := l; Generator2.stacks := s;
  Generator2.residual_channels := 64; Generator2.aux_channels := 80;
  Generator2.aux_context_window := 2;
  Generator2.dropout := 0%float; Generator2.bias := true;
  Generator2.use_weight_norm := true;
  Generator2.upsample_net := "ConvInUpsampleNetwork";
  Generator2.upsample_params := Generator2.default_upsample_params
|}.

(** [Generator2(upsample_params=d)] for a dictionary [d] of the caller that
    is still empty (location 2 of the heap). *)
Definition Generator2_own_params : Generator2.Args := {|
  Generator2.in_channels := 1; Generator2.out_channels := 4;
  Generator2.kernel_sizes := [7; 5];
  Generator2.layers := [16; 15]; Generator2.stacks := [8; 5];
  Generator2.residual_channels := 64; Generator2.aux_channels := 80;
  Generator2.aux_context_window := 2;
  Generator2.dropout := 0%float; Generator2.bias := true;
  Generator2.use_weight_norm := true;
  Generator2.upsample_net := "ConvInUpsampleNetwork";
  Generator2.upsample_params := 2%nat
|}.

(** * Proofs *)

(** ** The monads *)

Lemma bind_Ok_inv {S A B : Type} (m : StateE S A) (k : A -> StateE S B) s b s' :
  (m ≫= k) s = (Ok b, s') -> exists a s1, m s = (Ok a, s1) /\ k a s1 = (Ok b, s').
Proof.
  unfold mbind, StateE_bind.
  destruct (m s) as [[a|e] s1]; intros H; [eauto|discriminate].
Qed.

Lemma lift_Ok_inv {S A : Type} (r : result A) (s s' : S) a :
  lift r s = (Ok a, s') -> r = Ok a /\ s' = s.
Proof. unfold lift. by intros [= -> ->]. Qed.

Lemma mapM_result_Ok {A B : Type} (f : A -> result B) (g : A -> B) (l : list A) :
  (forall x, x ∈ l -> f x = Ok (g x)) -> mapM f l = Ok (map g l).
Proof.
  induction l as [|x l IH]; intros Hf; [reflexivity|].
  cbn. rewrite (Hf x) by left. cbn.
  rewrite IH by (intros y Hy; apply Hf; by right). reflexivity.
Qed.

(** One step of a successful run: split [H : (m ≫= k) s = (Ok _, _)]. *)
Tactic Notation "step" hyp(H) "as" ident(a) ident(s) ident(H1) :=
  apply bind_Ok_inv in H as (a & s & H1 & H); cbv beta zeta in H.

(** The same when the step is of no interest. *)
Ltac skip_step H :=
  let a := fresh "v" in
  let s := fresh "s" in
  let H1 := fresh "Hstep" in
  apply bind_Ok_inv in H as (a & s & H1 & H); cbv beta zeta in H; clear H1.

(** ** Python integers and ranges *)

Lemma py_mod_Ok (a b e : Z) : py_mod a b = Ok e -> b <> 0 /\ e = a mod b.
Proof. unfold py_mod. destruct (Z.eqb_spec b 0); [discriminate|]. by intros [= <-]. Qed.

Lemma py_floordiv_Ok (a b q : Z) : py_floordiv a b = Ok q -> b <> 0 /\ q = a / b.
Proof. unfold py_floordiv. destruct (Z.eqb_spec b 0); [discriminate|]. by intros [= <-]. Qed.

Lemma py_range_succ (n : nat) :
  py_range (Z.of_nat (S n)) = py_range (Z.of_nat n) ++ [Z.of_nat n].
Proof. unfold py_range. rewrite !Nat2Z.id, seq_S, map_app. reflexivity. Qed.

Lemma elem_of_py_range (i n : Z) : i ∈ py_range n <-> 0 <= i < n.
Proof.
  unfold py_range. rewrite list_elem_of_fmap. split.
  - intros (k & -> & Hk). apply elem_of_seq in Hk. lia.
  - intros Hi. exists (Z.to_nat i). split; [lia|]. apply elem_of_seq. lia.
Qed.

Lemma length_py_range (n : Z) : length (py_range n) = Z.to_nat n.
Proof. unfold py_range. by rewrite length_map, length_seq. Qed.

Lemma lookup_py_range (n : Z) (i : nat) (x : Z) :
  py_range n !! i = Some x -> x = Z.of_nat i /\ (i < Z.to_nat n)%nat.
Proof.
  unfold py_range. rewrite list_lookup_fmap.
  destruct (seq 0 (Z.to_nat n) !! i) as [k|] eqn:E; [|discriminate].
  apply lookup_seq in E as [-> ?]. by intros [= <-].
Qed.

Lemma pow2_nonneg (e : Z) : 0 <= e -> pow2 e = PInt (2 ^ e).
Proof. intros He. unfold pow2. destruct (Z.ltb_spec e 0); [lia|reflexivity]. Qed.

Lemma py_sum_ints_from (zs : list Z) (acc : Z) :
  py_sum_from (PInt acc) (map PInt zs) = Ok (PInt (fold_left Z.add zs acc)).
Proof.
  revert acc. induction zs as [|z zs IH]; intros acc; [reflexivity|].
  cbn. apply IH.
Qed.

Lemma sum_py_range (n : nat) (f : Z -> Z) :
  fold_left Z.add (map f (py_range (Z.of_nat n))) 0 = sum_below n f.
Proof.
  induction n as [|n IH]; [reflexivity|].
  rewrite py_range_succ, map_app, fold_left_app, IH. reflexivity.
Qed.

Lemma layers_per_cycle_pos (layers stacks : Z) :
  0 < stacks -> 0 < layers -> layers mod stacks = 0 -> 0 < layers / stacks.
Proof.
  intros Hs Hl Hdiv. apply Z.div_str_pos. split; [lia|].
  apply Z.mod_divide in Hdiv; [|lia]. destruct Hdiv as [q ->].
  assert (0 < q) by nia. nia.
Qed.

(** ** The receptive field *)

Lemma get_receptive_field_size_pos (layers stacks kernel_size : Z) :
  0 < stacks -> layers mod stacks = 0 ->
  _get_receptive_field_size layers stacks kernel_size pow2 =
    Ok (PInt ((kernel_size - 1)
              * sum_below (Z.to_nat layers) (fun i => 2 ^ (i mod (layers / stacks)))
              + 1)).
Proof.
  intros Hs Hdiv. unfold _get_receptive_field_size, py_mod, py_floordiv.
  destruct (Z.eqb_spec stacks 0) as [|_]; [lia|]. cbn.
  rewrite Hdiv. cbn.
  rewrite (mapM_result_Ok _ (fun i => PInt (2 ^ (i mod (layers / stacks))))).
  - cbn. unfold py_sum.
    rewrite <- (map_map (fun i => 2 ^ (i mod (layers / stacks))) PInt).
    rewrite py_sum_ints_from. cbn.
    destruct (Z.le_gt_cases layers 0) as [Hle|Hgt].
    + unfold py_range. replace (Z.to_nat layers) with 0%nat by lia. reflexivity.
    + rewrite <- (Z2Nat.id layers) at 1 by lia. rewrite sum_py_range. reflexivity.
  - intros i Hi. apply elem_of_py_range in Hi.
    assert (0 < layers / stacks) by (apply layers_per_cycle_pos; lia).
    destruct (Z.eqb_spec (layers / stacks) 0) as [|_]; [lia|]. cbn.
    rewrite pow2_nonneg; [reflexivity|]. apply Z.mod_pos_bound. lia.
Qed.

(** ** Frame rules *)

Section Preserves.
Variable I : cstate -> cstate -> Prop.
Hypothesis I_refl : forall s, I s s.
Hypothesis I_trans : forall s1 s2 s3, I s1 s2 -> I s2 s3 -> I s1 s3.

Lemma preserves_bind {A B : Type} (m : StateE cstate A) (k : A -> StateE cstate B) :
  preserves I m -> (forall a, preserves I (k a)) -> preserves I (m ≫= k).
Proof using I_trans.
  intros Hm Hk s r s'. unfold mbind, StateE_bind.
  destruct (m s) as [[a|e] s1] eqn:E; intros H.
  - eapply I_trans; [eapply Hm, E | eapply Hk, H].
  - inversion H; subst. eapply Hm, E.
Qed.

Lemma preserves_ret {A : Type} (a : A) : preserves I (mret a).
Proof using I_refl. intros s r s' [= <- <-]. apply I_refl. Qed.

Lemma preserves_throw {A : Type} (e : exn) : preserves I (mthrow (A:=A) e).
Proof using I_refl. intros s r s' [= <- <-]. apply I_refl. Qed.

Lemma preserves_lift {A : Type} (r : result A) : preserves I (lift r).
Proof using I_refl. intros s r' s' [= <- <-]. apply I_refl. Qed.

Lemma preserves_assert (b : bool) : preserves I (py_assert b).
Proof using I_refl. destruct b; [apply preserves_ret | apply preserves_throw]. Qed.

Lemma preserves_if {A : Type} (b : bool) (m1 m2 : StateE cstate A) :
  preserves I m1 -> preserves I m2 -> preserves I (if b then m1 else m2).
Proof. by destruct b. Qed.

Lemma preserves_for_each {A : Type} (l : list A) (body : A -> StateE cstate unit) :
  (forall x, preserves I (body x)) -> preserves I (for_each l body).
Proof using I_refl I_trans.
  intros Hb. induction l as [|x l IH]; cbn [for_each].
  - apply preserves_ret.
  - apply preserves_bind; [apply Hb | intros _; apply IH].
Qed.

Lemma preserves_dict_read (p : loc) : preserves I (dict_read p).
Proof using I_refl. intros s r s' [= <- <-]. apply I_refl. Qed.

End Preserves.

Section AttrFrames.
Variable ext_raises : ctor_call -> option exn.
Variable name : string.

Lemma keeps_attr_refl s : keeps_attr name s s.
Proof. reflexivity. Qed.

Lemma keeps_attr_trans s1 s2 s3 :
  keeps_attr name s1 s2 -> keeps_attr name s2 s3 -> keeps_attr name s1 s3.
Proof. unfold keeps_attr. congruence. Qed.

Lemma keeps_attr_setattr n v : n <> name -> preserves (keeps_attr name) (setattr n v).
Proof.
  intros Hn s r s' [= <- <-]. unfold keeps_attr. cbn. by apply lookup_insert_ne.
Qed.

Lemma keeps_attr_new c : preserves (keeps_attr name) (new ext_raises c).
Proof.
  intros s r s'. unfold new. destruct (ext_raises c); intros [= <- <-]; reflexivity.
Qed.

Lemma keeps_attr_iadd_modules n ms :
  n <> name -> preserves (keeps_attr name) (iadd_modules n ms).
Proof.
  intros Hn s r s'. unfold iadd_modules.
  destruct (self s !! n) as [[]|]; try (intros [= <- <-]; reflexivity).
  by apply keeps_attr_setattr.
Qed.

Lemma keeps_attr_dict_update p f : preserves (keeps_attr name) (dict_update p f).
Proof. intros s r s' [= <- <-]. reflexivity. Qed.

Lemma keeps_attr_apply_weight_norm_call :
  preserves (keeps_attr name) apply_weight_norm_call.
Proof. intros s r s' [= <- <-]. reflexivity. Qed.

End AttrFrames.

Section HeapFrames.
Variable ext_raises : ctor_call -> option exn.

Lemma keeps_heap_refl s : keeps_heap s s.
Proof. reflexivity. Qed.

Lemma keeps_heap_trans s1 s2 s3 :
  keeps_heap s1 s2 -> keeps_heap s2 s3 -> keeps_heap s1 s3.
Proof. unfold keeps_heap. congruence. Qed.

Lemma keeps_heap_setattr n v : preserves keeps_heap (setattr n v).
Proof. intros s r s' [= <- <-]. reflexivity. Qed.

Lemma keeps_heap_new c : preserves keeps_heap (new ext_raises c).
Proof.
  intros s r s'. unfold new. destruct (ext_raises c); intros [= <- <-]; reflexivity.
Qed.

Lemma keeps_heap_iadd_modules n ms : preserves keeps_heap (iadd_modules n ms).
Proof.
  intros s r s'. unfold iadd_modules.
  destruct (self s !! n) as [[]|]; intros [= <- <-]; reflexivity.
Qed.

Lemma keeps_heap_apply_weight_norm_call : preserves keeps_heap apply_weight_norm_call.
Proof. intros s r s' [= <- <-]. reflexivity. Qed.

End HeapFrames.

Section KeyFrames.
Variable ext_raises : ctor_call -> option exn.
Variable p : loc.
Variable key : string.

Lemma keeps_key_refl s : keeps_key p key s s.
Proof. reflexivity. Qed.

Lemma keeps_key_trans s1 s2 s3 :
  keeps_key p key s1 s2 -> keeps_key p key s2 s3 -> keeps_key p key s1 s3.
Proof. unfold keeps_key. congruence. Qed.

Lemma keeps_key_of_heap {A : Type} (m : StateE cstate A) :
  preserves keeps_heap m -> preserves (keeps_key p key) m.
Proof. intros Hm s r s' H. unfold keeps_key. by rewrite (Hm _ _ _ H). Qed.

Lemma keeps_key_dict_update q f :
  (forall d : dict, f d !! key = d !! key) ->
  preserves (keeps_key p key) (dict_update q f).
Proof.
  intros Hf s r s' [= <- <-]. unfold keeps_key. cbn.
  destruct (decide (q = p)) as [->|Hne].
  - by rewrite lookup_total_insert_eq.
  - by rewrite lookup_total_insert_ne.
Qed.

Lemma keys_grow_refl s : keys_grow s s.
Proof. by intros q k. Qed.

Lemma keys_grow_trans s1 s2 s3 : keys_grow s1 s2 -> keys_grow s2 s3 -> keys_grow s1 s3.
Proof. intros H1 H2 q k Hk. by apply H2, H1. Qed.

Lemma keys_grow_of_heap {A : Type} (m : StateE cstate A) :
  preserves keeps_heap m -> preserves keys_grow m.
Proof. intros Hm s r s' H q k. by rewrite (Hm _ _ _ H). Qed.

Lemma keys_grow_dict_update q f :
  (forall (d : dict) k, is_Some (d !! k) -> is_Some (f d !! k)) ->
  preserves keys_grow (dict_update q f).
Proof.
  intros Hf s r s' [= <- <-] q' k. cbn.
  destruct (decide (q = q')) as [->|Hne].
  - rewrite lookup_total_insert_eq. apply Hf.
  - by rewrite lookup_total_insert_ne.
Qed.

End KeyFrames.

(** The frame rules applied along the structure of the code in the goal;
    [rf] and [tr] solve the two side conditions on the relation, [pr] the
    goals on primitive operations. *)
Ltac frame_gen rf tr pr :=
  repeat first
    [ apply preserves_bind; [tr | | intros ?]
    | apply preserves_ret; rf
    | apply preserves_lift; rf
    | apply preserves_assert; rf
    | apply preserves_dict_read; rf
    | apply preserves_for_each; [rf | tr | intros ?]
    | apply preserves_if
    | pr ].

(** The attribute of the goal is left alone. *)
Ltac frame_attr :=
  frame_gen ltac:(apply keeps_attr_refl) ltac:(apply keeps_attr_trans)
    ltac:(first
      [ apply keeps_attr_setattr; done
      | apply keeps_attr_new
      | apply keeps_attr_iadd_modules; done
      | apply keeps_attr_dict_update
      | apply keeps_attr_apply_weight_norm_call ]).

Ltac frame_heap_prim :=
  first
    [ apply keeps_heap_setattr
    | apply keeps_heap_new
    | apply keeps_heap_iadd_modules
    | apply keeps_heap_apply_weight_norm_call ].

(** The heap of dictionaries is left alone. *)
Ltac frame_heap :=
  frame_gen ltac:(apply keeps_heap_refl) ltac:(apply keeps_heap_trans)
    ltac:(frame_heap_prim).

(** An entry of a dictionary is left alone: the updates insert other keys. *)
Ltac frame_key :=
  frame_gen ltac:(apply keeps_key_refl) ltac:(apply keeps_key_trans)
    ltac:(first
      [ apply keeps_key_dict_update; intros ?; by rewrite ?lookup_insert_ne
      | apply keeps_key_of_heap; frame_heap_prim ]).

(** No key is removed: the updates are insertions. *)
Ltac frame_keys :=
  frame_gen ltac:(apply keys_grow_refl) ltac:(apply keys_grow_trans)
    ltac:(first
      [ apply keys_grow_dict_update; intros ? ? ?;
        rewrite ?lookup_insert_is_Some'; tauto
      | apply keys_grow_of_heap; frame_heap_prim ]).

(** From [H : m s = (r, s')], the attribute [n] is the same in [s] and [s'];
    [defs] unfolds the pieces of [m]. *)
Tactic Notation "frame_of" hyp(H) "for" constr(n) "as" ident(Hf) "unfolding" tactic3(defs) :=
  match type of H with
  | ?m ?s = _ =>
      assert (Hf : preserves (keeps_attr n) m) by (defs; frame_attr);
      specialize (Hf _ _ _ H); unfold keeps_attr in Hf
  end.

(** ** What a successful constructor call is *)

Lemma instantiate_Ok (init : StateE cstate unit) s g s' :
  instantiate init s = (Ok g, s') ->
  init (set_self (fun _ => ∅) s) = (Ok tt, s') /\ g = self s'.
Proof.
  unfold instantiate. destruct (init _) as [[[]|e] s1]; [|discriminate].
  by intros [= <- <-].
Qed.

Lemma setattr_Ok n v s u s' :
  setattr n v s = (Ok u, s') -> s' = set_self (insert n v) s.
Proof. by intros [= _ <-]. Qed.

Lemma new_Ok ext c s m s' :
  new ext c s = (Ok m, s') ->
  mcall m = c /\ self s' = self s /\ heap s' = heap s.
Proof.
  unfold new. destruct (ext c); [discriminate|]. by intros [= <- <-].
Qed.

(** ** The loops that build the residual blocks *)

Lemma blocks_loop (name : string) (body : Z -> StateE cstate unit) (P : Z -> module -> Prop) :
  (forall layer s s' l0,
      self s !! name = Some (OModuleList l0) ->
      body layer s = (Ok tt, s') ->
      exists m, P layer m /\ self s' !! name = Some (OModuleList (l0 ++ [m]))) ->
  forall L s s' l0,
    self s !! name = Some (OModuleList l0) ->
    for_each L body s = (Ok tt, s') ->
    exists bs, self s' !! name = Some (OModuleList (l0 ++ bs)) /\ Forall2 P L bs.
Proof.
  intros Hbody L. induction L as [|layer L IH]; intros s s' l0 Hl0 H.
  - injection H as <-. exists []. by rewrite app_nil_r.
  - cbn [for_each] in H. step H as u s1 Hstep. destruct u.
    destruct (Hbody _ _ _ _ Hl0 Hstep) as (m & HP & Hl1).
    destruct (IH _ _ _ Hl1 H) as (bs & Hbs & HF).
    exists (m :: bs). split; [by rewrite <- app_assoc in Hbs | by constructor].
Qed.

Lemma iadd_modules_Ok name ms s u s' l0 :
  self s !! name = Some (OModuleList l0) ->
  iadd_modules name ms s = (Ok u, s') ->
  self s' !! name = Some (OModuleList (l0 ++ ms)).
Proof.
  intros Hl0. unfold iadd_modules. rewrite Hl0. intros ->%setattr_Ok.
  cbn. apply lookup_insert_eq.
Qed.

Lemma Generator1_init_block_Ok ext a lps layer s s' l0 :
  self s !! "conv_layers" = Some (OModuleList l0) ->
  Generator1.init_block ext a lps layer s = (Ok tt, s') ->
  exists m, dilation_of m = Some (pow2 (layer mod lps))
            /\ self s' !! "conv_layers" = Some (OModuleList (l0 ++ [m])).
Proof.
  intros Hl0 H. unfold Generator1.init_block in H.
  step H as e s1 He. apply lift_Ok_inv in He as [[_ ->]%py_mod_Ok ->].
  step H as conv s2 Hnew. apply new_Ok in Hnew as (Hm & Hself & _).
  exists conv. split.
  - unfold dilation_of. by rewrite Hm.
  - eapply iadd_modules_Ok; [|exact H]. by rewrite Hself.
Qed.

Lemma Generator2_init_block_Ok ext a name j layer s s' l0 :
  self s !! name = Some (OModuleList l0) ->
  Generator2.init_block ext a name j layer s = (Ok tt, s') ->
  exists m, (exists st, Generator2.stacks a !! j = Some st
                        /\ dilation_of m = Some (pow2 (layer mod st)))
            /\ self s' !! name = Some (OModuleList (l0 ++ [m])).
Proof.
  intros Hl0 H. unfold Generator2.init_block in H.
  step H as st s1 Hst. apply lift_Ok_inv in Hst as [Hst ->].
  step H as e s2 He. apply lift_Ok_inv in He as [[_ ->]%py_mod_Ok ->].
  step H as k s3 Hk. apply lift_Ok_inv in Hk as [_ ->].
  step H as conv s4 Hnew. apply new_Ok in Hnew as (Hm & Hself & _).
  exists conv. split.
  - exists st. split.
    + unfold py_index in Hst. destruct (_ !! j); [by injection Hst as ->|discriminate].
    + unfold dilation_of. by rewrite Hm.
  - eapply iadd_modules_Ok; [|exact H]. by rewrite Hself.
Qed.

Lemma Generator1_init_blocks_Ok ext a lps s u s' :
  Generator1.init_blocks ext a lps s = (Ok u, s') ->
  exists blocks,
    self s' !! "conv_layers" = Some (OModuleList blocks)
    /\ length blocks = Z.to_nat (Generator1.layers a)
    /\ forall (i : nat) m, blocks !! i = Some m ->
         dilation_of m = Some (pow2 (Z.of_nat i mod lps)).
Proof.
  intros H. destruct u. unfold Generator1.init_blocks in H.
  step H as u s1 Hset. apply setattr_Ok in Hset as ->.
  eapply (blocks_loop "conv_layers" _
            (fun layer m => dilation_of m = Some (pow2 (layer mod lps))))
    with (l0 := []) in H as (bs & Hbs & HF).
  - exists bs. split; [exact Hbs|]. split.
    + by rewrite <- (Forall2_length _ _ _ HF), length_py_range.
    + intros i m Hi.
      destruct (Forall2_lookup_r _ _ _ _ _ HF Hi) as (layer & Hlayer & Hd).
      by apply lookup_py_range in Hlayer as [-> _].
  - intros. by eapply Generator1_init_block_Ok.
  - cbn. apply lookup_insert_eq.
Qed.

Lemma Generator2_init_blocks_Ok ext a name j s u s' :
  Generator2.init_blocks ext a name j s = (Ok u, s') ->
  exists blocks n,
    Generator2.layers a !! j = Some n
    /\ self s' !! name = Some (OModuleList blocks)
    /\ length blocks = Z.to_nat n
    /\ forall (i : nat) m, blocks !! i = Some m ->
         exists st, Generator2.stacks a !! j = Some st
                    /\ dilation_of m = Some (pow2 (Z.of_nat i mod st)).
Proof.
  intros H. destruct u. unfold Generator2.init_blocks in H.
  step H as u s1 Hset. apply setattr_Ok in Hset as ->.
  step H as n s2 Hn. apply lift_Ok_inv in Hn as [Hn ->].
  eapply (blocks_loop name _
            (fun layer m => exists st, Generator2.stacks a !! j = Some st
                                       /\ dilation_of m = Some (pow2 (layer mod st))))
    with (l0 := []) in H as (bs & Hbs & HF).
  - exists bs, n. split.
    { unfold py_index in Hn. destruct (_ !! j); [by injection Hn as ->|discriminate]. }
    split; [exact Hbs|]. split.
    + by rewrite <- (Forall2_length _ _ _ HF), length_py_range.
    + intros i m Hi.
      destruct (Forall2_lookup_r _ _ _ _ _ HF Hi) as (layer & Hlayer & Hd).
      by apply lookup_py_range in Hlayer as [-> _].
  - intros. by eapply Generator2_init_block_Ok.
  - cbn. apply lookup_insert_eq.
Qed.

Lemma py_assert_Ok {S : Type} (b : bool) (s s' : S) u :
  py_assert (M:=StateE S) b s = (Ok u, s') -> b = true /\ s' = s.
Proof. destruct b; [by intros [= _ <-] | discriminate]. Qed.

(** A successful [Generator1(...)]: the divisibility check has passed and
    [conv_layers] holds [layers] blocks with the dilations of the loop. *)
Lemma Generator1_create_blocks ext a s g s' :
  Generator1.create ext a s = (Ok g, s') ->
  Generator1.stacks a <> 0
  /\ Generator1.layers a mod Generator1.stacks a = 0
  /\ exists blocks,
       g !! "conv_layers" = Some (OModuleList blocks)
       /\ length blocks = Z.to_nat (Generator1.layers a)
       /\ forall (i : nat) m, blocks !! i = Some m ->
            dilation_of m =
              Some (pow2 (Z.of_nat i mod (Generator1.layers a / Generator1.stacks a))).
Proof.
  intros H. apply instantiate_Ok in H as [H ->].
  unfold Generator1.__init__ in H.
  do 7 skip_step H.
  step H as r t1 Hr. apply lift_Ok_inv in Hr as [[Hs ->]%py_mod_Ok _].
  step H as u t2 Hassert. apply py_assert_Ok in Hassert as [Hdiv%Z.eqb_eq _].
  step H as lps t3 Hlps. apply lift_Ok_inv in Hlps as [[_ ->]%py_floordiv_Ok _].
  do 3 skip_step H.
  step H as u' t4 Hblocks.
  apply Generator1_init_blocks_Ok in Hblocks as (blocks & Hb & Hlen & Hdil).
  frame_of H for "conv_layers" as Hf unfolding (unfold Generator1.init_last_conv_layers).
  split; [exact Hs|]. split; [exact Hdiv|].
  exists blocks. by rewrite Hf.
Qed.

(** A successful [Generator2(...)]: each of the two stacks holds [layers[j]]
    blocks with the dilations of its loop. *)
Lemma Generator2_create_blocks ext a s g s' (j : nat) (name : string) :
  (j, name) ∈ [(0%nat, "low_conv_layers"); (1%nat, "up_conv_layers")] ->
  Generator2.create ext a s = (Ok g, s') ->
  exists blocks n,
    Generator2.layers a !! j = Some n
    /\ g !! name = Some (OModuleList blocks)
    /\ length blocks = Z.to_nat n
    /\ forall (i : nat) m, blocks !! i = Some m ->
         exists st, Generator2.stacks a !! j = Some st
                    /\ dilation_of m = Some (pow2 (Z.of_nat i mod st)).
Proof.
  intros Hj H. apply instantiate_Ok in H as [H ->].
  unfold Generator2.__init__ in H. cbv zeta in H.
  do 15 skip_step H.
  step H as u1 t1 Hlow.
  step H as u2 t2 Hup.
  frame_of Hup for "low_conv_layers" as Hkeep
    unfolding (unfold Generator2.init_blocks, Generator2.init_block).
  apply Generator2_init_blocks_Ok in Hlow as (bl & nl & Hnl & Hbl & Hlenl & Hdl).
  apply Generator2_init_blocks_Ok in Hup as (bu & nu & Hnu & Hbu & Hlenu & Hdu).
  apply elem_of_cons in Hj as [[= -> ->]|Hj];
    [|apply list_elem_of_singleton in Hj as [= -> ->]].
  - frame_of H for "low_conv_layers" as Hf
      unfolding (unfold Generator2.init_last_conv_layers).
    exists bl, nl. by rewrite Hf, Hkeep.
  - frame_of H for "up_conv_layers" as Hf
      unfolding (unfold Generator2.init_last_conv_layers).
    exists bu, nu. by rewrite Hf.
Qed.


Lemma succeeds_Ok {S A : Type} (r : result A * S) :
  succeeds r = true -> exists a s, r = (Ok a, s).
Proof. destruct r as [[a|e] s]; [eauto|discriminate]. Qed.
(** The attributes a [Generator1] reads back in [receptive_field_size] are the
    constructor's arguments. *)
Lemma Generator1_create_attrs ext a s g s' :
  Generator1.create ext a s = (Ok g, s') ->
  g !! "layers" = Some (OInt (Generator1.layers a))
  /\ g !! "stacks" = Some (OInt (Generator1.stacks a))
  /\ g !! "kernel_size" = Some (OInt (Generator1.kernel_size a)).
Proof.
  intros H. apply instantiate_Ok in H as [H ->].
  unfold Generator1.__init__ in H.
  do 4 skip_step H.
  step H as u1 t1 Hl. apply setattr_Ok in Hl as ->.
  frame_of H for "layers" as Hfl
    unfolding (unfold Generator1.init_upsample, Generator1.init_blocks,
                 Generator1.init_block, Generator1.init_last_conv_layers).
  step H as u2 t2 Hs. apply setattr_Ok in Hs as ->.
  frame_of H for "stacks" as Hfs
    unfolding (unfold Generator1.init_upsample, Generator1.init_blocks,
                 Generator1.init_block, Generator1.init_last_conv_layers).
  step H as u3 t3 Hk. apply setattr_Ok in Hk as ->.
  frame_of H for "kernel_size" as Hfk
    unfolding (unfold Generator1.init_upsample, Generator1.init_blocks,
                 Generator1.init_block, Generator1.init_last_conv_layers).
  rewrite Hfl, Hfs, Hfk. cbn.
  split; [apply lookup_insert_eq|]. split; apply lookup_insert_eq.
Qed.

(** C3 (as amended). For an instance whose [layers], [stacks] and
    [kernel_size] attributes are integers with [layers] divisible by a
    positive number of stacks, the [receptive_field_size] property is the
    integer
    [(kernel_size - 1) * (sum over i in [0, layers) of 2 ^ (i mod (layers / stacks))) + 1];
    so it is on every constructed [Generator1] with a positive number of
    stacks. For [kernel_size = 3], [layers = 6], [stacks = 3] the value
    is 19. *)
Theorem receptive_field_size_closed_form :
  (forall (self : obj) (layers stacks kernel_size : Z),
      self !! "layers" = Some (OInt layers) ->
      self !! "stacks" = Some (OInt stacks) ->
      self !! "kernel_size" = Some (OInt kernel_size) ->
      0 < stacks -> layers mod stacks = 0 ->
      receptive_field_size self =
        Ok (PInt ((kernel_size - 1)
                  * sum_below (Z.to_nat layers) (fun i => 2 ^ (i mod (layers / stacks)))
                  + 1)))
  /\ (forall ext a s g s',
        Generator1.create ext a s = (Ok g, s') ->
        0 < Generator1.stacks a ->
        receptive_field_size g =
          Ok (PInt ((Generator1.kernel_size a - 1)
                    * sum_below (Z.to_nat (Generator1.layers a))
                        (fun i => 2 ^ (i mod (Generator1.layers a / Generator1.stacks a)))
                    + 1)))
  /\ _get_receptive_field_size 6 3 3 pow2 = Ok (PInt 19).
Proof.
  assert (Hself : forall (self : obj) (layers stacks kernel_size : Z),
    self !! "layers" = Some (OInt layers) ->
    self !! "stacks" = Some (OInt stacks) ->
    self !! "kernel_size" = Some (OInt kernel_size) ->
    0 < stacks -> layers mod stacks = 0 ->
    receptive_field_size self =
      Ok (PInt ((kernel_size - 1)
                * sum_below (Z.to_nat layers) (fun i => 2 ^ (i mod (layers / stacks)))
                + 1))).
  { intros self layers stacks kernel_size Hl Hs Hk Hpos Hdiv.
    unfold receptive_field_size, getattr. rewrite Hl, Hs, Hk. cbn.
    by apply get_receptive_field_size_pos. }
  split; [exact Hself|]. split; [|reflexivity].
  intros ext a s g s' H Hpos.
  destruct (Generator1_create_attrs _ _ _ _ _ H) as (Hl & Hs & Hk).
  destruct (Generator1_create_blocks _ _ _ _ _ H) as (_ & Hdiv & _).
  by apply Hself.
Qed.

Lemma receptive_field_size_closed_form_witness :
  receptive_field_size
    (<["layers" := OInt 6]> (<["stacks" := OInt 3]> (<["kernel_size" := OInt 3]> ∅)))
  = Ok (PInt 19).
Proof.
  exact (proj1 receptive_field_size_closed_form
           (<["layers" := OInt 6]> (<["stacks" := OInt 3]> (<["kernel_size" := OInt 3]> ∅)))
           6 3 3 eq_refl eq_refl eq_refl eq_refl eq_refl).
Defined.

(** The check [layers % stacks == 0] also passes for a negative number of
    stacks. [Generator1(layers=60, stacks=-1)] is constructed; its dilations
    are [2 ** (i % -60)], that is 1 and the floats [2 ** -59], ..., [2 ** -1];
    their sum and the result are rounded, and the property is the float
    [5.0], where the closed form is [5 - 2 ** -58]. *)
Lemma receptive_field_size_closed_form_counterexample :
  exists g s' q,
    Generator1.create ext_ok (Generator1_layers 60 (-1)) initial_state = (Ok g, s')
    /\ 60 mod (-1) = 0
    /\ receptive_field_size g = Ok (PFloat 5)
    /\ pynum_Q (PFloat 5) = Some q
    /\ (q == 5)%Q
    /\ (receptive_field_spec 60 (-1) 3 == 5 - Qpower 2 (-58))%Q
    /\ ~ (q == receptive_field_spec 60 (-1) 3)%Q.
Proof.
  destruct (succeeds_Ok (Generator1.create ext_ok (Generator1_layers 60 (-1)) initial_state))
    as (g & s' & E); [vm_compute; reflexivity|].
  destruct (Generator1_create_attrs _ _ _ _ _ E) as (Hl & Hs & Hk).
  exists g, s'. eexists. split; [exact E|]. clear E.
  split; [reflexivity|].
  split.
  { unfold receptive_field_size, getattr. rewrite Hl, Hs, Hk.
    vm_compute. reflexivity. }
  split; [vm_compute; reflexivity|].
  split; [vm_compute; reflexivity|].
  split; [vm_compute; reflexivity|].
  vm_compute. intros H. discriminate H.
Qed.

(** C1 (as amended). In a constructed [Generator1] the [i]-th residual block
    has dilation [2 ** (i % (layers // stacks))], a sequence of period
    [layers // stacks]; in a constructed [Generator2] the [i]-th block of
    branch [j] has dilation [2 ** (i % stacks[j])], a sequence of period
    [stacks[j]]. With a positive number of stacks these are the integers
    [2 ^ (i mod p)]. *)
Theorem dilation_schedule (ext : ctor_call -> option exn) :
  (forall a s g s',
      Generator1.create ext a s = (Ok g, s') ->
      let p := Generator1.layers a / Generator1.stacks a in
      exists blocks,
        g !! "conv_layers" = Some (OModuleList blocks)
        /\ length blocks = Z.to_nat (Generator1.layers a)
        /\ (forall (i : nat) m, blocks !! i = Some m ->
              dilation_of m = Some (pow2 (Z.of_nat i mod p))
              /\ (0 < Generator1.stacks a ->
                  dilation_of m = Some (PInt (2 ^ (Z.of_nat i mod p)))))
        /\ (forall (i i' : nat) m m',
              blocks !! i = Some m -> blocks !! i' = Some m' ->
              Z.of_nat i mod p = Z.of_nat i' mod p ->
              dilation_of m = dilation_of m'))
  /\ (forall a s g s' (j : nat) (name : string),
        (j, name) ∈ [(0%nat, "low_conv_layers"); (1%nat, "up_conv_layers")] ->
        Generator2.create ext a s = (Ok g, s') ->
        exists blocks n,
          Generator2.layers a !! j = Some n
          /\ g !! name = Some (OModuleList blocks)
          /\ length blocks = Z.to_nat n
          /\ (forall (i : nat) m, blocks !! i = Some m ->
                exists p, Generator2.stacks a !! j = Some p
                  /\ dilation_of m = Some (pow2 (Z.of_nat i mod p))
                  /\ (0 < p -> dilation_of m = Some (PInt (2 ^ (Z.of_nat i mod p)))))
          /\ (forall (i i' : nat) m m' p,
                blocks !! i = Some m -> blocks !! i' = Some m' ->
                Generator2.stacks a !! j = Some p ->
                Z.of_nat i mod p = Z.of_nat i' mod p ->
                dilation_of m = dilation_of m')).
Proof.
  split.
  - intros a s g s' H p.
    apply Generator1_create_blocks in H as (Hs & Hdiv & blocks & Hb & Hlen & Hdil).
    exists blocks. repeat split; [exact Hb | exact Hlen | by apply Hdil | |].
    + intros Hpos. rewrite (Hdil _ _ H). f_equal. apply pow2_nonneg.
      apply lookup_lt_Some in H.
      assert (0 < p) by (apply layers_per_cycle_pos; lia).
      apply Z.mod_pos_bound. lia.
    + intros i i' m m' Hi Hi' Heq.
      rewrite (Hdil _ _ Hi), (Hdil _ _ Hi'). fold p. by rewrite Heq.
  - intros a s g s' j name Hj H.
    destruct (Generator2_create_blocks _ _ _ _ _ _ _ Hj H)
      as (blocks & n & Hn & Hb & Hlen & Hdil).
    exists blocks, n. repeat split; [exact Hn | exact Hb | exact Hlen | |].
    + intros i m Hi. destruct (Hdil _ _ Hi) as (p & Hp & Hd).
      exists p. split; [exact Hp|]. split; [exact Hd|].
      intros Hpos. rewrite Hd. f_equal. apply pow2_nonneg.
      apply Z.mod_pos_bound. lia.
    + intros i i' m m' p Hi Hi' Hp Heq.
      destruct (Hdil _ _ Hi) as (p1 & Hp1 & ->).
      destruct (Hdil _ _ Hi') as (p2 & Hp2 & ->).
      rewrite Hp in Hp1, Hp2. injection Hp1 as <-. injection Hp2 as <-.
      by rewrite Heq.
Qed.

Lemma dilation_schedule_witness :
  (exists g s' blocks,
      Generator1.create ext_ok Generator1.defaults initial_state = (Ok g, s')
      /\ g !! "conv_layers" = Some (OModuleList blocks)
      /\ length blocks = 30%nat)
  /\ (exists g s' blocks,
        Generator2.create ext_ok Generator2.defaults initial_state = (Ok g, s')
        /\ g !! "up_conv_layers" = Some (OModuleList blocks)
        /\ length blocks = 15%nat).
Proof.
  split.
  - destruct (succeeds_Ok (Generator1.create ext_ok Generator1.defaults initial_state))
      as (g & s' & E); [by vm_compute|].
    destruct (proj1 (dilation_schedule ext_ok) _ _ _ _ E) as (blocks & Hb & Hlen & _).
    exists g, s', blocks. split; [exact E|]. split; [exact Hb | exact Hlen].
  - destruct (succeeds_Ok (Generator2.create ext_ok Generator2.defaults initial_state))
      as (g & s' & E); [by vm_compute|].
    destruct (proj2 (dilation_schedule ext_ok) _ _ _ _ 1%nat "up_conv_layers"
                ltac:(right; left) E) as (blocks & n & Hn & Hb & Hlen & _).
    injection Hn as <-.
    exists g, s', blocks. split; [exact E|]. split; [exact Hb | exact Hlen].
Defined.

(** C1 as stated fails for [Generator2]: with the default arguments
    ([layers = [16, 15]], [stacks = [8, 5]]) block 2 of the low branch is built
    with dilation [2 ** (2 % 8) = 4], not [2 ** (2 % (16 // 8)) = 1]. *)
Lemma dilation_schedule_counterexample :
  ~ (forall ext a s g s' blocks (i : nat) m n st,
        Generator2.create ext a s = (Ok g, s') ->
        g !! "low_conv_layers" = Some (OModuleList blocks) ->
        blocks !! i = Some m ->
        Generator2.layers a !! 0%nat = Some n ->
        Generator2.stacks a !! 0%nat = Some st ->
        dilation_of m = Some (pow2 (Z.of_nat i mod (n / st)))).
Proof.
  intros Hclaim.
  destruct (succeeds_Ok (Generator2.create ext_ok Generator2.defaults initial_state))
    as (g & s' & E); [by vm_compute|].
  destruct (Generator2_create_blocks _ _ _ _ _ 0%nat "low_conv_layers"
              ltac:(left) E) as (blocks & n & Hn & Hb & Hlen & Hdil).
  injection Hn as <-.
  destruct (lookup_lt_is_Some_2 blocks 2) as [m Hm]; [rewrite Hlen; cbn; lia|].
  specialize (Hclaim _ _ _ _ _ _ _ _ _ _ E Hb Hm eq_refl eq_refl).
  destruct (Hdil _ _ Hm) as (st & [= <-] & Hd).
  rewrite Hd in Hclaim. vm_compute in Hclaim. discriminate Hclaim.
Qed.

(** C4. On every constructed [Generator2], reading [receptive_field_size]
    raises [AttributeError]: the constructor stores [stacks] as the list it
    was given and never stores [layers] or [kernel_size]; the first attribute
    the property reads, [layers], is missing. *)
Theorem Generator2_receptive_field_size_raises ext a s g s' :
  Generator2.create ext a s = (Ok g, s') ->
  receptive_field_size g = Raise (AttributeError "layers")
  /\ g !! "layers" = None
  /\ g !! "kernel_size" = None
  /\ g !! "stacks" = Some (OInts (Generator2.stacks a)).
Proof.
  intros H. apply instantiate_Ok in H as [H ->].
  assert (Hl : self s' !! "layers" = None).
  { frame_of H for "layers" as Hf
      unfolding (unfold Generator2.__init__, Generator2.init_blocks,
                   Generator2.init_block, Generator2.init_last_conv_layers).
    by rewrite Hf. }
  assert (Hk : self s' !! "kernel_size" = None).
  { frame_of H for "kernel_size" as Hf
      unfolding (unfold Generator2.__init__, Generator2.init_blocks,
                   Generator2.init_block, Generator2.init_last_conv_layers).
    by rewrite Hf. }
  split; [|split; [exact Hl | split; [exact Hk|]]].
  - unfold receptive_field_size, getattr. by rewrite Hl.
  - unfold Generator2.__init__ in H. cbv zeta in H.
    do 3 skip_step H.
    step H as u t1 Hset. apply setattr_Ok in Hset as ->.
    frame_of H for "stacks" as Hf
      unfolding (unfold Generator2.init_blocks,
                   Generator2.init_block, Generator2.init_last_conv_layers).
    rewrite Hf. cbn. apply lookup_insert_eq.
Qed.

Lemma Generator2_receptive_field_size_raises_witness :
  exists g s',
    Generator2.create ext_ok Generator2.defaults initial_state = (Ok g, s')
    /\ receptive_field_size g = Raise (AttributeError "layers").
Proof.
  destruct (succeeds_Ok (Generator2.create ext_ok Generator2.defaults initial_state))
    as (g & s' & E); [by vm_compute|].
  exists g, s'. split; [exact E|].
  exact (proj1 (Generator2_receptive_field_size_raises _ _ _ _ _ E)).
Defined.

(** ** The output heads *)

Lemma Generator1_init_last_conv_layers_Ok ext a s u s' :
  Generator1.init_last_conv_layers ext a s = (Ok u, s') ->
  exists ms,
    self s' !! "last_conv_layers" = Some (OModuleList ms)
    /\ map mcall ms =
         [CReLU true;
          CConv1d1x1 (Generator1.skip_channels a) (Generator1.skip_channels a) true;
          CReLU true;
          CConv1d1x1 (Generator1.skip_channels a) (Generator1.in_channels a) true].
Proof.
  intros H. unfold Generator1.init_last_conv_layers in H.
  step H as m1 t1 H1. apply new_Ok in H1 as (H1 & _).
  step H as m2 t2 H2. apply new_Ok in H2 as (H2 & _).
  step H as m3 t3 H3. apply new_Ok in H3 as (H3 & _).
  step H as m4 t4 H4. apply new_Ok in H4 as (H4 & _).
  apply setattr_Ok in H as ->.
  exists [m1; m2; m3; m4]. split; [apply lookup_insert_eq|].
  cbn. by rewrite H1, H2, H3, H4.
Qed.

Lemma Generator2_init_last_conv_layers_Ok ext a name s u s' :
  Generator2.init_last_conv_layers ext a name s = (Ok u, s') ->
  exists ms,
    self s' !! name = Some (OModuleList ms)
    /\ map mcall ms =
         [CReLU true;
          CConv1d1x1 (Generator2.residual_channels a) (Generator2.residual_channels a) true;
          CReLU true;
          CConv1d1x1 (Generator2.residual_channels a) (Generator2.out_channels a / 2) true].
Proof.
  intros H. unfold Generator2.init_last_conv_layers in H.
  step H as m1 t1 H1. apply new_Ok in H1 as (H1 & _).
  step H as m2 t2 H2. apply new_Ok in H2 as (H2 & _).
  step H as m3 t3 H3. apply new_Ok in H3 as (H3 & _).
  step H as m4 t4 H4. apply new_Ok in H4 as (H4 & _).
  apply setattr_Ok in H as ->.
  exists [m1; m2; m3; m4]. split; [apply lookup_insert_eq|].
  cbn. by rewrite H1, H2, H3, H4.
Qed.

Lemma Generator1_create_last_conv_layers ext a s g s' :
  Generator1.create ext a s = (Ok g, s') ->
  exists ms,
    g !! "last_conv_layers" = Some (OModuleList ms)
    /\ map mcall ms =
         [CReLU true;
          CConv1d1x1 (Generator1.skip_channels a) (Generator1.skip_channels a) true;
          CReLU true;
          CConv1d1x1 (Generator1.skip_channels a) (Generator1.in_channels a) true].
Proof.
  intros H. apply instantiate_Ok in H as [H ->].
  unfold Generator1.__init__ in H.
  do 14 skip_step H.
  step H as u t1 Hlast.
  apply Generator1_init_last_conv_layers_Ok in Hlast as (ms & Hms & Hcalls).
  frame_of H for "last_conv_layers" as Hf unfolding idtac.
  exists ms. by rewrite Hf.
Qed.

(** C8 (as amended). Each output head is the list
    [ReLU, Conv1d1x1, ReLU, Conv1d1x1]. In [Generator1] the two convolutions
    map [skip_channels] to [skip_channels] and [skip_channels] to
    [in_channels]; in [Generator2] each of the two heads maps
    [residual_channels] to [residual_channels] and [residual_channels] to
    [out_channels // 2], which add up to [out_channels] when [out_channels]
    is even. *)
Theorem output_heads (ext : ctor_call -> option exn) :
  (forall a s g s',
      Generator1.create ext a s = (Ok g, s') ->
      exists ms,
        g !! "last_conv_layers" = Some (OModuleList ms)
        /\ map mcall ms =
             [CReLU true;
              CConv1d1x1 (Generator1.skip_channels a) (Generator1.skip_channels a) true;
              CReLU true;
              CConv1d1x1 (Generator1.skip_channels a) (Generator1.in_channels a) true])
  /\ (forall a s g s' (name : string),
        name ∈ ["last_low_conv_layers"; "last_up_conv_layers"] ->
        Generator2.create ext a s = (Ok g, s') ->
        exists ms,
          g !! name = Some (OModuleList ms)
          /\ map mcall ms =
               [CReLU true;
                CConv1d1x1 (Generator2.residual_channels a)
                           (Generator2.residual_channels a) true;
                CReLU true;
                CConv1d1x1 (Generator2.residual_channels a)
                           (Generator2.out_channels a / 2) true]
          /\ (Generator2.out_channels a mod 2 = 0 ->
              Generator2.out_channels a / 2 + Generator2.out_channels a / 2
              = Generator2.out_channels a)).
Proof.
  split; [intros a s g s'; apply Generator1_create_last_conv_layers|].
  intros a s g s' name Hname H. apply instantiate_Ok in H as [H ->].
  unfold Generator2.__init__ in H. cbv zeta in H.
  do 17 skip_step H.
  step H as u1 t1 Hlow.
  step H as u2 t2 Hup.
  frame_of Hup for "last_low_conv_layers" as Hkeep
    unfolding (unfold Generator2.init_last_conv_layers).
  apply Generator2_init_last_conv_layers_Ok in Hlow as (ml & Hml & Hcl).
  apply Generator2_init_last_conv_layers_Ok in Hup as (mu & Hmu & Hcu).
  assert (Harith : Generator2.out_channels a mod 2 = 0 ->
            Generator2.out_channels a / 2 + Generator2.out_channels a / 2
            = Generator2.out_channels a).
  { intros Hev. pose proof (Z.div_mod (Generator2.out_channels a) 2). lia. }
  apply elem_of_cons in Hname as [->|Hname];
    [|apply list_elem_of_singleton in Hname as ->].
  - frame_of H for "last_low_conv_layers" as Hf unfolding idtac.
    exists ml. by rewrite Hf, Hkeep.
  - frame_of H for "last_up_conv_layers" as Hf unfolding idtac.
    exists mu. by rewrite Hf.
Qed.

Lemma output_heads_witness :
  (exists g s' ms,
      Generator1.create ext_ok Generator1_four_band initial_state = (Ok g, s')
      /\ g !! "last_conv_layers" = Some (OModuleList ms)
      /\ map mcall ms
         = [CReLU true; CConv1d1x1 64 64 true; CReLU true; CConv1d1x1 64 4 true])
  /\ (exists g s' ms,
        Generator2.create ext_ok Generator2.defaults initial_state = (Ok g, s')
        /\ g !! "last_up_conv_layers" = Some (OModuleList ms)
        /\ map mcall ms
           = [CReLU true; CConv1d1x1 64 64 true; CReLU true; CConv1d1x1 64 2 true]).
Proof.
  split.
  - destruct (succeeds_Ok (Generator1.create ext_ok Generator1_four_band initial_state))
      as (g & s' & E); [by vm_compute|].
    destruct (proj1 (output_heads ext_ok) _ _ _ _ E) as (ms & Hms & Hcalls).
    exists g, s', ms. split; [exact E|]. split; [exact Hms | exact Hcalls].
  - destruct (succeeds_Ok (Generator2.create ext_ok Generator2.defaults initial_state))
      as (g & s' & E); [by vm_compute|].
    destruct (proj2 (output_heads ext_ok) _ _ _ _ "last_up_conv_layers"
                ltac:(right; left) E) as (ms & Hms & Hcalls & _).
    exists g, s', ms. split; [exact E|]. split; [exact Hms | exact Hcalls].
Defined.

(** C8 as stated fails for [Generator1]: in a four-band generator
    ([in_channels = 4], [out_channels = 1]) the last convolution of the head
    has 4 output channels, not [out_channels = 1]. *)
Lemma output_heads_counterexample :
  ~ (forall ext a s g s' ms,
        Generator1.create ext a s = (Ok g, s') ->
        g !! "last_conv_layers" = Some (OModuleList ms) ->
        last (map mcall ms)
        = Some (CConv1d1x1 (Generator1.skip_channels a) (Generator1.out_channels a) true)).
Proof.
  intros Hclaim.
  destruct (succeeds_Ok (Generator1.create ext_ok Generator1_four_band initial_state))
    as (g & s' & E); [by vm_compute|].
  destruct (Generator1_create_last_conv_layers _ _ _ _ _ E) as (ms & Hms & Hcalls).
  specialize (Hclaim _ _ _ _ _ _ E Hms).
  rewrite Hcalls in Hclaim. vm_compute in Hclaim. discriminate Hclaim.
Qed.

(** ** Running a constructor forwards *)

Lemma bind_run {S A B : Type} (m : StateE S A) (k : A -> StateE S B) s a s1 :
  m s = (Ok a, s1) -> (m ≫= k) s = k a s1.
Proof. unfold mbind, StateE_bind. by intros ->. Qed.

Lemma bind_setattr {B : Type} n v (k : unit -> StateE cstate B) s :
  (setattr n v ≫= k) s = k tt (set_self (insert n v) s).
Proof. reflexivity. Qed.

Lemma bind_lift {S A B : Type} (r : result A) (k : A -> StateE S B) s :
  (lift r ≫= k) s = match r with Ok a => k a s | Raise e => (Raise e, s) end.
Proof. by destruct r. Qed.

Lemma bind_new_ok {B : Type} c (k : module -> StateE cstate B) s :
  (new ext_ok c ≫= k) s =
    k {| mid := length (trace s); mcall := c |}
      (set_trace (fun t => t ++ [EvNew {| mid := length (trace s); mcall := c |}]) s).
Proof. reflexivity. Qed.

Lemma bind_dict_update {B : Type} p f (k : unit -> StateE cstate B) s :
  (dict_update p f ≫= k) s = k tt (set_heap (fun h => <[p := f (h !!! p)]> h) s).
Proof. reflexivity. Qed.

Lemma bind_dict_read {B : Type} p (k : dict -> StateE cstate B) s :
  (dict_read p ≫= k) s = k (heap s !!! p) s.
Proof. reflexivity. Qed.

(** ** The divisibility check *)

Lemma Generator2_init_block_succeeds a name j layer s l0 st k :
  Generator2.stacks a !! j = Some st -> st <> 0 ->
  Generator2.kernel_sizes a !! j = Some k ->
  self s !! name = Some (OModuleList l0) ->
  exists s' l1,
    Generator2.init_block ext_ok a name j layer s = (Ok tt, s')
    /\ self s' !! name = Some (OModuleList l1)
    /\ heap s' = heap s.
Proof.
  intros Hst Hnz Hk Hl0. unfold Generator2.init_block, py_index, py_mod.
  rewrite Hst, Hk, bind_lift, bind_lift.
  destruct (Z.eqb_spec st 0) as [|_]; [done|].
  rewrite bind_lift, bind_new_ok. unfold iadd_modules. cbn [self set_trace].
  rewrite Hl0. eexists _, _. split; [reflexivity|].
  split; [apply lookup_insert_eq | reflexivity].
Qed.

Lemma for_each_succeeds (name : string) (body : Z -> StateE cstate unit) :
  (forall layer s l0,
      self s !! name = Some (OModuleList l0) ->
      exists s' l1, body layer s = (Ok tt, s')
                    /\ self s' !! name = Some (OModuleList l1)
                    /\ heap s' = heap s) ->
  forall L s l0,
    self s !! name = Some (OModuleList l0) ->
    exists s', for_each L body s = (Ok tt, s') /\ heap s' = heap s.
Proof.
  intros Hbody L. induction L as [|layer L IH]; intros s l0 Hl0.
  - by exists s.
  - destruct (Hbody layer _ _ Hl0) as (s1 & l1 & Hrun & Hl1 & Hheap).
    destruct (IH _ _ Hl1) as (s' & Hrest & Hheap').
    exists s'. cbn [for_each]. rewrite (bind_run _ _ _ _ _ Hrun).
    split; [exact Hrest | congruence].
Qed.

Lemma Generator2_init_blocks_succeeds a name j s n st k :
  Generator2.layers a !! j = Some n ->
  Generator2.stacks a !! j = Some st -> st <> 0 ->
  Generator2.kernel_sizes a !! j = Some k ->
  exists s', Generator2.init_blocks ext_ok a name j s = (Ok tt, s') /\ heap s' = heap s.
Proof.
  intros Hn Hst Hnz Hk. unfold Generator2.init_blocks, py_index.
  rewrite bind_setattr, Hn, bind_lift.
  destruct (for_each_succeeds name (Generator2.init_block ext_ok a name j))
    with (L := py_range n) (s := set_self (insert name (OModuleList [])) s) (l0 := @nil module)
    as (s' & Hrun & Hheap).
  - intros. by eapply Generator2_init_block_succeeds.
  - cbn. apply lookup_insert_eq.
  - by exists s'.
Qed.

Lemma Generator2_init_last_conv_layers_succeeds a name s :
  exists s', Generator2.init_last_conv_layers ext_ok a name s = (Ok tt, s')
             /\ heap s' = heap s.
Proof.
  unfold Generator2.init_last_conv_layers.
  rewrite !bind_new_ok. eexists. split; reflexivity.
Qed.

(** C2 (as amended). [Generator1(...)] with [layers] not a multiple of
    [stacks] raises before any sub-module is built and before the dictionary
    is touched ([AssertionError], or [ZeroDivisionError] when [stacks] is 0),
    and yields no instance. [Generator2(...)] makes no such check: with two
    entries per list, non-zero [stacks[j]] and collaborators that build, it
    returns an instance whatever [layers[j] % stacks[j]] is. *)
Theorem divisibility_check :
  (forall ext a s,
      ~ (Generator1.stacks a <> 0
         /\ Generator1.layers a mod Generator1.stacks a = 0) ->
      exists s1,
        Generator1.create ext a s
        = (Raise (if Generator1.stacks a =? 0 then ZeroDivisionError else AssertionError),
           s1)
        /\ trace s1 = trace s /\ heap s1 = heap s)
  /\ (forall a s n0 n1 st0 st1 k0 k1 scales,
        Generator2.layers a = [n0; n1] ->
        Generator2.stacks a = [st0; st1] ->
        Generator2.kernel_sizes a = [k0; k1] ->
        st0 <> 0 -> st1 <> 0 ->
        (heap s !!! Generator2.upsample_params a) !! "upsample_scales" = Some scales ->
        succeeds (Generator2.create ext_ok a s) = true).
Proof.
  split.
  - intros ext a s Hnot.
    unfold Generator1.create, instantiate, Generator1.__init__.
    rewrite !bind_setattr, bind_lift. unfold py_mod.
    destruct (Z.eqb_spec (Generator1.stacks a) 0) as [Hz|Hnz].
    + eexists. split; [reflexivity|]. split; reflexivity.
    + destruct (Z.eqb_spec (Generator1.layers a mod Generator1.stacks a) 0) as [Hd|Hnd];
        [tauto|].
      eexists. split; [reflexivity|]. split; reflexivity.
  - intros a s n0 n1 st0 st1 k0 k1 scales Hl Hs Hk Hz0 Hz1 Hscales.
    unfold Generator2.create, instantiate, Generator2.__init__. cbv zeta.
    rewrite !bind_setattr, bind_new_ok, !bind_setattr, bind_new_ok, bind_setattr,
      bind_new_ok, bind_setattr, bind_dict_update, bind_dict_read, bind_new_ok,
      bind_setattr.
    match goal with
    | |- context [ (Generator2.init_blocks ext_ok a "low_conv_layers" 0 ≫= _) ?s0 ] =>
        destruct (Generator2_init_blocks_succeeds a "low_conv_layers" 0 s0 n0 st0 k0)
          as (t1 & Hrun1 & Hheap1); [by rewrite Hl | by rewrite Hs | done | by rewrite Hk |]
    end.
    rewrite (bind_run _ _ _ _ _ Hrun1).
    destruct (Generator2_init_blocks_succeeds a "up_conv_layers" 1 t1 n1 st1 k1)
      as (t2 & Hrun2 & Hheap2); [by rewrite Hl | by rewrite Hs | done | by rewrite Hk |].
    rewrite (bind_run _ _ _ _ _ Hrun2).
    destruct (Generator2_init_last_conv_layers_succeeds a "last_low_conv_layers" t2)
      as (t3 & Hrun3 & Hheap3).
    rewrite (bind_run _ _ _ _ _ Hrun3).
    destruct (Generator2_init_last_conv_layers_succeeds a "last_up_conv_layers" t3)
      as (t4 & Hrun4 & Hheap4).
    rewrite (bind_run _ _ _ _ _ Hrun4).
    rewrite bind_dict_read, Hheap4, Hheap3, Hheap2, Hheap1.
    cbn [heap set_self set_trace set_heap].
    rewrite lookup_total_insert_eq. unfold dict_getitem.
    rewrite !lookup_insert_ne by done. rewrite Hscales, bind_lift, bind_setattr.
    by destruct (Generator2.use_weight_norm a).
Qed.

Lemma divisibility_check_witness :
  (exists s1,
      Generator1.create ext_ok Generator1_ten_by_three initial_state
      = (Raise AssertionError, s1)
      /\ trace s1 = [] /\ heap s1 = heap initial_state)
  /\ succeeds (Generator2.create ext_ok Generator2_sixteen_by_three initial_state) = true.
Proof.
  split.
  - apply (proj1 divisibility_check ext_ok Generator1_ten_by_three initial_state).
    vm_compute. intros [_ H]. discriminate H.
  - apply (proj2 divisibility_check Generator2_sixteen_by_three initial_state
             16 15 3 5 7 5 (VInts [4; 4; 4; 4]));
      first [reflexivity | discriminate].
Defined.

(** C2 as stated fails for [Generator2]: [layers[0] = 16] is not a multiple
    of [stacks[0] = 3], and the constructor returns an instance with the 16
    blocks of the low branch. *)
Lemma divisibility_check_counterexample :
  ~ (forall ext a s (j : nat) n st,
        Generator2.layers a !! j = Some n ->
        Generator2.stacks a !! j = Some st ->
        n mod st <> 0 ->
        succeeds (Generator2.create ext a s) = false).
Proof.
  intros Hclaim.
  specialize (Hclaim ext_ok Generator2_sixteen_by_three initial_state 0%nat 16 3
                eq_refl eq_refl ltac:(discriminate)).
  vm_compute in Hclaim. discriminate Hclaim.
Qed.

(** ** The dictionary of upsampling parameters *)

Lemma new_Ok_state ext c s m s' :
  new ext c s = (Ok m, s') ->
  mcall m = c /\ s' = set_trace (fun t => t ++ [EvNew m]) s.
Proof.
  unfold new. destruct (ext c); [discriminate|]. by intros [= <- <-].
Qed.

Lemma dict_update_Ok p f s u s' :
  dict_update p f s = (Ok u, s') -> s' = set_heap (fun h => <[p := f (h !!! p)]> h) s.
Proof. by intros [= _ <-]. Qed.

Lemma dict_read_Ok p s d s' :
  dict_read p s = (Ok d, s') -> d = heap s !!! p /\ s' = s.
Proof. by intros [= <- <-]. Qed.

(** From [H : m s = (r, s')], the heap is the same in [s] and [s']. *)
Tactic Notation "heap_frame_of" hyp(H) "as" ident(Hf) "unfolding" tactic3(defs) :=
  match type of H with
  | ?m ?s = _ =>
      assert (Hf : preserves keeps_heap m) by (defs; frame_heap);
      specialize (Hf _ _ _ H); unfold keeps_heap in Hf
  end.

Ltac simpl_state := cbn [heap self trace set_self set_heap set_trace] in *.

(** A lookup in a map built by insertions of literal keys. *)
Ltac lookup_inserted :=
  rewrite ?lookup_insert_ne by done; rewrite ?lookup_insert_eq; done.

Lemma Generator1_init_upsample_Ok ext a s u s' :
  Generator1.upsample_conditional_features a = true ->
  Generator1.init_upsample ext a s = (Ok u, s') ->
  let d' := heap s' !!! Generator1.upsample_params a in
  d' !! "use_causal_conv" = Some (VBool (Generator1.use_causal_conv a))
  /\ (Generator1.upsample_net a = "ConvInUpsampleNetwork" ->
      d' !! "aux_channels" = Some (VInt (Generator1.aux_channels a))
      /\ d' !! "aux_context_window" = Some (VInt (Generator1.aux_context_window a)))
  /\ (Generator1.upsample_net a = "MelGANGenerator" ->
      d' !! "use_weight_norm" = Some (VBool false)
      /\ d' !! "use_final_nonlinear_activation" = Some (VBool false))
  /\ exists m,
       self s' !! "upsample_net" = Some (OModule m)
       /\ mcall m =
            if String.eqb (Generator1.upsample_net a) "MelGANGenerator"
            then CModels (Generator1.upsample_net a) d'
            else CUpsample (Generator1.upsample_net a) d'.
Proof.
  intros Hflag H. unfold Generator1.init_upsample in H. cbv zeta in H.
  rewrite Hflag in H.
  step H as u1 t1 Hupd. apply dict_update_Ok in Hupd as ->.
  step H as u2 t2 Hif.
  step H as kw t3 Hread. apply dict_read_Ok in Hread as [-> ->].
  step H as scales t4 Hget. apply lift_Ok_inv in Hget as [_ ->].
  apply setattr_Ok in H as ->.
  destruct (String.eqb_spec (Generator1.upsample_net a) "MelGANGenerator") as [Hmel|Hmel].
  - step Hif as u3 t5 Hassert. apply py_assert_Ok in Hassert as [_ ->].
    step Hif as u4 t6 Hupd2. apply dict_update_Ok in Hupd2 as ->.
    step Hif as kw t7 Hread. apply dict_read_Ok in Hread as [-> ->].
    step Hif as m t8 Hnew. apply new_Ok_state in Hnew as [Hm ->].
    apply setattr_Ok in Hif as ->. simpl_state.
    rewrite !lookup_total_insert_eq in Hm |- *.
    split; [lookup_inserted|].
    split; [intros Hci; rewrite Hci in Hmel; discriminate Hmel|].
    split; [intros _; split; lookup_inserted|].
    exists m. split; [lookup_inserted | exact Hm].
  - step Hif as u3 t5 Hconv.
    step Hif as kw t6 Hread. apply dict_read_Ok in Hread as [-> ->].
    step Hif as m t7 Hnew. apply new_Ok_state in Hnew as [Hm ->].
    apply setattr_Ok in Hif as ->. simpl_state.
    destruct (String.eqb_spec (Generator1.upsample_net a) "ConvInUpsampleNetwork")
      as [Hci|Hci].
    + apply dict_update_Ok in Hconv as ->. simpl_state.
      rewrite !lookup_total_insert_eq in Hm |- *.
      split; [lookup_inserted|].
      split; [intros _; split; lookup_inserted|].
      split; [done|].
      exists m. split; [lookup_inserted | exact Hm].
    + injection Hconv as _ <-. simpl_state.
      rewrite !lookup_total_insert_eq in Hm |- *.
      split; [lookup_inserted|].
      split; [done|]. split; [done|].
      exists m. split; [lookup_inserted | exact Hm].
Qed.

Lemma Generator1_create_mutates ext a s g s' :
  Generator1.upsample_conditional_features a = true ->
  Generator1.create ext a s = (Ok g, s') ->
  let d' := heap s' !!! Generator1.upsample_params a in
  d' !! "use_causal_conv" = Some (VBool (Generator1.use_causal_conv a))
  /\ (Generator1.upsample_net a = "ConvInUpsampleNetwork" ->
      d' !! "aux_channels" = Some (VInt (Generator1.aux_channels a))
      /\ d' !! "aux_context_window" = Some (VInt (Generator1.aux_context_window a)))
  /\ (Generator1.upsample_net a = "MelGANGenerator" ->
      d' !! "use_weight_norm" = Some (VBool false)
      /\ d' !! "use_final_nonlinear_activation" = Some (VBool false))
  /\ exists m,
       g !! "upsample_net" = Some (OModule m)
       /\ mcall m =
            if String.eqb (Generator1.upsample_net a) "MelGANGenerator"
            then CModels (Generator1.upsample_net a) d'
            else CUpsample (Generator1.upsample_net a) d'.
Proof.
  intros Hflag H. apply instantiate_Ok in H as [H ->].
  unfold Generator1.__init__ in H.
  do 12 skip_step H.
  step H as u t1 Hup.
  heap_frame_of H as Hheap
    unfolding (unfold Generator1.init_blocks, Generator1.init_block,
                 Generator1.init_last_conv_layers).
  frame_of H for "upsample_net" as Hattr
    unfolding (unfold Generator1.init_blocks, Generator1.init_block,
                 Generator1.init_last_conv_layers).
  rewrite Hheap, Hattr.
  by eapply Generator1_init_upsample_Ok.
Qed.

Lemma Generator2_create_mutates ext a s g s' :
  Generator2.create ext a s = (Ok g, s') ->
  let d' := heap s' !!! Generator2.upsample_params a in
  d' !! "aux_channels" = Some (VInt (Generator2.aux_channels a))
  /\ d' !! "aux_context_window" = Some (VInt (Generator2.aux_context_window a))
  /\ exists m,
       g !! "upsample_net" = Some (OModule m)
       /\ mcall m = CUpsample (Generator2.upsample_net a) d'.
Proof.
  intros H. apply instantiate_Ok in H as [H ->].
  unfold Generator2.__init__ in H. cbv zeta in H.
  do 11 skip_step H.
  step H as u1 t1 Hupd. apply dict_update_Ok in Hupd as ->.
  step H as kw t2 Hread. apply dict_read_Ok in Hread as [-> ->].
  step H as m t3 Hnew. apply new_Ok_state in Hnew as [Hm ->].
  step H as u2 t4 Hset. apply setattr_Ok in Hset as ->.
  heap_frame_of H as Hheap
    unfolding (unfold Generator2.init_blocks, Generator2.init_block,
                 Generator2.init_last_conv_layers).
  frame_of H for "upsample_net" as Hattr
    unfolding (unfold Generator2.init_blocks, Generator2.init_block,
                 Generator2.init_last_conv_layers).
  rewrite Hheap, Hattr. simpl_state. rewrite !lookup_total_insert_eq in Hm |- *.
  split; [lookup_inserted|]. split; [lookup_inserted|].
  exists m. split; [lookup_inserted | done].
Qed.

Lemma instantiate_preserves (I : cstate -> cstate -> Prop) (init : StateE cstate unit) :
  (forall s, I s (set_self (fun _ => ∅) s)) ->
  (forall s1 s2 s3, I s1 s2 -> I s2 s3 -> I s1 s3) ->
  preserves I init -> preserves I (instantiate init).
Proof.
  intros Hreset Htrans Hinit s r s'. unfold instantiate.
  destruct (init _) as [[[]|e] s1] eqn:E; intros [= <- <-];
    (eapply Htrans; [apply Hreset | eapply Hinit, E]).
Qed.

Lemma Generator1_create_keys_grow ext a :
  preserves keys_grow (Generator1.create ext a).
Proof.
  apply instantiate_preserves; [by intros s p k | apply keys_grow_trans |].
  unfold Generator1.__init__, Generator1.init_upsample, Generator1.init_blocks,
    Generator1.init_block, Generator1.init_last_conv_layers.
  cbv zeta. frame_keys.
Qed.

Lemma Generator2_create_keys_grow ext a :
  preserves keys_grow (Generator2.create ext a).
Proof.
  apply instantiate_preserves; [by intros s p k | apply keys_grow_trans |].
  unfold Generator2.__init__, Generator2.init_blocks,
    Generator2.init_block, Generator2.init_last_conv_layers.
  cbv zeta. frame_keys.
Qed.

Lemma Generator1_create_no_upsampling ext a :
  Generator1.upsample_conditional_features a = false ->
  preserves keeps_heap (Generator1.create ext a).
Proof.
  intros Hflag.
  apply instantiate_preserves; [by intros s | apply keeps_heap_trans |].
  unfold Generator1.__init__, Generator1.init_upsample, Generator1.init_blocks,
    Generator1.init_block, Generator1.init_last_conv_layers.
  cbv zeta. rewrite Hflag. frame_heap.
Qed.

(** C10 (as amended). A constructor that builds an upsampling network,
    [Generator2] always and [Generator1] when [upsample_conditional_features]
    is true, updates the dictionary it was given in place: after the call the
    dictionary holds [use_causal_conv] ([Generator1]), [aux_channels] and
    [aux_context_window] ([ConvInUpsampleNetwork] and [Generator2]),
    [use_weight_norm] and [use_final_nonlinear_activation]
    ([MelGANGenerator]), and the network was built from the whole dictionary.
    No call ever removes a key from a dictionary, so what earlier calls
    inserted into a dictionary (the shared default or one of the caller's) is
    still there for later calls. [Generator1] with
    [upsample_conditional_features] false leaves every dictionary as it is. *)
Theorem upsample_params_mutation (ext : ctor_call -> option exn) :
  (forall a s g s',
      Generator1.upsample_conditional_features a = true ->
      Generator1.create ext a s = (Ok g, s') ->
      let d' := heap s' !!! Generator1.upsample_params a in
      d' !! "use_causal_conv" = Some (VBool (Generator1.use_causal_conv a))
      /\ (Generator1.upsample_net a = "ConvInUpsampleNetwork" ->
          d' !! "aux_channels" = Some (VInt (Generator1.aux_channels a))
          /\ d' !! "aux_context_window" = Some (VInt (Generator1.aux_context_window a)))
      /\ (Generator1.upsample_net a = "MelGANGenerator" ->
          d' !! "use_weight_norm" = Some (VBool false)
          /\ d' !! "use_final_nonlinear_activation" = Some (VBool false))
      /\ exists m,
           g !! "upsample_net" = Some (OModule m)
           /\ mcall m =
                if String.eqb (Generator1.upsample_net a) "MelGANGenerator"
                then CModels (Generator1.upsample_net a) d'
                else CUpsample (Generator1.upsample_net a) d')
  /\ (forall a s g s',
        Generator2.create ext a s = (Ok g, s') ->
        let d' := heap s' !!! Generator2.upsample_params a in
        d' !! "aux_channels" = Some (VInt (Generator2.aux_channels a))
        /\ d' !! "aux_context_window" = Some (VInt (Generator2.aux_context_window a))
        /\ exists m,
             g !! "upsample_net" = Some (OModule m)
             /\ mcall m = CUpsample (Generator2.upsample_net a) d')
  /\ (forall a s r s' (p : loc) (key : string),
        Generator1.create ext a s = (r, s') ->
        is_Some ((heap s !!! p) !! key) -> is_Some ((heap s' !!! p) !! key))
  /\ (forall a s r s' (p : loc) (key : string),
        Generator2.create ext a s = (r, s') ->
        is_Some ((heap s !!! p) !! key) -> is_Some ((heap s' !!! p) !! key))
  /\ (forall a s r s',
        Generator1.upsample_conditional_features a = false ->
        Generator1.create ext a s = (r, s') ->
        heap s' = heap s).
Proof.
  split; [intros a s g s'; apply Generator1_create_mutates|].
  split; [intros a s g s'; apply Generator2_create_mutates|].
  split; [intros a s r s' p key H; exact (Generator1_create_keys_grow ext a _ _ _ H p key)|].
  split; [intros a s r s' p key H; exact (Generator2_create_keys_grow ext a _ _ _ H p key)|].
  intros a s r s' Hflag H. exact (Generator1_create_no_upsampling ext a Hflag _ _ _ H).
Qed.

(** Two calls that rely on the default dictionary: after
    [Generator1(upsample_net="MelGANGenerator", aux_context_window=0)], the
    call [Generator1()] builds its [ConvInUpsampleNetwork] from a dictionary
    that still holds [use_weight_norm]. *)
Lemma upsample_params_mutation_witness :
  exists g1 s1 g2 s2 m kw,
    Generator1.create ext_ok Generator1_melgan initial_state = (Ok g1, s1)
    /\ Generator1.create ext_ok Generator1.defaults s1 = (Ok g2, s2)
    /\ g2 !! "upsample_net" = Some (OModule m)
    /\ mcall m = CUpsample "ConvInUpsampleNetwork" kw
    /\ is_Some (kw !! "use_weight_norm").
Proof.
  assert (Hok2 : succeeds (Generator1.create ext_ok Generator1.defaults
                   (snd (Generator1.create ext_ok Generator1_melgan initial_state)))
                 = true) by (vm_compute; reflexivity).
  destruct (succeeds_Ok (Generator1.create ext_ok Generator1_melgan initial_state))
    as (g1 & s1 & E1); [vm_compute; reflexivity|].
  rewrite E1 in Hok2. cbn [snd] in Hok2.
  destruct (succeeds_Ok _ Hok2) as (g2 & s2 & E2). clear Hok2.
  destruct (upsample_params_mutation ext_ok) as (P1 & _ & P3 & _).
  destruct (P1 Generator1_melgan _ _ _ eq_refl E1) as (_ & _ & Hmel & _).
  destruct (Hmel eq_refl) as [Hwn _].
  destruct (P1 Generator1.defaults _ _ _ eq_refl E2) as (_ & _ & _ & m & Hm & Hcall).
  exists g1, s1, g2, s2, m, (heap s2 !!! Generator1.default_upsample_params).
  split; [exact E1|]. split; [exact E2|]. split; [exact Hm|]. split; [exact Hcall|].
  apply (P3 _ _ _ _ _ _ E2). exists (VBool false). exact Hwn.
Defined.

(** C10 as stated fails for [Generator1(upsample_conditional_features=False)]:
    the dictionary is not touched, and the default dictionary still has no
    [use_causal_conv] entry after the call. *)
Lemma upsample_params_mutation_counterexample :
  ~ (forall ext a s g s',
        Generator1.create ext a s = (Ok g, s') ->
        is_Some ((heap s' !!! Generator1.upsample_params a) !! "use_causal_conv")).
Proof.
  intros Hclaim.
  destruct (succeeds_Ok (Generator1.create ext_ok Generator1_no_upsampling initial_state))
    as (g & s' & E); [vm_compute; reflexivity|].
  specialize (Hclaim _ _ _ _ _ E).
  rewrite (Generator1_create_no_upsampling ext_ok Generator1_no_upsampling eq_refl _ _ _ E) in Hclaim.
  clear E. vm_compute in Hclaim. destruct Hclaim as [v Hv]. discriminate Hv.
Qed.

(** ** Forward passes *)

Section ForwardProofs.

Variable Tensor : Type.
Variable size_last : Tensor -> Z.
Variable call_module : module -> Tensor -> result Tensor.
Variable call_block : module -> Tensor -> option Tensor -> result (Tensor * Tensor).
Variable pqmf_analysis : module -> Tensor -> result Tensor.
Variable pqmf_synthesis : module -> Tensor -> result Tensor.
Variable int_add_tensor : Z -> Tensor -> Tensor.
Variable tensor_iadd : Tensor -> Tensor -> Tensor.
Variable tensor_imul : Tensor -> float -> Tensor.
Variable cat_dim1 : Tensor -> Tensor -> result Tensor.

Local Abbreviation skips_iadd' := (skips_iadd Tensor int_add_tensor tensor_iadd).
Local Abbreviation run_blocks' :=
  (run_blocks Tensor call_block int_add_tensor tensor_iadd).
Local Abbreviation block_skips' := (block_skips Tensor call_block).
Local Abbreviation raw_sum' := (raw_sum Tensor int_add_tensor tensor_iadd).
Local Abbreviation skip_aggregate' :=
  (skip_aggregate Tensor call_block int_add_tensor tensor_iadd tensor_imul).
Local Abbreviation upsample' := (upsample_conditioning Tensor size_last call_module).
Local Abbreviation call_obj' := (call_obj Tensor call_module).
Local Abbreviation analysis_obj' := (analysis_obj Tensor pqmf_analysis).
Local Abbreviation synthesis_obj' := (synthesis_obj Tensor pqmf_synthesis).
Local Abbreviation output_head' := (output_head Tensor call_module).
Local Abbreviation forward1 :=
  (Generator1_forward Tensor size_last call_module call_block pqmf_analysis
     pqmf_synthesis int_add_tensor tensor_iadd tensor_imul).
Local Abbreviation forward2 :=
  (Generator2_forward Tensor size_last call_module call_block pqmf_synthesis
     int_add_tensor tensor_iadd tensor_imul cat_dim1).

Lemma run_blocks_block_skips blocks x c acc :
  match run_blocks' blocks x c acc with
  | Ok (_, skips) => Ok skips
  | Raise e => Raise e
  end
  = match block_skips' blocks x c with
    | Ok hs => Ok (fold_left (fun a h => Some (skips_iadd' a h)) hs acc)
    | Raise e => Raise e
    end.
Proof.
  revert x acc. induction blocks as [|f blocks IH]; intros x acc; [reflexivity|].
  cbn. destruct (call_block_obj Tensor call_block f x c) as [[x' h]|e]; [|reflexivity].
  cbn. rewrite IH. by destruct (block_skips' blocks x' c).
Qed.

Lemma length_block_skips blocks x c hs :
  block_skips' blocks x c = Ok hs -> length hs = length blocks.
Proof.
  revert x hs. induction blocks as [|f blocks IH]; intros x hs; cbn.
  - by intros [= <-].
  - destruct (call_block_obj Tensor call_block f x c) as [[x' h]|e]; [|discriminate].
    cbn. destruct (block_skips' blocks x' c) as [hs'|e] eqn:E; [|discriminate].
    intros [= <-]. cbn. f_equal. by eapply IH.
Qed.

Lemma fold_skips_Some hs t :
  exists t', fold_left (fun a h => Some (skips_iadd' a h)) hs (Some t) = Some t'.
Proof. revert t. induction hs as [|h hs IH]; intros t; cbn; eauto. Qed.

(** The aggregation of one stack: the blocks run first, then the scale is
    computed, then the sum is scaled. *)
Lemma skip_aggregate_eq (self : obj) (name : string) (ms : list module)
    (x : Tensor) (c : option Tensor) :
  self !! name = Some (OModuleList ms) ->
  skip_aggregate' self name x c =
    (hs ← block_skips' (map OModule ms) x c;
     match raw_sum' hs with
     | None => Raise ZeroDivisionError
     | Some total =>
         Ok (tensor_imul total (sqrt (1 / Z_to_float (Z.of_nat (length ms))))%float)
     end).
Proof.
  intros Hms. unfold skip_aggregate, getattr. rewrite Hms. cbn.
  pose proof (run_blocks_block_skips (map OModule ms) x c None) as Hrun.
  destruct (run_blocks' (map OModule ms) x c None) as [[x' skips]|e];
    destruct (block_skips' (map OModule ms) x c) as [hs|e'] eqn:Ehs;
    try discriminate Hrun; [|by injection Hrun as ->].
  injection Hrun as ->. cbn.
  apply length_block_skips in Ehs. rewrite length_map in Ehs.
  destruct ms as [|m ms]; [by destruct hs|].
  destruct hs as [|h hs]; [discriminate Ehs|].
  unfold raw_sum. cbn [fold_left].
  by destruct (fold_skips_Some hs (skips_iadd' None h)) as [t' ->].
Qed.


(** C5. In a forward call with a conditioning tensor on an instance whose
    [upsample_net] is a module, let [cu] be the upsampled conditioning.
    [Generator1.forward] returns a tensor only if
    [cu.size(-1) * 4 == x.size(-1)] (4 is the literal of the source, the
    number of bands of [PQMF()]) and raises [AssertionError] otherwise;
    [Generator2.forward] returns a tensor only if
    [cu.size(-1) == x.size(-1)] and raises [AssertionError] otherwise. *)
Theorem forward_length_check (self : obj) (net : module) (x cv cu : Tensor) :
  self !! "upsample_net" = Some (OModule net) ->
  call_module net cv = Ok cu ->
  (size_last cu * 4 <> size_last x -> forward1 self x (Some cv) = Raise AssertionError)
  /\ (forall y, forward1 self x (Some cv) = Ok y -> size_last cu * 4 = size_last x)
  /\ (size_last cu <> size_last x -> forward2 self x (Some cv) = Raise AssertionError)
  /\ (forall y, forward2 self x (Some cv) = Ok y -> size_last cu = size_last x).
Proof.
  intros Hnet Hcu.
  assert (Hup : forall factor,
    upsample_conditioning Tensor size_last call_module self factor x (Some cv)
    = if size_last cu * factor =? size_last x then Ok (Some cu) else Raise AssertionError).
  { intros factor. unfold upsample_conditioning, getattr. rewrite Hnet. cbn.
    rewrite Hcu. cbn. by destruct (_ =? _). }
  unfold Generator1_forward, Generator2_forward. rewrite !Hup.
  rewrite Z.mul_1_r.
  destruct (Z.eqb_spec (size_last cu * 4) (size_last x)) as [H4|H4];
    destruct (Z.eqb_spec (size_last cu) (size_last x)) as [H1|H1];
    repeat split; intros; first [done | discriminate].
Qed.

End ForwardProofs.



(** Tensors as their lengths: an upsampling network of factor 256, a
    conditioning of 1 frame and a waveform of 100 samples. *)
Lemma forward_length_check_witness :
  let self : obj := <["upsample_net" := OModule {| mid := 0; mcall := CReLU true |}]> ∅ in
  let fwd1 := Generator1_forward Z (fun t => t) (fun _ t => Ok (t * 256)) (fun _ t _ => Ok (t, t))
                (fun _ t => Ok t) (fun _ t => Ok t)
                (fun _ t => t) (fun t _ => t) (fun t _ => t) in
  let fwd2 := Generator2_forward Z (fun t => t) (fun _ t => Ok (t * 256)) (fun _ t _ => Ok (t, t))
                (fun _ t => Ok t)
                (fun _ t => t) (fun t _ => t) (fun t _ => t) (fun t _ => Ok t) in
  fwd1 self 100 (Some 1) = Raise AssertionError
  /\ fwd2 self 100 (Some 1) = Raise AssertionError.
Proof.
  intros self fwd1 fwd2.
  destruct (forward_length_check Z (fun t => t) (fun _ t => Ok (t * 256)) (fun _ t _ => Ok (t, t))
              (fun _ t => Ok t) (fun _ t => Ok t)
              (fun _ t => t) (fun t _ => t) (fun t _ => t) (fun t _ => Ok t)
              self {| mid := 0; mcall := CReLU true |} 100 1 256 eq_refl eq_refl)
    as (H1 & _ & H2 & _).
  split; [apply H1 | apply H2]; vm_compute; discriminate.
Defined.

(** ** Inference *)

(** 64-bit products: wrapping after every multiplication is wrapping
    once. *)
Lemma wrap_int64_congr (a b : Z) :
  a mod 2 ^ 64 = b mod 2 ^ 64 -> wrap_int64 a = wrap_int64 b.
Proof.
  intros Hab. unfold wrap_int64.
  rewrite <- (Zplus_mod_idemp_l a), <- (Zplus_mod_idemp_l b), Hab. reflexivity.
Qed.

Lemma wrap_int64_mod (a : Z) : wrap_int64 a mod 2 ^ 64 = a mod 2 ^ 64.
Proof.
  unfold wrap_int64.
  rewrite <- Zminus_mod_idemp_l, Z.mod_mod by lia.
  rewrite Zminus_mod_idemp_l. f_equal. lia.
Qed.

Lemma wrap_int64_small (a : Z) : - 2 ^ 63 <= a < 2 ^ 63 -> wrap_int64 a = a.
Proof. intros Ha. unfold wrap_int64. rewrite Z.mod_small; lia. Qed.

Section InferenceProofs.

Variable Tensor : Type.
Variable size_last : Tensor -> Z.
Variable call_module : module -> Tensor -> result Tensor.
Variable call_block : module -> Tensor -> option Tensor -> result (Tensor * Tensor).
Variable pqmf_analysis : module -> Tensor -> result Tensor.
Variable pqmf_synthesis : module -> Tensor -> result Tensor.
Variable int_add_tensor : Z -> Tensor -> Tensor.
Variable tensor_iadd : Tensor -> Tensor -> Tensor.
Variable tensor_imul : Tensor -> float -> Tensor.
Variable Ndarray : Type.
Variable torch_tensor : Ndarray -> Tensor.
Variable tensor_len : Tensor -> Z.
Variable ndarray_len : Ndarray -> Z.
Variable transpose_1_0 : Tensor -> result Tensor.
Variable unsqueeze_0 : Tensor -> result Tensor.
Variable squeeze_0 : Tensor -> result Tensor.
Variable replication_pad1d : pyobj -> Tensor -> result Tensor.
Variable randn : nat -> list Z -> result Tensor.

Local Abbreviation forward1 :=
  (Generator1_forward Tensor size_last call_module call_block pqmf_analysis
     pqmf_synthesis int_add_tensor tensor_iadd tensor_imul).
Local Abbreviation inference :=
  (Generator1_inference Tensor size_last call_module call_block pqmf_analysis
     pqmf_synthesis int_add_tensor tensor_iadd tensor_imul
     Ndarray torch_tensor tensor_len ndarray_len
     transpose_1_0 unsqueeze_0 squeeze_0 replication_pad1d randn).
Local Abbreviation len := (py_len_array Tensor Ndarray tensor_len ndarray_len).
Local Abbreviation as_tensor' := (as_tensor Tensor Ndarray torch_tensor).


End InferenceProofs.


(** ** Weight normalisation *)

Lemma nn_module_ind (P : nn_module -> Prop) :
  (forall r c w children, Forall P children -> P (NN r c w children)) ->
  forall m, P m.
Proof.
  intros HP. fix IH 1. intros [r c w children]. apply HP.
  induction children as [|m children IHc]; constructor; [apply IH | exact IHc].
Qed.

Lemma mapM_nn_apply (f : nn_module -> StateE log nn_module)
    (g : nn_module -> nn_module) (children : list nn_module) :
  Forall (fun m => forall l, f m l = (Ok (g m), l ++ map removed_message (submodules m)))
         children ->
  forall l,
    mapM f children l
    = (Ok (map g children), l ++ map removed_message (flat_map submodules children)).
Proof.
  induction 1 as [|m children Hm _ IH]; intros l.
  - cbn. by rewrite app_nil_r.
  - cbn. unfold mbind, StateE_bind. rewrite Hm.
    rewrite IH. cbn. by rewrite map_app, app_assoc.
Qed.

Lemma _remove_weight_norm_run r c w children l :
  _remove_weight_norm (NN r c w children) l
  = (Ok (NN r c false children), l ++ [removed_message (NN r c w children)]).
Proof. by destruct w. Qed.

(** C9. [remove_weight_norm] returns normally on every module tree: it
    visits each sub-module once, children first (one debug message per
    sub-module, in that order), and leaves no weight-norm hook; the
    [ValueError] of a sub-module without a hook is caught there and the
    traversal goes on. On a tree that was never normalised it changes
    nothing. *)
Theorem remove_weight_norm_returns (self : nn_module) (l : log) :
  remove_weight_norm self l
  = (Ok (without_weight_norm self), l ++ map removed_message (submodules self))
  /\ (never_normalized self = true -> without_weight_norm self = self).
Proof.
  split.
  - revert l. unfold remove_weight_norm.
    induction self as [r c w children IH] using nn_module_ind.
    intros l. cbn [nn_apply]. unfold mbind at 1, StateE_bind at 1.
    rewrite (mapM_nn_apply _ without_weight_norm children IH).
    rewrite _remove_weight_norm_run. cbn [without_weight_norm submodules].
    by rewrite map_app, app_assoc.
  - clear l. induction self as [r c w children IH] using nn_module_ind. cbn.
    intros [Hw Hch]%andb_true_iff. destruct w; [discriminate|]. f_equal.
    induction IH as [|m children Hm _ IHc]; [reflexivity|].
    cbn in Hch. apply andb_true_iff in Hch as [H1 H2].
    cbn. by rewrite Hm, IHc.
Qed.

Lemma remove_weight_norm_returns_witness :
  remove_weight_norm (without_weight_norm example_tree) []
  = (Ok (without_weight_norm example_tree),
     map removed_message (submodules (without_weight_norm example_tree))).
Proof.
  destruct (remove_weight_norm_returns (without_weight_norm example_tree) [])
    as [Hrun Hid].
  rewrite Hrun. rewrite (Hid eq_refl). reflexivity.
Defined.

(** * Further properties *)

(** ** The receptive field in closed form *)

Lemma sum_below_ext (n : nat) (f g : Z -> Z) :
  (forall i, 0 <= i < Z.of_nat n -> f i = g i) -> sum_below n f = sum_below n g.
Proof.
  induction n as [|n IH]; intros Hfg; [reflexivity|].
  cbn [sum_below]. rewrite IH by (intros i Hi; apply Hfg; lia).
  rewrite Hfg by lia. reflexivity.
Qed.

Lemma sum_below_add (a b : nat) (f : Z -> Z) :
  sum_below (a + b) f = sum_below a f + sum_below b (fun i => f (Z.of_nat a + i)).
Proof.
  induction b as [|b IH].
  - rewrite Nat.add_0_r. cbn. lia.
  - rewrite Nat.add_succ_r. cbn [sum_below]. rewrite IH.
    rewrite Nat2Z.inj_add. lia.
Qed.

Lemma sum_below_pow2 (n : nat) : sum_below n (fun i => 2 ^ i) = 2 ^ Z.of_nat n - 1.
Proof.
  induction n as [|n IH]; [reflexivity|].
  cbn [sum_below]. rewrite IH, Nat2Z.inj_succ, Z.pow_succ_r by lia. lia.
Qed.

Lemma sum_below_cycles (q p : nat) :
  sum_below (q * p) (fun i => 2 ^ (i mod Z.of_nat p))
  = Z.of_nat q * (2 ^ Z.of_nat p - 1).
Proof.
  destruct p as [|p'].
  { rewrite Nat.mul_0_r. cbn. lia. }
  set (p := S p'). induction q as [|q IH]; [reflexivity|].
  replace (S q * p)%nat with (q * p + p)%nat by lia.
  rewrite sum_below_add, IH.
  rewrite (sum_below_ext p _ (fun i => 2 ^ i)).
  - rewrite sum_below_pow2. lia.
  - intros i Hi. f_equal. rewrite Nat2Z.inj_mul.
    rewrite Z.add_comm, Z.mod_add by lia. apply Z.mod_small. lia.
Qed.

(** X1. With a positive number of stacks that divides a non-negative
    [layers], the dilations are [stacks] cycles of [1, 2, ..., 2^(p-1)] with
    [p = layers // stacks], so [_get_receptive_field_size] returns
    [(kernel_size - 1) * stacks * (2^p - 1) + 1]. *)
Theorem receptive_field_geometric (layers stacks kernel_size : Z) :
  0 < stacks -> 0 <= layers -> layers mod stacks = 0 ->
  _get_receptive_field_size layers stacks kernel_size pow2
  = Ok (PInt ((kernel_size - 1) * (stacks * (2 ^ (layers / stacks) - 1)) + 1)).
Proof.
  intros Hs Hl Hdiv. rewrite get_receptive_field_size_pos by assumption.
  do 3 f_equal.
  assert (Hp : 0 <= layers / stacks) by (apply Z.div_pos; lia).
  assert (Hq : layers = stacks * (layers / stacks)).
  { apply Z.div_exact; lia. }
  replace (Z.to_nat layers)
    with (Z.to_nat stacks * Z.to_nat (layers / stacks))%nat by nia.
  rewrite (sum_below_ext _ _ (fun i => 2 ^ (i mod Z.of_nat (Z.to_nat (layers / stacks))))).
  - rewrite sum_below_cycles. rewrite !Z2Nat.id by lia. reflexivity.
  - intros i _. by rewrite Z2Nat.id.
Qed.

Lemma receptive_field_geometric_witness :
  _get_receptive_field_size 30 3 3 pow2 = Ok (PInt 6139).
Proof.
  exact (receptive_field_geometric 30 3 3 eq_refl ltac:(discriminate) eq_refl).
Defined.

(** X2. [_get_receptive_field_size] raises [ZeroDivisionError] when
    [stacks] is 0 and [AssertionError] when [stacks] does not divide
    [layers], whatever the dilation function; with a divisible
    non-positive [layers] there is no dilation and the result is 1 for
    every kernel size. *)
Theorem receptive_field_edges (layers stacks kernel_size : Z) (dilation : Z -> pynum) :
  (stacks = 0 ->
   _get_receptive_field_size layers stacks kernel_size dilation = Raise ZeroDivisionError)
  /\ (stacks <> 0 -> layers mod stacks <> 0 ->
      _get_receptive_field_size layers stacks kernel_size dilation = Raise AssertionError)
  /\ (stacks <> 0 -> layers mod stacks = 0 -> layers <= 0 ->
      _get_receptive_field_size layers stacks kernel_size dilation = Ok (PInt 1)).
Proof.
  unfold _get_receptive_field_size, py_mod, py_floordiv.
  split; [|split].
  - intros ->. reflexivity.
  - intros Hs Hnd. destruct (Z.eqb_spec stacks 0) as [|_]; [done|]. cbn.
    by destruct (Z.eqb_spec (layers mod stacks) 0).
  - intros Hs Hd Hl. destruct (Z.eqb_spec stacks 0) as [|_]; [done|]. cbn.
    rewrite Hd. cbn. unfold py_range.
    replace (Z.to_nat layers) with 0%nat by lia. cbn.
    f_equal. f_equal. lia.
Qed.

Lemma receptive_field_edges_witness :
  _get_receptive_field_size 30 0 3 pow2 = Raise ZeroDivisionError
  /\ _get_receptive_field_size 10 3 3 pow2 = Raise AssertionError
  /\ _get_receptive_field_size 0 3 7 pow2 = Ok (PInt 1).
Proof.
  destruct (receptive_field_edges 30 0 3 pow2) as (H0 & _ & _).
  destruct (receptive_field_edges 10 3 3 pow2) as (_ & H1 & _).
  destruct (receptive_field_edges 0 3 7 pow2) as (_ & _ & H2).
  split; [apply H0; reflexivity|].
  split; [apply H1; discriminate | apply H2; [discriminate | reflexivity | discriminate]].
Defined.

(** ** Weight normalisation: apply, then remove *)

Lemma mapM_nn_apply_log (f : nn_module -> StateE log nn_module)
    (g : nn_module -> nn_module) (msgs : nn_module -> list string)
    (children : list nn_module) :
  Forall (fun m => forall l, f m l = (Ok (g m), l ++ msgs m)) children ->
  forall l, mapM f children l = (Ok (map g children), l ++ flat_map msgs children).
Proof.
  induction 1 as [|m children Hm _ IH]; intros l.
  - cbn. by rewrite app_nil_r.
  - cbn. unfold mbind, StateE_bind. rewrite Hm, IH. cbn. by rewrite app_assoc.
Qed.

Lemma flat_map_map_messages {A B : Type} (f : A -> B) (g : nn_module -> list A)
    (children : list nn_module) :
  flat_map (fun m => map f (g m)) children = map f (flat_map g children).
Proof.
  induction children as [|x children IH]; [reflexivity|].
  cbn. by rewrite map_app, IH.
Qed.

Lemma remove_weight_norm_log (m : nn_module) :
  forall l,
    remove_weight_norm m l
    = (Ok (without_weight_norm m), l ++ map removed_message (submodules m)).
Proof.
  unfold remove_weight_norm. induction m as [r c w children IH] using nn_module_ind.
  intros l. cbn [nn_apply]. unfold mbind at 1, StateE_bind at 1.
  rewrite (mapM_nn_apply_log _ without_weight_norm
             (fun m => map removed_message (submodules m)) children IH).
  rewrite _remove_weight_norm_run. cbn [without_weight_norm submodules].
  by rewrite flat_map_map_messages, map_app, app_assoc.
Qed.

Lemma apply_weight_norm_log (m : nn_module) :
  never_normalized m = true ->
  forall l,
    apply_weight_norm m l
    = (Ok (with_weight_norm m),
       l ++ map applied_message (List.filter nn_is_conv (submodules m))).
Proof.
  unfold apply_weight_norm. induction m as [r c w children IH] using nn_module_ind.
  cbn [never_normalized]. intros [Hw Hch]%andb_true_iff l.
  destruct w; [discriminate|]. cbn [nn_apply]. unfold mbind at 1, StateE_bind at 1.
  rewrite (mapM_nn_apply_log _ with_weight_norm
             (fun m => map applied_message (List.filter nn_is_conv (submodules m)))).
  - cbn [with_weight_norm submodules]. rewrite List.filter_app, map_app, app_assoc.
    rewrite (flat_map_map_messages applied_message
               (fun m => List.filter nn_is_conv (submodules m))).
    assert (Hflat :
      flat_map (fun m => List.filter nn_is_conv (submodules m)) children
      = List.filter nn_is_conv (flat_map submodules children)).
    { clear. induction children as [|x children IHc]; [reflexivity|].
      cbn. by rewrite List.filter_app, IHc. }
    rewrite Hflat. unfold _apply_weight_norm. cbn.
    destruct c; cbn; [reflexivity | by rewrite app_nil_r].
  - clear -IH Hch. induction IH as [|x children Hx _ IHc]; [constructor|].
    cbn in Hch. apply andb_true_iff in Hch as [H1 H2].
    constructor; [by apply Hx | by apply IHc].
Qed.

Lemma without_with_weight_norm (m : nn_module) :
  never_normalized m = true -> without_weight_norm (with_weight_norm m) = m.
Proof.
  induction m as [r c w children IH] using nn_module_ind. cbn.
  intros [Hw Hch]%andb_true_iff. destruct w; [discriminate|]. f_equal.
  rewrite map_map.
  induction IH as [|x children Hx _ IHc]; [reflexivity|].
  cbn in Hch. apply andb_true_iff in Hch as [H1 H2].
  cbn. by rewrite Hx, IHc.
Qed.

Lemma submodules_with_weight_norm_messages (m : nn_module) :
  map removed_message (submodules (with_weight_norm m))
  = map removed_message (submodules m).
Proof.
  induction m as [r c w children IH] using nn_module_ind.
  cbn [with_weight_norm submodules]. rewrite !map_app. f_equal.
  induction IH as [|x children Hx _ IHc]; [reflexivity|].
  cbn. by rewrite !map_app, Hx, IHc.
Qed.

(** X6. On a generator that carries no weight-norm hook,
    [apply_weight_norm] returns normally, puts a hook on every [Conv1d] or
    [Conv2d] sub-module and on nothing else, and logs one message per
    convolution in traversal order; [remove_weight_norm] after it gives the
    original generator back, with one message per sub-module. *)
Theorem weight_norm_apply_remove (self : nn_module) (l : log) :
  never_normalized self = true ->
  apply_weight_norm self l
  = (Ok (with_weight_norm self),
     l ++ map applied_message (List.filter nn_is_conv (submodules self)))
  /\ Forall (fun m => nn_weight_norm m = nn_is_conv m) (submodules (with_weight_norm self))
  /\ forall l',
       remove_weight_norm (with_weight_norm self) l'
       = (Ok self, l' ++ map removed_message (submodules self)).
Proof.
  intros Hnever. split; [by apply apply_weight_norm_log|]. split.
  - revert Hnever. induction self as [r c w children IH] using nn_module_ind.
    cbn [never_normalized with_weight_norm submodules].
    intros [Hw Hch]%andb_true_iff. destruct w; [discriminate|].
    apply Forall_app. split; [|constructor; [by destruct c | constructor]].
    induction IH as [|x children Hx _ IHc]; [constructor|].
    cbn in Hch. apply andb_true_iff in Hch as [H1 H2].
    cbn. apply Forall_app. split; [by apply Hx | by apply IHc].
  - intros l'. rewrite remove_weight_norm_log.
    by rewrite without_with_weight_norm, submodules_with_weight_norm_messages.
Qed.

Lemma weight_norm_apply_remove_witness :
  exists applied l,
    apply_weight_norm (without_weight_norm example_tree) [] = (Ok applied, l)
    /\ applied = example_tree
    /\ length l = 2%nat
    /\ fst (remove_weight_norm applied l) = Ok (without_weight_norm example_tree).
Proof.
  destruct (weight_norm_apply_remove (without_weight_norm example_tree) [] eq_refl)
    as (Happly & _ & Hremove).
  eexists _, _. split; [exact Happly|].
  split; [reflexivity|]. split; [reflexivity|].
  rewrite Hremove. reflexivity.
Defined.

(** ** The construction contract of [Generator1] *)

Lemma bind_raise {S A B : Type} (m : StateE S A) (k : A -> StateE S B) s e s1 :
  m s = (Raise e, s1) -> (m ≫= k) s = (Raise e, s1).
Proof. unfold mbind, StateE_bind. by intros ->. Qed.

Lemma bind_assert {S B : Type} (b : bool) (k : unit -> StateE S B) s :
  (py_assert b ≫= k) s = if b then k tt s else (Raise AssertionError, s).
Proof. by destruct b. Qed.

Lemma bind_ret {S A B : Type} (a : A) (k : A -> StateE S B) s :
  (mret a ≫= k) s = k a s.
Proof. reflexivity. Qed.

Lemma bind_apply_weight_norm_call {B : Type} (k : unit -> StateE cstate B) s :
  (apply_weight_norm_call ≫= k) s
  = k tt (set_trace (fun t => t ++ [EvApplyWeightNorm]) s).
Proof. reflexivity. Qed.

Lemma built_app (t1 t2 : list event) : built (t1 ++ t2) = built t1 ++ built t2.
Proof. unfold built. apply omap_app. Qed.

(** The prefix of [Generator1.__init__] up to the upsampling network, when
    the divisibility check passes. *)
Lemma Generator1_init_prefix {B : Type} a s :
  Generator1.stacks a <> 0 ->
  Generator1.layers a mod Generator1.stacks a = 0 ->
  exists s0,
    heap s0 = heap s
    /\ trace s0 = trace s ++ [EvNew {| mid := length (trace s);
                                        mcall := CConv1d1x1 (Generator1.in_channels a)
                                                   (Generator1.residual_channels a) true |}]
    /\ forall (rest : Z -> StateE cstate B),
         (setattr "in_channels" (OInt (Generator1.in_channels a));;
          setattr "out_channels" (OInt (Generator1.out_channels a));;
          setattr "aux_channels" (OInt (Generator1.aux_channels a));;
          setattr "aux_context_window" (OInt (Generator1.aux_context_window a));;
          setattr "layers" (OInt (Generator1.layers a));;
          setattr "stacks" (OInt (Generator1.stacks a));;
          setattr "kernel_size" (OInt (Generator1.kernel_size a));;
          r ← lift (py_mod (Generator1.layers a) (Generator1.stacks a));
          py_assert (r =? 0);;
          layers_per_stack ← lift (py_floordiv (Generator1.layers a) (Generator1.stacks a));
          m ← new ext_ok (CConv1d1x1 (Generator1.in_channels a)
                            (Generator1.residual_channels a) true);
          setattr "first_conv" (OModule m);;
          rest layers_per_stack) (set_self (fun _ => ∅) s)
         = rest (Generator1.layers a / Generator1.stacks a) s0.
Proof.
  intros Hs Hdiv. eexists. split; [|split]; [| |intros rest].
  3: { rewrite !bind_setattr, bind_lift. unfold py_mod, py_floordiv.
       destruct (Z.eqb_spec (Generator1.stacks a) 0) as [|_]; [done|].
       rewrite bind_assert, Hdiv. cbn [Z.eqb]. rewrite bind_lift, bind_new_ok, bind_setattr.
       reflexivity. }
  - reflexivity.
  - reflexivity.
Qed.

Lemma Generator1_init_upsample_melgan_fails a s :
  Generator1.upsample_conditional_features a = true ->
  Generator1.upsample_net a = "MelGANGenerator" ->
  Generator1.aux_context_window a <> 0 ->
  Generator1.init_upsample ext_ok a s
  = (Raise AssertionError,
     set_heap (fun h => <[Generator1.upsample_params a :=
                            <["use_causal_conv" := VBool (Generator1.use_causal_conv a)]>
                              (h !!! Generator1.upsample_params a)]> h) s).
Proof.
  intros Hflag Hnet Hacw. unfold Generator1.init_upsample. cbv zeta.
  rewrite Hflag. cbv iota. rewrite bind_dict_update, Hnet, String.eqb_refl.
  unfold mbind at 1, StateE_bind at 1. rewrite bind_assert.
  by destruct (Z.eqb_spec (Generator1.aux_context_window a) 0).
Qed.

Lemma melgan_context_window_check_run a s :
  Generator1.stacks a <> 0 ->
  Generator1.layers a mod Generator1.stacks a = 0 ->
  Generator1.upsample_conditional_features a = true ->
  Generator1.upsample_net a = "MelGANGenerator" ->
  Generator1.aux_context_window a <> 0 ->
  exists s', Generator1.create ext_ok a s = (Raise AssertionError, s').
Proof.
  intros Hs Hdiv Hflag Hnet Hacw.
  destruct (Generator1_init_prefix (B:=unit) a s Hs Hdiv)
    as (s0 & Hheap & Htrace & Hrun).
  unfold Generator1.create, instantiate, Generator1.__init__.
  rewrite Hrun.
  rewrite (bind_raise _ _ _ _ _ (Generator1_init_upsample_melgan_fails a s0 Hflag Hnet Hacw)).
  by eexists.
Qed.

(** X3. [Generator1(upsample_net="MelGANGenerator")] with a non-zero
    [aux_context_window] raises [AssertionError]; by then [first_conv] is the
    only sub-module built, and [use_causal_conv] has already been written
    into the dictionary, where it stays although no instance was created. *)
Theorem melgan_context_window_check a s :
  Generator1.stacks a <> 0 ->
  Generator1.layers a mod Generator1.stacks a = 0 ->
  Generator1.upsample_conditional_features a = true ->
  Generator1.upsample_net a = "MelGANGenerator" ->
  Generator1.aux_context_window a <> 0 ->
  exists s',
    Generator1.create ext_ok a s = (Raise AssertionError, s')
    /\ map mcall (built (trace s'))
       = map mcall (built (trace s))
         ++ [CConv1d1x1 (Generator1.in_channels a) (Generator1.residual_channels a) true]
    /\ heap s'
       = <[Generator1.upsample_params a :=
             <["use_causal_conv" := VBool (Generator1.use_causal_conv a)]>
               (heap s !!! Generator1.upsample_params a)]> (heap s).
Proof.
  intros Hs Hdiv Hflag Hnet Hacw.
  destruct (Generator1_init_prefix (B:=unit) a s Hs Hdiv)
    as (s0 & Hheap & Htrace & Hrun).
  unfold Generator1.create, instantiate, Generator1.__init__.
  rewrite Hrun.
  rewrite (bind_raise _ _ _ _ _ (Generator1_init_upsample_melgan_fails a s0 Hflag Hnet Hacw)).
  eexists. split; [reflexivity|]. cbn [heap trace set_heap].
  rewrite Htrace, Hheap, built_app, map_app. split; reflexivity.
Qed.

Lemma melgan_context_window_check_witness :
  exists s',
    Generator1.create ext_ok Generator1_melgan_context initial_state
    = (Raise AssertionError, s')
    /\ (heap s' !!! Generator1.default_upsample_params) !! "use_causal_conv"
       = Some (VBool false).
Proof.
  destruct (melgan_context_window_check Generator1_melgan_context initial_state
              ltac:(discriminate) eq_refl eq_refl eq_refl ltac:(discriminate))
    as (s' & Hrun & _ & Hheap).
  exists s'. split; [exact Hrun|]. rewrite Hheap. reflexivity.
Defined.

(** The upsampling part of [Generator1.__init__] when the context-window
    check passes: the network is built from the updated dictionary, then
    [upsample_scales] is read. *)
Lemma Generator1_init_upsample_runs a s :
  Generator1.upsample_conditional_features a = true ->
  (Generator1.upsample_net a = "MelGANGenerator" -> Generator1.aux_context_window a = 0) ->
  exists s1 m,
    trace s1 = trace s ++ [EvNew m]
    /\ (heap s1 !!! Generator1.upsample_params a) !! "use_causal_conv"
       = Some (VBool (Generator1.use_causal_conv a))
    /\ Generator1.init_upsample ext_ok a s
       = match (heap s !!! Generator1.upsample_params a) !! "upsample_scales" with
         | Some scales =>
             (Ok tt, set_self (insert "upsample_factor" (np_prod scales)) s1)
         | None => (Raise (KeyError "upsample_scales"), s1)
         end.
Proof.
  intros Hflag Hmel. unfold Generator1.init_upsample. cbv zeta.
  rewrite Hflag. cbv iota. rewrite bind_dict_update.
  destruct (String.eqb_spec (Generator1.upsample_net a) "MelGANGenerator") as [Hnet|Hnet].
  - unfold mbind at 1, StateE_bind at 1.
    rewrite bind_assert, (Hmel Hnet). cbn [Z.eqb].
    rewrite bind_dict_update, bind_dict_read, bind_new_ok. unfold setattr at 1, modify.
    rewrite bind_dict_read. simpl_state. rewrite !lookup_total_insert_eq.
    eexists _, _. split; [|split]; [| |rewrite bind_lift; unfold dict_getitem;
      rewrite !lookup_insert_ne by done;
      destruct (_ !! "upsample_scales"); reflexivity].
    + simpl_state. reflexivity.
    + simpl_state. rewrite !lookup_total_insert_eq. lookup_inserted.
  - unfold mbind at 1, StateE_bind at 1.
    destruct (String.eqb_spec (Generator1.upsample_net a) "ConvInUpsampleNetwork")
      as [Hci|Hci].
    + rewrite bind_dict_update, bind_dict_read, bind_new_ok. unfold setattr at 1, modify.
      rewrite bind_dict_read. simpl_state. rewrite !lookup_total_insert_eq.
      eexists _, _. split; [|split]; [| |rewrite bind_lift; unfold dict_getitem;
        rewrite !lookup_insert_ne by done;
        destruct (_ !! "upsample_scales"); reflexivity].
      * simpl_state. reflexivity.
      * simpl_state. rewrite !lookup_total_insert_eq. lookup_inserted.
    + rewrite bind_ret, bind_dict_read, bind_new_ok. unfold setattr at 1, modify.
      rewrite bind_dict_read. simpl_state. rewrite !lookup_total_insert_eq.
      eexists _, _. split; [|split]; [| |rewrite bind_lift; unfold dict_getitem;
        rewrite !lookup_insert_ne by done;
        destruct (_ !! "upsample_scales"); reflexivity].
      * simpl_state. reflexivity.
      * simpl_state. rewrite !lookup_total_insert_eq. lookup_inserted.
Qed.

Lemma Generator1_init_block_succeeds a lps layer s l0 :
  lps <> 0 ->
  self s !! "conv_layers" = Some (OModuleList l0) ->
  exists s' l1,
    Generator1.init_block ext_ok a lps layer s = (Ok tt, s')
    /\ self s' !! "conv_layers" = Some (OModuleList l1)
    /\ heap s' = heap s.
Proof.
  intros Hlps Hl0. unfold Generator1.init_block, py_mod.
  destruct (Z.eqb_spec lps 0) as [|_]; [done|].
  rewrite bind_lift, bind_new_ok. unfold iadd_modules. simpl_state.
  rewrite Hl0. eexists _, _. split; [reflexivity|].
  split; [apply lookup_insert_eq | reflexivity].
Qed.

Lemma Generator1_init_blocks_succeeds a lps s :
  Generator1.layers a <= 0 \/ lps <> 0 ->
  exists s', Generator1.init_blocks ext_ok a lps s = (Ok tt, s') /\ heap s' = heap s.
Proof.
  intros Hcase. unfold Generator1.init_blocks. rewrite bind_setattr.
  destruct (Z.eqb_spec lps 0) as [Hz|Hnz].
  - destruct Hcase as [Hle|]; [|done]. unfold py_range.
    replace (Z.to_nat (Generator1.layers a)) with 0%nat by lia.
    eexists. split; reflexivity.
  - destruct (for_each_succeeds "conv_layers" (Generator1.init_block ext_ok a lps))
      with (L := py_range (Generator1.layers a))
           (s := set_self (insert "conv_layers" (OModuleList [])) s) (l0 := @nil module)
      as (s' & Hrun & Hheap).
    + intros. by eapply Generator1_init_block_succeeds.
    + cbn. apply lookup_insert_eq.
    + by exists s'.
Qed.

Lemma Generator1_init_last_conv_layers_succeeds a s :
  exists s', Generator1.init_last_conv_layers ext_ok a s = (Ok tt, s')
             /\ heap s' = heap s.
Proof.
  unfold Generator1.init_last_conv_layers.
  rewrite !bind_new_ok. eexists. split; reflexivity.
Qed.

Lemma layers_per_stack_nonzero (layers stacks : Z) :
  stacks <> 0 -> layers mod stacks = 0 -> layers <= 0 \/ layers / stacks <> 0.
Proof.
  intros Hs Hdiv. destruct (Z.le_gt_cases layers 0) as [|Hpos]; [by left|].
  right. intros Hq. pose proof (Z.div_mod layers stacks Hs) as Hdm.
  rewrite Hq, Hdiv in Hdm. lia.
Qed.

(** The outcome of [Generator1(...)] once the divisibility check and the
    context-window check pass: only [upsample_scales] can still be missing. *)
Lemma Generator1_create_runs a s :
  Generator1.stacks a <> 0 ->
  Generator1.layers a mod Generator1.stacks a = 0 ->
  Generator1.upsample_conditional_features a = true ->
  (Generator1.upsample_net a = "MelGANGenerator" -> Generator1.aux_context_window a = 0) ->
  match (heap s !!! Generator1.upsample_params a) !! "upsample_scales" with
  | Some scales => succeeds (Generator1.create ext_ok a s) = true
  | None =>
      exists s',
        Generator1.create ext_ok a s = (Raise (KeyError "upsample_scales"), s')
        /\ length (built (trace s')) = (length (built (trace s)) + 2)%nat
        /\ (heap s' !!! Generator1.upsample_params a) !! "use_causal_conv"
           = Some (VBool (Generator1.use_causal_conv a))
  end.
Proof.
  intros Hs Hdiv Hflag Hmel.
  destruct (Generator1_init_prefix (B:=unit) a s Hs Hdiv)
    as (s0 & Hheap0 & Htrace0 & Hrun).
  destruct (Generator1_init_upsample_runs a s0 Hflag Hmel)
    as (s1 & m & Htrace1 & Hucc & Hup).
  unfold Generator1.create, instantiate, Generator1.__init__.
  rewrite Hrun. rewrite Hheap0 in Hup.
  destruct ((heap s !!! Generator1.upsample_params a) !! "upsample_scales") as [scales|].
  - rewrite (bind_run _ _ _ _ _ Hup).
    match goal with
    | |- context [ (Generator1.init_blocks ext_ok a ?lps ≫= _) ?st ] =>
        destruct (Generator1_init_blocks_succeeds a lps st) as (t1 & Hrun1 & _);
          [by apply layers_per_stack_nonzero|]
    end.
    rewrite (bind_run _ _ _ _ _ Hrun1).
    destruct (Generator1_init_last_conv_layers_succeeds a t1) as (t2 & Hrun2 & _).
    rewrite (bind_run _ _ _ _ _ Hrun2).
    rewrite bind_new_ok, bind_setattr, bind_new_ok, bind_setattr.
    by destruct (Generator1.use_weight_norm a).
  - rewrite (bind_raise _ _ _ _ _ Hup).
    eexists. split; [reflexivity|]. split; [|exact Hucc].
    rewrite Htrace1, Htrace0, !built_app, !length_app. cbn. lia.
Qed.

Lemma Generator1_create_rejects a s :
  ~ (Generator1.stacks a <> 0 /\ Generator1.layers a mod Generator1.stacks a = 0) ->
  succeeds (Generator1.create ext_ok a s) = false.
Proof.
  intros Hnot. unfold Generator1.create, instantiate, Generator1.__init__.
  rewrite !bind_setattr, bind_lift. unfold py_mod.
  destruct (Z.eqb_spec (Generator1.stacks a) 0) as [Hz|Hnz]; [reflexivity|].
  rewrite bind_assert.
  destruct (Z.eqb_spec (Generator1.layers a mod Generator1.stacks a) 0); [tauto|reflexivity].
Qed.

Lemma Generator1_init_upsample_skipped ext a s :
  Generator1.upsample_conditional_features a = false ->
  Generator1.init_upsample ext a s
  = (Ok tt, set_self (insert "upsample_factor" (OInt 1))
              (set_self (insert "upsample_net" ONone) s)).
Proof. intros Hflag. unfold Generator1.init_upsample. by rewrite Hflag. Qed.

Lemma Generator1_create_no_upsampling_succeeds a s :
  Generator1.stacks a <> 0 ->
  Generator1.layers a mod Generator1.stacks a = 0 ->
  Generator1.upsample_conditional_features a = false ->
  succeeds (Generator1.create ext_ok a s) = true.
Proof.
  intros Hs Hdiv Hflag.
  destruct (Generator1_init_prefix (B:=unit) a s Hs Hdiv)
    as (s0 & Hheap0 & Htrace0 & Hrun).
  unfold Generator1.create, instantiate, Generator1.__init__.
  rewrite Hrun.
  rewrite (bind_run _ _ _ _ _ (Generator1_init_upsample_skipped ext_ok a s0 Hflag)).
  match goal with
  | |- context [ (Generator1.init_blocks ext_ok a ?lps ≫= _) ?st ] =>
      destruct (Generator1_init_blocks_succeeds a lps st) as (t1 & Hrun1 & _);
        [by apply layers_per_stack_nonzero|]
  end.
  rewrite (bind_run _ _ _ _ _ Hrun1).
  destruct (Generator1_init_last_conv_layers_succeeds a t1) as (t2 & Hrun2 & _).
  rewrite (bind_run _ _ _ _ _ Hrun2).
  rewrite bind_new_ok, bind_setattr, bind_new_ok, bind_setattr.
  by destruct (Generator1.use_weight_norm a).
Qed.

(** X7. When the collaborating constructors build, [Generator1(...)]
    returns an instance exactly when [stacks] is non-zero and divides
    [layers] and, if the conditioning is upsampled, the context window is 0
    for [MelGANGenerator] and the dictionary has an [upsample_scales]
    entry. *)
Theorem Generator1_construction_contract a s :
  succeeds (Generator1.create ext_ok a s) = true <->
  Generator1.stacks a <> 0
  /\ Generator1.layers a mod Generator1.stacks a = 0
  /\ (Generator1.upsample_conditional_features a = true ->
      (Generator1.upsample_net a = "MelGANGenerator" ->
       Generator1.aux_context_window a = 0)
      /\ is_Some ((heap s !!! Generator1.upsample_params a) !! "upsample_scales")).
Proof.
  split.
  - intros Hok.
    destruct (Z.eq_dec (Generator1.stacks a) 0) as [Hz|Hs].
    { rewrite Generator1_create_rejects in Hok by tauto. discriminate Hok. }
    destruct (Z.eq_dec (Generator1.layers a mod Generator1.stacks a) 0) as [Hdiv|Hnd];
      [|rewrite Generator1_create_rejects in Hok by tauto; discriminate Hok].
    split; [exact Hs|]. split; [exact Hdiv|]. intros Hflag.
    assert (Hmel : Generator1.upsample_net a = "MelGANGenerator" ->
                   Generator1.aux_context_window a = 0).
    { intros Hnet.
      destruct (Z.eq_dec (Generator1.aux_context_window a) 0) as [|Hacw]; [done|].
      destruct (melgan_context_window_check_run a s Hs Hdiv Hflag Hnet Hacw) as (s' & Hrun).
      rewrite Hrun in Hok. discriminate Hok. }
    split; [exact Hmel|].
    pose proof (Generator1_create_runs a s Hs Hdiv Hflag Hmel) as Hrun.
    destruct ((heap s !!! Generator1.upsample_params a) !! "upsample_scales");
      [by eexists|].
    destruct Hrun as (s' & Hrun & _). rewrite Hrun in Hok. discriminate Hok.
  - intros (Hs & Hdiv & Hup).
    destruct (Generator1.upsample_conditional_features a) eqn:Hflag.
    + destruct (Hup eq_refl) as [Hmel [scales Hscales]].
      pose proof (Generator1_create_runs a s Hs Hdiv Hflag Hmel) as Hrun.
      by rewrite Hscales in Hrun.
    + by apply Generator1_create_no_upsampling_succeeds.
Qed.

Lemma Generator1_construction_contract_witness :
  succeeds (Generator1.create ext_ok Generator1.defaults initial_state) = true.
Proof.
  apply (proj2 (Generator1_construction_contract Generator1.defaults initial_state)).
  split; [discriminate|]. split; [reflexivity|]. intros _.
  split; [discriminate|]. by eexists.
Defined.

(** X5. A dictionary without [upsample_scales] makes [Generator1(...)]
    raise [KeyError] when the conditioning is upsampled and the earlier
    checks pass; by then [first_conv] and the upsampling network have been
    built, and the dictionary has been updated. *)
Theorem Generator1_missing_upsample_scales a s :
  Generator1.stacks a <> 0 ->
  Generator1.layers a mod Generator1.stacks a = 0 ->
  Generator1.upsample_conditional_features a = true ->
  (Generator1.upsample_net a = "MelGANGenerator" -> Generator1.aux_context_window a = 0) ->
  (heap s !!! Generator1.upsample_params a) !! "upsample_scales" = None ->
  exists s',
    Generator1.create ext_ok a s = (Raise (KeyError "upsample_scales"), s')
    /\ length (built (trace s')) = (length (built (trace s)) + 2)%nat
    /\ (heap s' !!! Generator1.upsample_params a) !! "use_causal_conv"
       = Some (VBool (Generator1.use_causal_conv a)).
Proof.
  intros Hs Hdiv Hflag Hmel Hnone.
  pose proof (Generator1_create_runs a s Hs Hdiv Hflag Hmel) as Hrun.
  by rewrite Hnone in Hrun.
Qed.

Lemma Generator1_missing_upsample_scales_witness :
  exists s',
    Generator1.create ext_ok Generator1_own_params initial_state
    = (Raise (KeyError "upsample_scales"), s')
    /\ length (built (trace s')) = 2%nat.
Proof.
  destruct (Generator1_missing_upsample_scales Generator1_own_params initial_state
              ltac:(discriminate) eq_refl eq_refl ltac:(discriminate) eq_refl)
    as (s' & Hrun & Hbuilt & _).
  exists s'. split; [exact Hrun | exact Hbuilt].
Defined.

(** ** The upsampling factor *)

Tactic Notation "key_frame_of" hyp(H) "for" constr(p) constr(k) "as" ident(Hf)
    "unfolding" tactic3(defs) :=
  match type of H with
  | ?m ?s = _ =>
      assert (Hf : preserves (keeps_key p k) m) by (defs; frame_key);
      specialize (Hf _ _ _ H); unfold keeps_key in Hf
  end.

Lemma Generator1_init_upsample_factor ext a s u s' :
  Generator1.upsample_conditional_features a = true ->
  Generator1.init_upsample ext a s = (Ok u, s') ->
  exists scales,
    (heap s' !!! Generator1.upsample_params a) !! "upsample_scales" = Some scales
    /\ self s' !! "upsample_factor" = Some (np_prod scales).
Proof.
  intros Hflag H. unfold Generator1.init_upsample in H. cbv zeta in H.
  rewrite Hflag in H.
  step H as u1 t1 Hupd. clear Hupd.
  step H as u2 t2 Hif. clear Hif.
  step H as kw t3 Hread. apply dict_read_Ok in Hread as [-> ->].
  step H as scales t4 Hget. apply lift_Ok_inv in Hget as [Hget ->].
  apply setattr_Ok in H as ->. simpl_state.
  exists scales. split; [|apply lookup_insert_eq].
  unfold dict_getitem in Hget. by destruct (_ !! "upsample_scales"); simplify_eq.
Qed.

Lemma fold_wrap_int64 (l : list Z) (a b : Z) :
  l <> [] -> a mod 2 ^ 64 = b mod 2 ^ 64 ->
  fold_left (fun acc x => wrap_int64 (acc * x)) l a = wrap_int64 (fold_left Z.mul l b).
Proof.
  revert a b. induction l as [|x l IH]; intros a b Hl Hab; [done|].
  assert (Hx : (a * x) mod 2 ^ 64 = (b * x) mod 2 ^ 64).
  { by rewrite <- (Zmult_mod_idemp_l a), Hab, Zmult_mod_idemp_l. }
  destruct l as [|y l].
  - cbn. by apply wrap_int64_congr.
  - cbn [fold_left] in *. apply IH; [done|].
    by rewrite wrap_int64_mod.
Qed.

Lemma dtype_of_ints_int64 (l : list Z) :
  l <> [] -> Forall (fun z => - 2 ^ 63 <= z < 2 ^ 63) l -> dtype_of_ints l = DInt64.
Proof.
  assert (Hone : forall z, - 2 ^ 63 <= z < 2 ^ 63 -> dtype_of_int z = DInt64).
  { intros z Hz. unfold dtype_of_int.
    destruct (Z.leb_spec (- 2 ^ 63) z); [|lia].
    destruct (Z.ltb_spec z (2 ^ 63)); [reflexivity|lia]. }
  destruct l as [|z l]; [done|]. intros _ Hall.
  apply Forall_cons in Hall as [Hz Hall]. unfold dtype_of_ints.
  rewrite (Hone z Hz). induction Hall as [|x l Hx Hall IH]; [reflexivity|].
  cbn [fold_left]. by rewrite (Hone x Hx).
Qed.

(** X4. A constructed generator that upsamples its conditioning stores as
    [upsample_factor] what [np.prod] returns for the [upsample_scales] entry
    that the dictionary had before the call (no update touches that entry);
    [Generator1] with [upsample_conditional_features] false stores the
    Python integer 1 and [None] as its upsampling network. For a non-empty
    list of integers that fit in 64 bits [np.prod] is the numpy integer
    that is their product modulo [2 ** 64] (the product itself when it fits),
    for an empty list it is the float [1.0]. *)
Theorem upsample_factor_value (ext : ctor_call -> option exn) :
  (forall a s g s',
      Generator1.create ext a s = (Ok g, s') ->
      if Generator1.upsample_conditional_features a
      then exists scales,
             (heap s !!! Generator1.upsample_params a) !! "upsample_scales" = Some scales
             /\ g !! "upsample_factor" = Some (np_prod scales)
      else g !! "upsample_factor" = Some (OInt 1)
           /\ g !! "upsample_net" = Some ONone)
  /\ (forall a s g s',
        Generator2.create ext a s = (Ok g, s') ->
        exists scales,
          (heap s !!! Generator2.upsample_params a) !! "upsample_scales" = Some scales
          /\ g !! "upsample_factor" = Some (np_prod scales))
  /\ (forall l,
        l <> [] -> Forall (fun z => - 2 ^ 63 <= z < 2 ^ 63) l ->
        np_prod (VInts l) = ONp (NpInt64 (wrap_int64 (fold_left Z.mul l 1)))
        /\ (- 2 ^ 63 <= fold_left Z.mul l 1 < 2 ^ 63 ->
            np_prod (VInts l) = ONp (NpInt64 (fold_left Z.mul l 1))))
  /\ np_prod (VInts []) = ONp (NpFloat64 1).
Proof.
  split; [|split; [|split; [|reflexivity]]].
  - intros a s g s' H.
    key_frame_of H for (Generator1.upsample_params a) "upsample_scales" as Hkey
      unfolding (apply instantiate_preserves;
                 [by intros ? | apply keeps_key_trans |];
                 unfold Generator1.__init__, Generator1.init_upsample,
                   Generator1.init_blocks, Generator1.init_block,
                   Generator1.init_last_conv_layers; cbv zeta).
    apply instantiate_Ok in H as [H ->].
    unfold Generator1.__init__ in H.
    do 12 skip_step H.
    step H as u t1 Hup.
    heap_frame_of H as Hheap
      unfolding (unfold Generator1.init_blocks, Generator1.init_block,
                   Generator1.init_last_conv_layers).
    frame_of H for "upsample_factor" as Hfactor
      unfolding (unfold Generator1.init_blocks, Generator1.init_block,
                   Generator1.init_last_conv_layers).
    frame_of H for "upsample_net" as Hnet
      unfolding (unfold Generator1.init_blocks, Generator1.init_block,
                   Generator1.init_last_conv_layers).
    destruct (Generator1.upsample_conditional_features a) eqn:Hflag.
    + destruct (Generator1_init_upsample_factor _ _ _ _ _ Hflag Hup)
        as (scales & Hscales & Hattr).
      exists scales. rewrite <- Hkey, Hheap, Hfactor. by split.
    + rewrite (Generator1_init_upsample_skipped ext a _ Hflag) in Hup.
      injection Hup as _ <-. rewrite Hfactor, Hnet. simpl_state.
      split; lookup_inserted.
  - intros a s g s' H.
    key_frame_of H for (Generator2.upsample_params a) "upsample_scales" as Hkey
      unfolding (apply instantiate_preserves;
                 [by intros ? | apply keeps_key_trans |];
                 unfold Generator2.__init__, Generator2.init_blocks,
                   Generator2.init_block, Generator2.init_last_conv_layers; cbv zeta).
    apply instantiate_Ok in H as [H ->].
    unfold Generator2.__init__ in H. cbv zeta in H.
    do 19 skip_step H.
    step H as kw t1 Hread. apply dict_read_Ok in Hread as [-> ->].
    step H as scales t2 Hget. apply lift_Ok_inv in Hget as [Hget ->].
    step H as u t3 Hset. apply setattr_Ok in Hset as ->.
    heap_frame_of H as Hheap unfolding idtac.
    frame_of H for "upsample_factor" as Hfactor unfolding idtac.
    exists scales. rewrite <- Hkey, Hheap, Hfactor. simpl_state.
    split; [|apply lookup_insert_eq].
    unfold dict_getitem in Hget. by destruct (_ !! "upsample_scales"); simplify_eq.
  - intros l Hl Hall.
    assert (Hprod : np_prod (VInts l)
                    = ONp (NpInt64 (wrap_int64 (fold_left Z.mul l 1)))).
    { unfold np_prod, np_prod_ints. rewrite (dtype_of_ints_int64 l Hl Hall).
      by rewrite (fold_wrap_int64 l 1 1 Hl eq_refl). }
    split; [exact Hprod|]. intros Hfit. by rewrite Hprod, wrap_int64_small.
Qed.

(** The defaults store 256; [upsample_scales = [2 ** 32, 2 ** 32]] stores
    0; without upsampling the factor is the integer 1. *)
Lemma upsample_factor_value_witness :
  (exists g s',
      Generator1.create ext_ok Generator1.defaults initial_state = (Ok g, s')
      /\ g !! "upsample_factor" = Some (ONp (NpInt64 256)))
  /\ (exists g s',
        Generator1.create ext_ok Generator1_own_params
          (set_heap (insert 2%nat {[ "upsample_scales" := VInts [2 ^ 32; 2 ^ 32] ]})
             initial_state)
        = (Ok g, s')
        /\ g !! "upsample_factor" = Some (ONp (NpInt64 0)))
  /\ (exists g s',
        Generator1.create ext_ok Generator1_no_upsampling initial_state = (Ok g, s')
        /\ g !! "upsample_factor" = Some (OInt 1))
  /\ np_prod (VInts [4; 4; 4; 4]) = ONp (NpInt64 256)
  /\ np_prod (VInts [2 ^ 32; 2 ^ 32]) = ONp (NpInt64 (wrap_int64 (2 ^ 64))).
Proof.
  destruct (upsample_factor_value ext_ok) as (H1 & _ & Hprod & _).
  split; [|split; [|split; [|split]]];
    [| | |
     exact (proj2 (Hprod [4; 4; 4; 4] ltac:(discriminate)
                     ltac:(repeat constructor; lia))
                  ltac:(cbn; lia))
    |exact (proj1 (Hprod [2 ^ 32; 2 ^ 32] ltac:(discriminate)
                     ltac:(repeat constructor; lia)))].
  - destruct (succeeds_Ok (Generator1.create ext_ok Generator1.defaults initial_state))
      as (g & s' & E); [vm_compute; reflexivity|].
    destruct (H1 _ _ _ _ E) as (scales & Hscales & Hattr).
    exists g, s'. split; [exact E|]. clear E.
    vm_compute in Hscales. injection Hscales as <-.
    rewrite Hattr. reflexivity.
  - destruct (succeeds_Ok
                (Generator1.create ext_ok Generator1_own_params
                   (set_heap (insert 2%nat {[ "upsample_scales" := VInts [2 ^ 32; 2 ^ 32] ]})
                      initial_state)))
      as (g & s' & E); [vm_compute; reflexivity|].
    destruct (H1 _ _ _ _ E) as (scales & Hscales & Hattr).
    exists g, s'. split; [exact E|]. clear E.
    vm_compute in Hscales. injection Hscales as <-.
    rewrite Hattr. reflexivity.
  - destruct (succeeds_Ok (Generator1.create ext_ok Generator1_no_upsampling initial_state))
      as (g & s' & E); [vm_compute; reflexivity|].
    destruct (H1 _ _ _ _ E) as (Hattr & _).
    exists g, s'. split; [exact E | exact Hattr].
Defined.

(** ** Edge cases of [Generator2(...)] *)

(** The prefix of [Generator2.__init__] up to the upsampling network. *)
Lemma Generator2_init_prefix {B : Type} a s :
  exists s0,
    heap s0
    = <[Generator2.upsample_params a :=
          <["aux_context_window" := VInt (Generator2.aux_context_window a)]>
            (<["aux_channels" := VInt (Generator2.aux_channels a)]>
               (heap s !!! Generator2.upsample_params a))]> (heap s)
    /\ length (built (trace s0)) = (length (built (trace s)) + 4)%nat
    /\ forall rest : StateE cstate B,
         (setattr "in_channels" (OInt (Generator2.in_channels a));;
          setattr "out_channels" (OInt (Generator2.out_channels a));;
          setattr "aux_channels" (OInt (Generator2.aux_channels a));;
          setattr "stacks" (OInts (Generator2.stacks a));;
          m ← new ext_ok (CPQMF (Some (Generator2.out_channels a)));
          setattr "pqmf" (OModule m);;
          setattr "aux_context_window" (OInt (Generator2.aux_context_window a));;
          m ← new ext_ok (CConv1d1x1 (Generator2.in_channels a)
                            (Generator2.residual_channels a) true);
          setattr "low_first_conv" (OModule m);;
          m ← new ext_ok (CConv1d1x1 (Generator2.in_channels a)
                            (Generator2.residual_channels a) true);
          setattr "up_first_conv" (OModule m);;
          dict_update (Generator2.upsample_params a) (fun d =>
            <["aux_context_window" := VInt (Generator2.aux_context_window a)]>
              (<["aux_channels" := VInt (Generator2.aux_channels a)]> d));;
          kw ← dict_read (Generator2.upsample_params a);
          m ← new ext_ok (CUpsample (Generator2.upsample_net a) kw);
          setattr "upsample_net" (OModule m);;
          rest) (set_self (fun _ => ∅) s)
         = rest s0.
Proof.
  eexists. split; [|split]; [| |intros rest].
  3: { rewrite !bind_setattr, bind_new_ok, !bind_setattr, bind_new_ok, bind_setattr,
         bind_new_ok, bind_setattr, bind_dict_update, bind_dict_read, bind_new_ok,
         bind_setattr. reflexivity. }
  - reflexivity.
  - simpl_state. rewrite !built_app, !length_app. cbn. lia.
Qed.

Lemma py_range_pos (n : Z) : 0 < n -> exists l, py_range n = 0 :: l.
Proof.
  intros Hn. unfold py_range. destruct (Z.to_nat n) as [|k] eqn:E; [lia|].
  cbn. eauto.
Qed.

Lemma Generator2_init_blocks_empty ext a name j s n :
  Generator2.layers a !! j = Some n -> n <= 0 ->
  Generator2.init_blocks ext a name j s
  = (Ok tt, set_self (insert name (OModuleList [])) s).
Proof.
  intros Hn Hle. unfold Generator2.init_blocks, py_index, py_range.
  rewrite bind_setattr, Hn, bind_lift.
  by replace (Z.to_nat n) with 0%nat by lia.
Qed.

Lemma Generator2_init_blocks_no_layers ext a name j s :
  Generator2.layers a !! j = None ->
  Generator2.init_blocks ext a name j s
  = (Raise IndexError, set_self (insert name (OModuleList [])) s).
Proof.
  intros Hn. unfold Generator2.init_blocks, py_index.
  by rewrite bind_setattr, Hn, bind_lift.
Qed.

Lemma Generator2_init_block_zero_stack ext a name j layer s :
  Generator2.stacks a !! j = Some 0 ->
  Generator2.init_block ext a name j layer s = (Raise ZeroDivisionError, s).
Proof.
  intros Hst. unfold Generator2.init_block, py_index. rewrite Hst.
  by rewrite !bind_lift.
Qed.

Lemma Generator2_init_block_no_stack ext a name j layer s :
  Generator2.stacks a !! j = None ->
  Generator2.init_block ext a name j layer s = (Raise IndexError, s).
Proof.
  intros Hst. unfold Generator2.init_block, py_index. rewrite Hst.
  by rewrite bind_lift.
Qed.

Lemma Generator2_init_blocks_zero_stack ext a name j s n :
  Generator2.layers a !! j = Some n -> 0 < n ->
  Generator2.stacks a !! j = Some 0 ->
  Generator2.init_blocks ext a name j s
  = (Raise ZeroDivisionError, set_self (insert name (OModuleList [])) s).
Proof.
  intros Hn Hpos Hst. destruct (py_range_pos n Hpos) as [l Hrange].
  unfold Generator2.init_blocks, py_index.
  rewrite bind_setattr, Hn, bind_lift, Hrange. cbn [for_each].
  by rewrite (bind_raise _ _ _ _ _
                (Generator2_init_block_zero_stack ext a name j 0 _ Hst)).
Qed.

Lemma Generator2_init_blocks_no_stack ext a name j s n :
  Generator2.layers a !! j = Some n -> 0 < n ->
  Generator2.stacks a !! j = None ->
  Generator2.init_blocks ext a name j s
  = (Raise IndexError, set_self (insert name (OModuleList [])) s).
Proof.
  intros Hn Hpos Hst. destruct (py_range_pos n Hpos) as [l Hrange].
  unfold Generator2.init_blocks, py_index.
  rewrite bind_setattr, Hn, bind_lift, Hrange. cbn [for_each].
  by rewrite (bind_raise _ _ _ _ _
                (Generator2_init_block_no_stack ext a name j 0 _ Hst)).
Qed.

(** X11. [Generator2(...)] reads its per-branch lists lazily. An empty
    [layers] list raises [IndexError]; a positive [layers[0]] with
    [stacks[0] == 0] raises [ZeroDivisionError] and with an empty [stacks]
    list raises [IndexError]; but when both [layers[j]] are non-positive,
    [stacks] and [kernel_sizes] are never read and the call returns an
    instance whatever they hold. *)
Theorem Generator2_list_edges a s :
  (Generator2.layers a = [] ->
   fst (Generator2.create ext_ok a s) = Raise IndexError)
  /\ (forall n0 ls ss,
        Generator2.layers a = n0 :: ls -> 0 < n0 -> Generator2.stacks a = 0 :: ss ->
        fst (Generator2.create ext_ok a s) = Raise ZeroDivisionError)
  /\ (forall n0 ls,
        Generator2.layers a = n0 :: ls -> 0 < n0 -> Generator2.stacks a = [] ->
        fst (Generator2.create ext_ok a s) = Raise IndexError)
  /\ (forall n0 n1 ls scales,
        Generator2.layers a = n0 :: n1 :: ls -> n0 <= 0 -> n1 <= 0 ->
        (heap s !!! Generator2.upsample_params a) !! "upsample_scales" = Some scales ->
        succeeds (Generator2.create ext_ok a s) = true).
Proof.
  destruct (Generator2_init_prefix (B:=unit) a s) as (s0 & Hheap & _ & Hrun).
  unfold Generator2.create, instantiate, Generator2.__init__. cbv zeta.
  rewrite Hrun. clear Hrun.
  split; [|split; [|split]].
  - intros Hl.
    by rewrite (bind_raise _ _ _ _ _
                  (Generator2_init_blocks_no_layers ext_ok a "low_conv_layers" 0 s0
                     ltac:(by rewrite Hl))).
  - intros n0 ls ss Hl Hn0 Hs.
    by rewrite (bind_raise _ _ _ _ _
                  (Generator2_init_blocks_zero_stack ext_ok a "low_conv_layers" 0 s0 n0
                     ltac:(by rewrite Hl) Hn0 ltac:(by rewrite Hs))).
  - intros n0 ls Hl Hn0 Hs.
    by rewrite (bind_raise _ _ _ _ _
                  (Generator2_init_blocks_no_stack ext_ok a "low_conv_layers" 0 s0 n0
                     ltac:(by rewrite Hl) Hn0 ltac:(by rewrite Hs))).
  - intros n0 n1 ls scales Hl Hn0 Hn1 Hscales.
    rewrite (bind_run _ _ _ _ _
               (Generator2_init_blocks_empty ext_ok a "low_conv_layers" 0 s0 n0
                  ltac:(by rewrite Hl) Hn0)).
    rewrite (bind_run _ _ _ _ _
               (Generator2_init_blocks_empty ext_ok a "up_conv_layers" 1 _ n1
                  ltac:(by rewrite Hl) Hn1)).
    match goal with
    | |- context [ (Generator2.init_last_conv_layers ext_ok a "last_low_conv_layers" ≫= _) ?st ] =>
        destruct (Generator2_init_last_conv_layers_succeeds a "last_low_conv_layers" st)
          as (t3 & Hrun3 & Hheap3)
    end.
    rewrite (bind_run _ _ _ _ _ Hrun3).
    destruct (Generator2_init_last_conv_layers_succeeds a "last_up_conv_layers" t3)
      as (t4 & Hrun4 & Hheap4).
    rewrite (bind_run _ _ _ _ _ Hrun4).
    rewrite bind_dict_read, Hheap4, Hheap3. simpl_state. rewrite Hheap.
    rewrite lookup_total_insert_eq. unfold dict_getitem.
    rewrite !lookup_insert_ne by done. rewrite Hscales, bind_lift, bind_setattr.
    by destruct (Generator2.use_weight_norm a).
Qed.

Lemma Generator2_list_edges_witness :
  fst (Generator2.create ext_ok (Generator2_lists [] [8; 5] [7; 5]) initial_state)
  = Raise IndexError
  /\ fst (Generator2.create ext_ok (Generator2_lists [16; 15] [0; 5] [7; 5]) initial_state)
     = Raise ZeroDivisionError
  /\ fst (Generator2.create ext_ok (Generator2_lists [16; 15] [] [7; 5]) initial_state)
     = Raise IndexError
  /\ succeeds (Generator2.create ext_ok (Generator2_lists [0; 0] [] []) initial_state)
     = true.
Proof.
  split; [|split; [|split]].
  - apply (proj1 (Generator2_list_edges (Generator2_lists [] [8; 5] [7; 5]) initial_state)).
    reflexivity.
  - destruct (Generator2_list_edges (Generator2_lists [16; 15] [0; 5] [7; 5]) initial_state)
      as (_ & H & _).
    by apply (H 16 [15] [5]).
  - destruct (Generator2_list_edges (Generator2_lists [16; 15] [] [7; 5]) initial_state)
      as (_ & _ & H & _).
    by apply (H 16 [15]).
  - destruct (Generator2_list_edges (Generator2_lists [0; 0] [] []) initial_state)
      as (_ & _ & _ & H).
    by apply (H 0 0 [] (VInts [4; 4; 4; 4])).
Defined.

Lemma for_each_builds (name : string) (body : Z -> StateE cstate unit) :
  (forall layer s l0,
      self s !! name = Some (OModuleList l0) ->
      exists s' l1, body layer s = (Ok tt, s')
                    /\ self s' !! name = Some (OModuleList l1)
                    /\ heap s' = heap s
                    /\ length (built (trace s')) = S (length (built (trace s)))) ->
  forall L s l0,
    self s !! name = Some (OModuleList l0) ->
    exists s', for_each L body s = (Ok tt, s')
               /\ heap s' = heap s
               /\ length (built (trace s')) = (length (built (trace s)) + length L)%nat.
Proof.
  intros Hbody L. induction L as [|layer L IH]; intros s l0 Hl0.
  - exists s. split; [reflexivity|]. split; [reflexivity | cbn; lia].
  - destruct (Hbody layer _ _ Hl0) as (s1 & l1 & Hrun & Hl1 & Hheap & Hbuilt).
    destruct (IH _ _ Hl1) as (s' & Hrest & Hheap' & Hbuilt').
    exists s'. cbn [for_each]. rewrite (bind_run _ _ _ _ _ Hrun).
    split; [exact Hrest|]. split; [congruence | cbn; lia].
Qed.

Lemma Generator2_init_blocks_builds a name j s n st k :
  Generator2.layers a !! j = Some n ->
  Generator2.stacks a !! j = Some st -> st <> 0 ->
  Generator2.kernel_sizes a !! j = Some k ->
  exists s',
    Generator2.init_blocks ext_ok a name j s = (Ok tt, s')
    /\ heap s' = heap s
    /\ length (built (trace s')) = (length (built (trace s)) + Z.to_nat n)%nat.
Proof.
  intros Hn Hst Hnz Hk. unfold Generator2.init_blocks, py_index.
  rewrite bind_setattr, Hn, bind_lift.
  destruct (for_each_builds name (Generator2.init_block ext_ok a name j))
    with (L := py_range n) (s := set_self (insert name (OModuleList [])) s) (l0 := @nil module)
    as (s' & Hrun & Hheap & Hbuilt).
  - intros layer s1 l0 Hl0. unfold Generator2.init_block, py_index, py_mod.
    rewrite Hst, Hk, bind_lift, bind_lift.
    destruct (Z.eqb_spec st 0) as [|_]; [done|].
    rewrite bind_lift, bind_new_ok. unfold iadd_modules. simpl_state.
    rewrite Hl0. eexists _, _. split; [reflexivity|]. simpl_state.
    split; [apply lookup_insert_eq|]. split; [reflexivity|].
    rewrite built_app, length_app. cbn. lia.
  - cbn. apply lookup_insert_eq.
  - exists s'. rewrite length_py_range in Hbuilt. by repeat split.
Qed.

Lemma Generator2_init_last_conv_layers_builds a name s :
  exists s',
    Generator2.init_last_conv_layers ext_ok a name s = (Ok tt, s')
    /\ heap s' = heap s
    /\ length (built (trace s')) = (length (built (trace s)) + 4)%nat.
Proof.
  unfold Generator2.init_last_conv_layers.
  rewrite !bind_new_ok. eexists. split; [reflexivity|]. simpl_state.
  split; [reflexivity|]. rewrite !built_app, !length_app. cbn. lia.
Qed.

(** X12. [Generator2(...)] reads [upsample_scales] last: when the
    dictionary has no such entry the call raises [KeyError] only after the
    filter bank, both input convolutions, the upsampling network, all
    residual blocks and both output heads have been built, and it leaves the
    dictionary updated. *)
Theorem Generator2_missing_upsample_scales a s n0 n1 st0 st1 k0 k1 :
  Generator2.layers a = [n0; n1] ->
  Generator2.stacks a = [st0; st1] ->
  Generator2.kernel_sizes a = [k0; k1] ->
  st0 <> 0 -> st1 <> 0 ->
  (heap s !!! Generator2.upsample_params a) !! "upsample_scales" = None ->
  exists s',
    Generator2.create ext_ok a s = (Raise (KeyError "upsample_scales"), s')
    /\ length (built (trace s'))
       = (length (built (trace s)) + 12 + Z.to_nat n0 + Z.to_nat n1)%nat
    /\ (heap s' !!! Generator2.upsample_params a) !! "aux_channels"
       = Some (VInt (Generator2.aux_channels a)).
Proof.
  intros Hl Hs Hk Hz0 Hz1 Hnone.
  destruct (Generator2_init_prefix (B:=unit) a s) as (s0 & Hheap0 & Hbuilt0 & Hrun).
  unfold Generator2.create, instantiate, Generator2.__init__. cbv zeta.
  rewrite Hrun. clear Hrun.
  destruct (Generator2_init_blocks_builds a "low_conv_layers" 0 s0 n0 st0 k0)
    as (t1 & Hrun1 & Hheap1 & Hbuilt1); [by rewrite Hl | by rewrite Hs | done | by rewrite Hk |].
  rewrite (bind_run _ _ _ _ _ Hrun1).
  destruct (Generator2_init_blocks_builds a "up_conv_layers" 1 t1 n1 st1 k1)
    as (t2 & Hrun2 & Hheap2 & Hbuilt2); [by rewrite Hl | by rewrite Hs | done | by rewrite Hk |].
  rewrite (bind_run _ _ _ _ _ Hrun2).
  destruct (Generator2_init_last_conv_layers_builds a "last_low_conv_layers" t2)
    as (t3 & Hrun3 & Hheap3 & Hbuilt3).
  rewrite (bind_run _ _ _ _ _ Hrun3).
  destruct (Generator2_init_last_conv_layers_builds a "last_up_conv_layers" t3)
    as (t4 & Hrun4 & Hheap4 & Hbuilt4).
  rewrite (bind_run _ _ _ _ _ Hrun4).
  rewrite bind_dict_read, Hheap4, Hheap3, Hheap2, Hheap1, Hheap0.
  rewrite lookup_total_insert_eq. unfold dict_getitem.
  rewrite !lookup_insert_ne by done. rewrite Hnone, bind_lift.
  eexists. split; [reflexivity|]. split; [lia|].
  rewrite Hheap4, Hheap3, Hheap2, Hheap1, Hheap0, lookup_total_insert_eq.
  lookup_inserted.
Qed.

Lemma Generator2_missing_upsample_scales_witness :
  exists s',
    Generator2.create ext_ok Generator2_own_params initial_state
    = (Raise (KeyError "upsample_scales"), s')
    /\ length (built (trace s')) = 43%nat.
Proof.
  destruct (Generator2_missing_upsample_scales Generator2_own_params initial_state
              16 15 8 5 7 5 eq_refl eq_refl eq_refl
              ltac:(discriminate) ltac:(discriminate) eq_refl)
    as (s' & Hrun & Hbuilt & _).
  exists s'. split; [exact Hrun | exact Hbuilt].
Defined.

(** ** Forward passes on constructed generators *)

Lemma new_setattr_kept ext c name (k : unit -> StateE cstate unit) s s' u :
  (forall v, preserves (keeps_attr name) (k v)) ->
  (new ext c ≫= fun m => setattr name (OModule m) ≫= k) s = (Ok u, s') ->
  exists m, mcall m = c /\ self s' !! name = Some (OModule m).
Proof.
  intros Hk H.
  step H as m t1 Hnew. apply new_Ok in Hnew as (Hm & _).
  step H as u1 t2 Hset. apply setattr_Ok in Hset as ->.
  exists m. split; [exact Hm|].
  rewrite (Hk _ _ _ _ H). cbn. apply lookup_insert_eq.
Qed.

(** The sub-modules a constructed [Generator1] holds besides its blocks and
    its output head. *)
Lemma Generator1_create_modules ext a s g s' :
  Generator1.create ext a s = (Ok g, s') ->
  (exists m, g !! "first_conv" = Some (OModule m))
  /\ (exists m, g !! "pqmf_conv1" = Some (OModule m))
  /\ (exists m, g !! "pqmf_conv2" = Some (OModule m))
  /\ (exists m, g !! "pqmf" = Some (OModule m))
  /\ (if Generator1.upsample_conditional_features a
      then exists m, g !! "upsample_net" = Some (OModule m)
      else g !! "upsample_net" = Some ONone).
Proof.
  intros Hcreate. pose proof Hcreate as H. apply instantiate_Ok in H as [H ->].
  unfold Generator1.__init__ in H.
  do 10 skip_step H.
  split.
  { pose proof H as H1.
    eapply new_setattr_kept in H1 as (m & _ & Hm); [by eauto|].
    intros _. unfold Generator1.init_upsample, Generator1.init_blocks,
      Generator1.init_block, Generator1.init_last_conv_layers. cbv zeta. frame_attr. }
  do 2 skip_step H.
  step H as u t1 Hup.
  assert (Hnet : if Generator1.upsample_conditional_features a
                 then exists m, self t1 !! "upsample_net" = Some (OModule m)
                 else self t1 !! "upsample_net" = Some ONone).
  { destruct (Generator1.upsample_conditional_features a) eqn:Hflag.
    - destruct (Generator1_init_upsample_Ok _ _ _ _ _ Hflag Hup) as (_ & _ & _ & m & Hm & _).
      by exists m.
    - rewrite (Generator1_init_upsample_skipped ext a _ Hflag) in Hup.
      injection Hup as _ <-. simpl_state. lookup_inserted. }
  frame_of H for "upsample_net" as Hfnet
    unfolding (unfold Generator1.init_blocks, Generator1.init_block,
                 Generator1.init_last_conv_layers).
  do 2 skip_step H.
  split.
  { pose proof H as H1.
    eapply new_setattr_kept in H1 as (m & _ & Hm); [by eauto|].
    intros _. frame_attr. }
  do 2 skip_step H.
  split.
  { pose proof H as H1.
    eapply new_setattr_kept in H1 as (m & _ & Hm); [by eauto|].
    intros _. frame_attr. }
  do 3 skip_step H.
  split.
  { step H as m t2 Hnew. apply setattr_Ok in H as ->.
    exists m. cbn. apply lookup_insert_eq. }
  rewrite Hfnet. exact Hnet.
Qed.
(** ** [Generator2.forward] on constructed instances *)

Lemma Generator2_create_heads ext a s g s' (name : string) :
  name ∈ ["last_low_conv_layers"; "last_up_conv_layers"] ->
  Generator2.create ext a s = (Ok g, s') ->
  exists ms, g !! name = Some (OModuleList ms).
Proof.
  intros Hname H. apply instantiate_Ok in H as [H ->].
  unfold Generator2.__init__ in H. cbv zeta in H.
  do 17 skip_step H.
  step H as u1 t1 Hlow.
  step H as u2 t2 Hup.
  frame_of Hup for "last_low_conv_layers" as Hkeep
    unfolding (unfold Generator2.init_last_conv_layers).
  apply Generator2_init_last_conv_layers_Ok in Hlow as (ml & Hml & _).
  apply Generator2_init_last_conv_layers_Ok in Hup as (mu & Hmu & _).
  apply elem_of_cons in Hname as [->|Hname];
    [|apply list_elem_of_singleton in Hname as ->].
  - frame_of H for "last_low_conv_layers" as Hf unfolding idtac.
    exists ml. by rewrite Hf, Hkeep.
  - frame_of H for "last_up_conv_layers" as Hf unfolding idtac.
    exists mu. by rewrite Hf.
Qed.

Lemma Generator2_create_modules ext a s g s' :
  Generator2.create ext a s = (Ok g, s') ->
  (exists m, g !! "pqmf" = Some (OModule m))
  /\ (exists m, g !! "low_first_conv" = Some (OModule m))
  /\ (exists m, g !! "up_first_conv" = Some (OModule m))
  /\ (exists m, g !! "upsample_net" = Some (OModule m)).
Proof.
  intros Hcreate. pose proof Hcreate as H. apply instantiate_Ok in H as [H ->].
  unfold Generator2.__init__ in H. cbv zeta in H.
  do 4 skip_step H.
  split.
  { pose proof H as H1.
    eapply new_setattr_kept in H1 as (m & _ & Hm); [by eauto|].
    intros _. unfold Generator2.init_blocks, Generator2.init_block,
      Generator2.init_last_conv_layers. frame_attr. }
  do 3 skip_step H.
  split.
  { pose proof H as H1.
    eapply new_setattr_kept in H1 as (m & _ & Hm); [by eauto|].
    intros _. unfold Generator2.init_blocks, Generator2.init_block,
      Generator2.init_last_conv_layers. frame_attr. }
  do 2 skip_step H.
  split.
  { pose proof H as H1.
    eapply new_setattr_kept in H1 as (m & _ & Hm); [by eauto|].
    intros _. unfold Generator2.init_blocks, Generator2.init_block,
      Generator2.init_last_conv_layers. frame_attr. }
  destruct (Generator2_create_mutates _ _ _ _ _ Hcreate) as (_ & _ & m & Hm & _).
  by exists m.
Qed.

(** What [inference] reads from a [Generator1] constructed without an
    upsampling network. *)
Lemma Generator1_create_inference_attrs ext a s g s' :
  Generator1.create ext a s = (Ok g, s') ->
  Generator1.upsample_conditional_features a = false ->
  g !! "aux_context_window" = Some (OInt (Generator1.aux_context_window a))
  /\ g !! "upsample_factor" = Some (OInt 1).
Proof.
  intros H Hflag. apply instantiate_Ok in H as [H ->].
  unfold Generator1.__init__ in H.
  do 3 skip_step H.
  step H as u1 t1 Hw. apply setattr_Ok in Hw as ->.
  frame_of H for "aux_context_window" as Hfw
    unfolding (unfold Generator1.init_upsample, Generator1.init_blocks,
                 Generator1.init_block, Generator1.init_last_conv_layers).
  split; [rewrite Hfw; simpl_state; apply lookup_insert_eq|]. clear Hfw.
  do 8 skip_step H.
  step H as u t2 Hup.
  frame_of H for "upsample_factor" as Hfactor
    unfolding (unfold Generator1.init_blocks, Generator1.init_block,
                 Generator1.init_last_conv_layers).
  rewrite (Generator1_init_upsample_skipped ext a _ Hflag) in Hup.
  injection Hup as _ <-. rewrite Hfactor. simpl_state. lookup_inserted.
Qed.

Section ForwardRuns.

Variable Tensor : Type.
Variable size_last : Tensor -> Z.
Variable call_module : module -> Tensor -> result Tensor.
Variable call_block : module -> Tensor -> option Tensor -> result (Tensor * Tensor).
Variable pqmf_analysis : module -> Tensor -> result Tensor.
Variable pqmf_synthesis : module -> Tensor -> result Tensor.
Variable int_add_tensor : Z -> Tensor -> Tensor.
Variable tensor_iadd : Tensor -> Tensor -> Tensor.
Variable tensor_imul : Tensor -> float -> Tensor.
Variable cat_dim1 : Tensor -> Tensor -> result Tensor.

(** The collaborating modules accept their inputs. *)
Hypothesis call_module_total : forall m t, exists t', call_module m t = Ok t'.
Hypothesis call_block_total : forall m x c, exists x' h, call_block m x c = Ok (x', h).
Hypothesis pqmf_analysis_total : forall m t, exists t', pqmf_analysis m t = Ok t'.
Hypothesis pqmf_synthesis_total : forall m t, exists t', pqmf_synthesis m t = Ok t'.
Hypothesis cat_dim1_total : forall t1 t2, exists t', cat_dim1 t1 t2 = Ok t'.

Local Abbreviation run_blocks' :=
  (run_blocks Tensor call_block int_add_tensor tensor_iadd).
Local Abbreviation skip_aggregate' :=
  (skip_aggregate Tensor call_block int_add_tensor tensor_iadd tensor_imul).
Local Abbreviation output_head' := (output_head Tensor call_module).
Local Abbreviation upsample' := (upsample_conditioning Tensor size_last call_module).
Local Abbreviation forward1 :=
  (Generator1_forward Tensor size_last call_module call_block pqmf_analysis
     pqmf_synthesis int_add_tensor tensor_iadd tensor_imul).
Local Abbreviation forward2 :=
  (Generator2_forward Tensor size_last call_module call_block pqmf_synthesis
     int_add_tensor tensor_iadd tensor_imul cat_dim1).

Lemma run_blocks_total (ms : list module) x c acc :
  exists x' t, run_blocks' (map OModule ms) x c acc = Ok (x', t)
               /\ (ms <> [] \/ is_Some acc -> is_Some t).
Proof using call_block_total.
  revert x acc. induction ms as [|m ms IH]; intros x acc.
  - exists x, acc. split; [reflexivity|]. by intros [|].
  - destruct (call_block_total m x c) as (x1 & h & Hcall).
    destruct (IH x1 (Some (skips_iadd Tensor int_add_tensor tensor_iadd acc h)))
      as (x' & t & Hrun & Hsome).
    exists x', t. split; [|intros _; apply Hsome; right; by eexists].
    cbn. rewrite Hcall. exact Hrun.
Qed.

Lemma skip_aggregate_runs (self : obj) name (ms : list module) x c :
  self !! name = Some (OModuleList ms) ->
  match ms with
  | [] => skip_aggregate' self name x c = Raise ZeroDivisionError
  | _ :: _ => exists t, skip_aggregate' self name x c = Ok t
  end.
Proof using call_block_total.
  intros Hms. unfold skip_aggregate, getattr. rewrite Hms. cbn.
  destruct (run_blocks_total ms x c None) as (x' & t & Hrun & Hsome).
  rewrite Hrun. cbn. destruct ms as [|m ms]; [reflexivity|].
  destruct Hsome as [t' ->]; [by left|]. cbn. eauto.
Qed.

Lemma output_head_runs (self : obj) name (ms : list module) x :
  self !! name = Some (OModuleList ms) ->
  exists y, output_head' self name x = Ok y.
Proof using call_module_total.
  intros Hms. unfold output_head, getattr. rewrite Hms. cbn. clear Hms.
  revert x. induction ms as [|m ms IH]; intros x.
  - exists x. reflexivity.
  - cbn. destruct (call_module_total m x) as [x' Hx]. rewrite Hx. cbn. apply IH.
Qed.

(** The first lines of both [forward] methods on an instance whose
    [upsample_net] is a module or [None]. *)
Lemma upsample_conditioning_runs (self : obj) factor x c :
  (exists net, self !! "upsample_net" = Some (OModule net)
               /\ forall cv cu, c = Some cv -> call_module net cv = Ok cu ->
                                size_last cu * factor = size_last x)
  \/ self !! "upsample_net" = Some ONone ->
  exists c', upsample' self factor x c = Ok c'.
Proof using call_module_total.
  intros Hnet. unfold upsample_conditioning, getattr.
  destruct c as [cv|]; [|by eexists].
  destruct Hnet as [(net & -> & Hlen)| ->]; cbn; [|by eexists].
  destruct (call_module_total net cv) as [cu Hcu]. rewrite Hcu. cbn.
  rewrite (Hlen cv cu eq_refl Hcu), Z.eqb_refl. by eexists.
Qed.

(** [Generator1.forward] on an instance with the attributes that
    [__init__] stores, once the conditioning is through. *)
Lemma Generator1_forward_on (self : obj) fc c1 c2 pq blocks head x c :
  self !! "first_conv" = Some (OModule fc) ->
  self !! "pqmf_conv1" = Some (OModule c1) ->
  self !! "pqmf_conv2" = Some (OModule c2) ->
  self !! "pqmf" = Some (OModule pq) ->
  self !! "conv_layers" = Some (OModuleList blocks) ->
  self !! "last_conv_layers" = Some (OModuleList head) ->
  (exists c', upsample' self 4 x c = Ok c') ->
  match blocks with
  | [] => forward1 self x c = Raise ZeroDivisionError
  | _ :: _ => exists y, forward1 self x c = Ok y
  end.
Proof using call_module_total call_block_total pqmf_analysis_total pqmf_synthesis_total.
  intros Hfc Hc1 Hc2 Hpq Hblocks Hhead [c' Hc'].
  unfold Generator1_forward. rewrite Hc'.
  cbn. unfold getattr. rewrite Hpq, Hfc. cbn.
  destruct (pqmf_analysis_total pq x) as [xa ->]. cbn.
  destruct (call_module_total fc xa) as [xf ->]. cbn.
  pose proof (skip_aggregate_runs self "conv_layers" blocks xf c' Hblocks) as Hagg.
  destruct blocks as [|b blocks]; [by rewrite Hagg|].
  destruct Hagg as [skips ->]. cbn.
  destruct (output_head_runs self "last_conv_layers" head skips Hhead) as [xh ->]. cbn.
  rewrite ?Hpq, ?Hc1, ?Hc2. cbn.
  destruct (pqmf_synthesis_total pq xh) as [xs ->]. cbn.
  destruct (call_module_total c1 xs) as [x1 ->]. cbn.
  destruct (call_module_total c2 x1) as [x2 ->]. by eexists.
Qed.

(** [Generator2.forward] likewise: the low band's blocks are summed
    first. *)
Lemma Generator2_forward_on (self : obj) lf uf pq low up hl hu x c :
  self !! "low_first_conv" = Some (OModule lf) ->
  self !! "up_first_conv" = Some (OModule uf) ->
  self !! "pqmf" = Some (OModule pq) ->
  self !! "low_conv_layers" = Some (OModuleList low) ->
  self !! "up_conv_layers" = Some (OModuleList up) ->
  self !! "last_low_conv_layers" = Some (OModuleList hl) ->
  self !! "last_up_conv_layers" = Some (OModuleList hu) ->
  (exists c', upsample' self 1 x c = Ok c') ->
  match low, up with
  | _ :: _, _ :: _ => exists y, forward2 self x c = Ok y
  | _, _ => forward2 self x c = Raise ZeroDivisionError
  end.
Proof using call_module_total call_block_total pqmf_synthesis_total cat_dim1_total.
  intros Hlf Huf Hpq Hlow Hup Hhl Hhu [c' Hc'].
  unfold Generator2_forward. rewrite Hc'.
  cbn. unfold getattr. rewrite Hlf, Huf. cbn.
  destruct (call_module_total lf x) as [x1 ->]. cbn.
  destruct (call_module_total uf x) as [x2 ->]. cbn.
  pose proof (skip_aggregate_runs self "low_conv_layers" low x1 c' Hlow) as Hagg1.
  pose proof (skip_aggregate_runs self "up_conv_layers" up x2 c' Hup) as Hagg2.
  destruct low as [|b low]; [by rewrite Hagg1|].
  destruct Hagg1 as [skips1 ->]. cbn.
  destruct (output_head_runs self "last_low_conv_layers" hl skips1 Hhl) as [y1 ->]. cbn.
  destruct up as [|b' up]; [by rewrite Hagg2|].
  destruct Hagg2 as [skips2 ->]. cbn.
  destruct (output_head_runs self "last_up_conv_layers" hu skips2 Hhu) as [y2 ->]. cbn.
  destruct (cat_dim1_total y1 y2) as [w ->]. cbn.
  rewrite Hpq. cbn. apply pqmf_synthesis_total.
Qed.

(** X8. On a constructed [Generator1] whose collaborating modules accept
    their inputs, [forward] returns a tensor when there is at least one
    residual block and the upsampled conditioning has a quarter of the
    waveform's length; with [layers <= 0] the instance is constructed all the
    same, and every such call raises [ZeroDivisionError] at
    [math.sqrt(1.0 / len(self.conv_layers))]. *)
Theorem Generator1_forward_runs ext a s g s' (x : Tensor) (c : option Tensor) :
  Generator1.create ext a s = (Ok g, s') ->
  (forall cv net cu,
      c = Some cv -> g !! "upsample_net" = Some (OModule net) ->
      call_module net cv = Ok cu -> size_last cu * 4 = size_last x) ->
  if 0 <? Generator1.layers a
  then exists y, forward1 g x c = Ok y
  else forward1 g x c = Raise ZeroDivisionError.
Proof using call_module_total call_block_total pqmf_analysis_total pqmf_synthesis_total.
  intros Hcreate Hlen.
  destruct (Generator1_create_modules _ _ _ _ _ Hcreate)
    as ([fc Hfc] & [c1 Hc1] & [c2 Hc2] & [pq Hpq] & Hnet).
  destruct (Generator1_create_blocks _ _ _ _ _ Hcreate)
    as (_ & _ & blocks & Hblocks & Hlenb & _).
  destruct (Generator1_create_last_conv_layers _ _ _ _ _ Hcreate) as (head & Hhead & _).
  clear Hcreate.
  pose proof (Generator1_forward_on g fc c1 c2 pq blocks head x c
                Hfc Hc1 Hc2 Hpq Hblocks Hhead) as Hrun.
  destruct (Z.ltb_spec 0 (Generator1.layers a)) as [Hpos|Hle];
    (destruct blocks as [|b blocks]; cbn in Hlenb; [try lia | try lia]);
    apply Hrun; apply upsample_conditioning_runs;
    (destruct (Generator1.upsample_conditional_features a); [left | by right]);
    destruct Hnet as [net Hnet]; exists net; (split; [exact Hnet|]);
    intros cv cu Hc Hcu; by eapply Hlen.
Qed.

(** X9. A [Generator1] constructed with
    [upsample_conditional_features=False] has no upsampling network:
    [forward] neither transforms the conditioning nor compares lengths,
    whatever they are, and the call is the rest of the method run on the
    waveform and on the conditioning as the caller gave it, which is what
    every block receives. Nothing is assumed of the collaborating
    modules. *)
Theorem Generator1_forward_no_upsampling ext a s g s' (x : Tensor) (c : option Tensor) :
  Generator1.create ext a s = (Ok g, s') ->
  Generator1.upsample_conditional_features a = false ->
  (forall factor, upsample' g factor x c = Ok c)
  /\ forward1 g x c =
       (pqmf ← getattr g "pqmf";
        x ← analysis_obj Tensor pqmf_analysis pqmf x;
        first_conv ← getattr g "first_conv";
        x ← call_obj Tensor call_module first_conv x;
        skips ← skip_aggregate' g "conv_layers" x c;
        x ← output_head' g "last_conv_layers" skips;
        pqmf ← getattr g "pqmf";
        x ← synthesis_obj Tensor pqmf_synthesis pqmf x;
        conv1 ← getattr g "pqmf_conv1";
        x ← call_obj Tensor call_module conv1 x;
        conv2 ← getattr g "pqmf_conv2";
        call_obj Tensor call_module conv2 x).
Proof.
  clear call_module_total call_block_total pqmf_analysis_total pqmf_synthesis_total
    cat_dim1_total cat_dim1.
  intros Hcreate Hflag.
  destruct (Generator1_create_modules _ _ _ _ _ Hcreate) as (_ & _ & _ & _ & Hnet).
  clear Hcreate. rewrite Hflag in Hnet.
  assert (Hup : forall factor, upsample' g factor x c = Ok c).
  { intros factor. unfold upsample_conditioning, getattr. rewrite Hnet.
    by destruct c. }
  split; [exact Hup|].
  unfold Generator1_forward. by rewrite Hup.
Qed.

(** X10. On a constructed [Generator2] whose collaborating modules accept
    their inputs, [forward] returns a tensor when both [layers[0]] and
    [layers[1]] are positive and the upsampled conditioning has the
    waveform's length; when one of the two stacks has no block the instance
    is constructed all the same, and every such call raises
    [ZeroDivisionError]. *)
Theorem Generator2_forward_runs ext a s g s' (x : Tensor) (c : option Tensor) :
  Generator2.create ext a s = (Ok g, s') ->
  (forall cv net cu,
      c = Some cv -> g !! "upsample_net" = Some (OModule net) ->
      call_module net cv = Ok cu -> size_last cu = size_last x) ->
  exists n0 n1,
    Generator2.layers a !! 0%nat = Some n0
    /\ Generator2.layers a !! 1%nat = Some n1
    /\ if (0 <? n0) && (0 <? n1)
       then exists y, forward2 g x c = Ok y
       else forward2 g x c = Raise ZeroDivisionError.
Proof using call_module_total call_block_total pqmf_synthesis_total cat_dim1_total.
  clear pqmf_analysis_total pqmf_analysis.
  intros Hcreate Hlen.
  destruct (Generator2_create_modules _ _ _ _ _ Hcreate)
    as ([pq Hpq] & [lf Hlf] & [uf Huf] & [net Hnet]).
  destruct (Generator2_create_blocks _ _ _ _ _ 0%nat "low_conv_layers"
              ltac:(set_solver) Hcreate) as (low & n0 & Hn0 & Hlow & Hlen0 & _).
  destruct (Generator2_create_blocks _ _ _ _ _ 1%nat "up_conv_layers"
              ltac:(set_solver) Hcreate) as (up & n1 & Hn1 & Hup & Hlen1 & _).
  destruct (Generator2_create_heads _ _ _ _ _ "last_low_conv_layers"
              ltac:(set_solver) Hcreate) as [hl Hhl].
  destruct (Generator2_create_heads _ _ _ _ _ "last_up_conv_layers"
              ltac:(set_solver) Hcreate) as [hu Hhu].
  clear Hcreate.
  exists n0, n1. split; [exact Hn0|]. split; [exact Hn1|].
  assert (Hc : exists c', upsample' g 1 x c = Ok c').
  { apply upsample_conditioning_runs. left. exists net. split; [exact Hnet|].
    intros cv cu Hcv Hcu. rewrite Z.mul_1_r. by eapply Hlen. }
  pose proof (Generator2_forward_on g lf uf pq low up hl hu x c
                Hlf Huf Hpq Hlow Hup Hhl Hhu Hc) as Hrun.
  destruct (Z.ltb_spec 0 n0) as [Hp0|Hp0]; destruct (Z.ltb_spec 0 n1) as [Hp1|Hp1];
    cbn [andb];
    destruct low as [|b low]; cbn in Hlen0; try lia;
    destruct up as [|b' up]; cbn in Hlen1; try lia; exact Hrun.
Qed.

(** *** [Generator1.inference] on constructed instances *)

Variable Ndarray : Type.
Variable torch_tensor : Ndarray -> Tensor.
Variable tensor_len : Tensor -> Z.
Variable ndarray_len : Ndarray -> Z.
Variable transpose_1_0 : Tensor -> result Tensor.
Variable unsqueeze_0 : Tensor -> result Tensor.
Variable squeeze_0 : Tensor -> result Tensor.
Variable replication_pad1d : pyobj -> Tensor -> result Tensor.
Variable randn : nat -> list Z -> result Tensor.

Local Abbreviation inference :=
  (Generator1_inference Tensor size_last call_module call_block pqmf_analysis
     pqmf_synthesis int_add_tensor tensor_iadd tensor_imul
     Ndarray torch_tensor tensor_len ndarray_len
     transpose_1_0 unsqueeze_0 squeeze_0 replication_pad1d randn).
Local Abbreviation len := (py_len_array Tensor Ndarray tensor_len ndarray_len).

(** X14. On a [Generator1] constructed with
    [upsample_conditional_features=False], [inference] without a waveform
    draws exactly one noise tensor, of shape [(1, 1, len(c) * 4)] (the
    stored [upsample_factor] is the integer 1), also when a later step
    raises. The conditioning is transposed, unsqueezed and padded by the
    constructor's [aux_context_window], and it is in that form, neither
    upsampled nor compared in length with the noise, that the blocks receive
    it. Nothing is assumed of the collaborating modules. *)
Theorem Generator1_inference_no_upsampling ext a s g s' cv (calls : list (list Z)) :
  Generator1.create ext a s = (Ok g, s') ->
  Generator1.upsample_conditional_features a = false ->
  let shape := [1; 1; len cv * 4] in
  snd (inference g (Some cv) None calls) = calls ++ [shape]
  /\ forall noise,
       randn (length calls) shape = Ok noise ->
       fst (inference g (Some cv) None calls) =
         (t ← transpose_1_0 (as_tensor Tensor Ndarray torch_tensor cv);
          t ← unsqueeze_0 t;
          t ← replication_pad1d (OInt (Generator1.aux_context_window a)) t;
          pqmf ← getattr g "pqmf";
          x ← analysis_obj Tensor pqmf_analysis pqmf noise;
          first_conv ← getattr g "first_conv";
          x ← call_obj Tensor call_module first_conv x;
          skips ← skip_aggregate' g "conv_layers" x (Some t);
          x ← output_head' g "last_conv_layers" skips;
          pqmf ← getattr g "pqmf";
          x ← synthesis_obj Tensor pqmf_synthesis pqmf x;
          conv1 ← getattr g "pqmf_conv1";
          x ← call_obj Tensor call_module conv1 x;
          conv2 ← getattr g "pqmf_conv2";
          y ← call_obj Tensor call_module conv2 x;
          y ← squeeze_0 y;
          transpose_1_0 y).
Proof.
  clear call_module_total call_block_total pqmf_analysis_total pqmf_synthesis_total
    cat_dim1_total cat_dim1.
  intros Hcreate Hflag shape.
  destruct (Generator1_create_inference_attrs _ _ _ _ _ Hcreate Hflag) as [Hw Hfactor].
  destruct (Generator1_create_modules _ _ _ _ _ Hcreate) as (_ & _ & _ & _ & Hnet).
  clear Hcreate. rewrite Hflag in Hnet.
  assert (Hforward : forall x t,
    forward1 g x (Some t) =
      (pqmf ← getattr g "pqmf";
       x ← analysis_obj Tensor pqmf_analysis pqmf x;
       first_conv ← getattr g "first_conv";
       x ← call_obj Tensor call_module first_conv x;
       skips ← skip_aggregate' g "conv_layers" x (Some t);
       x ← output_head' g "last_conv_layers" skips;
       pqmf ← getattr g "pqmf";
       x ← synthesis_obj Tensor pqmf_synthesis pqmf x;
       conv1 ← getattr g "pqmf_conv1";
       x ← call_obj Tensor call_module conv1 x;
       conv2 ← getattr g "pqmf_conv2";
       call_obj Tensor call_module conv2 x)).
  { intros x t.
    assert (Hup : upsample' g 4 x (Some t) = Ok (Some t)).
    { unfold upsample_conditioning, getattr. by rewrite Hnet. }
    unfold Generator1_forward. by rewrite Hup. }
  assert (Hgetf : getattr g "upsample_factor" = Ok (OInt 1)).
  { unfold getattr. by rewrite Hfactor. }
  assert (Hgetw : getattr g "aux_context_window"
                  = Ok (OInt (Generator1.aux_context_window a))).
  { unfold getattr. by rewrite Hw. }
  unfold Generator1_inference.
  remember (forward1 g) as fwd eqn:Efwd.
  unfold torch_randn, lift, mbind, mret, StateE_bind, StateE_ret.
  rewrite Hgetf, Hgetw.
  cbn [noise_length]. rewrite Z.mul_1_r. fold shape. split.
  - destruct (randn (length calls) shape); [|reflexivity].
    repeat (case_match; simplify_eq; cbn; try reflexivity).
  - intros noise ->.
    destruct (transpose_1_0 (as_tensor Tensor Ndarray torch_tensor cv)) as [t1|e];
      [cbn|reflexivity].
    destruct (unsqueeze_0 t1) as [t2|e]; [cbn|reflexivity].
    destruct (replication_pad1d (OInt (Generator1.aux_context_window a)) t2) as [t3|e];
      [cbn|reflexivity].
    rewrite (Hforward noise t3). unfold mbind, result_bind.
    destruct (getattr g "pqmf") as [pq|e]; [|reflexivity].
    destruct (analysis_obj Tensor pqmf_analysis pq noise) as [xa|e]; [|reflexivity].
    destruct (getattr g "first_conv") as [fc|e]; [|reflexivity].
    destruct (call_obj Tensor call_module fc xa) as [xf|e]; [|reflexivity].
    destruct (skip_aggregate' g "conv_layers" xf (Some t3)) as [sk|e]; [|reflexivity].
    destruct (output_head' g "last_conv_layers" sk) as [xh|e]; [|reflexivity].
    destruct (synthesis_obj Tensor pqmf_synthesis pq xh) as [xs|e]; [|reflexivity].
    destruct (getattr g "pqmf_conv1") as [c1|e]; [|reflexivity].
    destruct (call_obj Tensor call_module c1 xs) as [x1|e]; [|reflexivity].
    destruct (getattr g "pqmf_conv2") as [c2|e]; [|reflexivity].
    destruct (call_obj Tensor call_module c2 x1) as [y|e]; [|reflexivity].
    by destruct (squeeze_0 y).
Qed.

End ForwardRuns.

(** Tensors as their lengths, modules that keep the length: a waveform of
    40 samples with a conditioning of 10 frames passes the check of
    [Generator1.forward]; with [layers=0] the same call raises. *)
Lemma Generator1_forward_runs_witness :
  let fwd := Generator1_forward Z (fun t => t) (fun _ t => Ok t) (fun _ t _ => Ok (t, t))
               (fun _ t => Ok t) (fun _ t => Ok t)
               (fun _ t => t) (fun t _ => t) (fun t _ => t) in
  (exists g s' y,
      Generator1.create ext_ok (Generator1_layers 30 3) initial_state = (Ok g, s')
      /\ fwd g 40 (Some 10) = Ok y)
  /\ (exists g s',
        Generator1.create ext_ok (Generator1_layers 0 3) initial_state = (Ok g, s')
        /\ fwd g 40 (Some 10) = Raise ZeroDivisionError).
Proof.
  intros fwd. split.
  - destruct (succeeds_Ok (Generator1.create ext_ok (Generator1_layers 30 3) initial_state))
      as (g & s' & E); [vm_compute; reflexivity|].
    destruct (Generator1_forward_runs Z (fun t => t) (fun _ t => Ok t)
                (fun _ t _ => Ok (t, t)) (fun _ t => Ok t) (fun _ t => Ok t)
                (fun _ t => t) (fun t _ => t) (fun t _ => t)
                ltac:(intros; eexists; reflexivity)
                ltac:(intros; eexists _, _; reflexivity)
                ltac:(intros; eexists; reflexivity)
                ltac:(intros; eexists; reflexivity)
                ext_ok (Generator1_layers 30 3) initial_state g s' 40 (Some 10) E
                ltac:(intros cv net cu [= <-] _ [= <-]; reflexivity))
      as [y Hy].
    exists g, s', y. split; [exact E | exact Hy].
  - destruct (succeeds_Ok (Generator1.create ext_ok (Generator1_layers 0 3) initial_state))
      as (g & s' & E); [vm_compute; reflexivity|].
    exists g, s'. split; [exact E|].
    exact (Generator1_forward_runs Z (fun t => t) (fun _ t => Ok t)
             (fun _ t _ => Ok (t, t)) (fun _ t => Ok t) (fun _ t => Ok t)
             (fun _ t => t) (fun t _ => t) (fun t _ => t)
             ltac:(intros; eexists; reflexivity)
             ltac:(intros; eexists _, _; reflexivity)
             ltac:(intros; eexists; reflexivity)
             ltac:(intros; eexists; reflexivity)
             ext_ok (Generator1_layers 0 3) initial_state g s' 40 (Some 10) E
             ltac:(intros cv net cu [= <-] _ [= <-]; reflexivity)).
Defined.


(** Tensors as their lengths, blocks that reject a conditioning whose
    length differs from the hidden state's: without an upsampling network a
    conditioning of 7 frames goes to the blocks unchanged with a waveform of
    40 samples, and it is the first block that raises. *)
Lemma Generator1_forward_no_upsampling_witness :
  let block (_ : module) (x : Z) (c : option Z) :=
    match c with
    | Some cl => if cl =? x then Ok (x, x) else Raise RuntimeError
    | None => Ok (x, x)
    end in
  exists g s',
    Generator1.create ext_ok Generator1_no_upsampling initial_state = (Ok g, s')
    /\ (forall factor,
          upsample_conditioning Z (fun t => t) (fun _ t => Ok t) g factor 40 (Some 7)
          = Ok (Some 7))
    /\ Generator1_forward Z (fun t => t) (fun _ t => Ok t) block
         (fun _ t => Ok t) (fun _ t => Ok t)
         (fun _ t => t) (fun t _ => t) (fun t _ => t) g 40 (Some 7)
       = Raise RuntimeError.
Proof.
  intros block.
  destruct (succeeds_Ok (Generator1.create ext_ok Generator1_no_upsampling initial_state))
    as (g & s' & E); [vm_compute; reflexivity|].
  destruct (Generator1_forward_no_upsampling Z (fun t => t) (fun _ t => Ok t)
              block (fun _ t => Ok t) (fun _ t => Ok t)
              (fun _ t => t) (fun t _ => t) (fun t _ => t)
              ext_ok Generator1_no_upsampling initial_state g s' 40 (Some 7)
              E eq_refl) as [Hup Hfwd].
  destruct (Generator1_create_modules _ _ _ _ _ E) as ([fc Hfc] & _ & _ & [pq Hpq] & _).
  destruct (Generator1_create_blocks _ _ _ _ _ E) as (_ & _ & blocks & Hblocks & Hlen & _).
  exists g, s'. split; [exact E|]. clear E. split; [exact Hup|].
  rewrite Hfwd. unfold getattr. rewrite Hpq, Hfc. cbn.
  unfold skip_aggregate, getattr. rewrite Hblocks.
  destruct blocks as [|b blocks]; [discriminate Hlen|]. reflexivity.
Defined.

(** The default [Generator2] accepts a waveform and a conditioning of the
    same length; with [layers=[0, 10]] the same call raises. *)
Lemma Generator2_forward_runs_witness :
  let fwd := Generator2_forward Z (fun t => t) (fun _ t => Ok t) (fun _ t _ => Ok (t, t))
               (fun _ t => Ok t) (fun _ t => t) (fun t _ => t) (fun t _ => t)
               (fun t _ => Ok t) in
  (exists g s' y,
      Generator2.create ext_ok Generator2.defaults initial_state = (Ok g, s')
      /\ fwd g 40 (Some 40) = Ok y)
  /\ (exists g s',
        Generator2.create ext_ok (Generator2_lists [0; 10] [3; 3] [3; 3]) initial_state
        = (Ok g, s')
        /\ fwd g 40 (Some 40) = Raise ZeroDivisionError).
Proof.
  intros fwd. split.
  - destruct (succeeds_Ok (Generator2.create ext_ok Generator2.defaults initial_state))
      as (g & s' & E); [vm_compute; reflexivity|].
    destruct (Generator2_forward_runs Z (fun t => t) (fun _ t => Ok t)
                (fun _ t _ => Ok (t, t)) (fun _ t => Ok t)
                (fun _ t => t) (fun t _ => t) (fun t _ => t) (fun t _ => Ok t)
                ltac:(intros; eexists; reflexivity)
                ltac:(intros; eexists _, _; reflexivity)
                ltac:(intros; eexists; reflexivity)
                ltac:(intros; eexists; reflexivity)
                ext_ok Generator2.defaults initial_state g s' 40 (Some 40) E
                ltac:(intros cv net cu [= <-] _ [= <-]; reflexivity))
      as (n0 & n1 & Hn0 & Hn1 & Hrun).
    injection Hn0 as <-. injection Hn1 as <-.
    destruct Hrun as [y Hy].
    exists g, s', y. split; [exact E | exact Hy].
  - destruct (succeeds_Ok (Generator2.create ext_ok
                (Generator2_lists [0; 10] [3; 3] [3; 3]) initial_state))
      as (g & s' & E); [vm_compute; reflexivity|].
    destruct (Generator2_forward_runs Z (fun t => t) (fun _ t => Ok t)
                (fun _ t _ => Ok (t, t)) (fun _ t => Ok t)
                (fun _ t => t) (fun t _ => t) (fun t _ => t) (fun t _ => Ok t)
                ltac:(intros; eexists; reflexivity)
                ltac:(intros; eexists _, _; reflexivity)
                ltac:(intros; eexists; reflexivity)
                ltac:(intros; eexists; reflexivity)
                ext_ok (Generator2_lists [0; 10] [3; 3] [3; 3]) initial_state
                g s' 40 (Some 40) E
                ltac:(intros cv net cu [= <-] _ [= <-]; reflexivity))
      as (n0 & n1 & Hn0 & Hn1 & Hrun).
    injection Hn0 as <-. injection Hn1 as <-.
    exists g, s'. split; [exact E | exact Hrun].
Defined.

(** Without an upsampling network, a conditioning of 7 frames gives one
    noise tensor of 28 samples. *)
Lemma Generator1_inference_no_upsampling_witness :
  exists g s',
    Generator1.create ext_ok Generator1_no_upsampling initial_state = (Ok g, s')
    /\ snd (Generator1_inference Z (fun t => t) (fun _ t => Ok t)
              (fun _ t _ => Ok (t, t))
              (fun _ t => Ok t) (fun _ t => Ok t)
              (fun _ t => t) (fun t _ => t) (fun t _ => t)
              Z (fun n => n) (fun t => t) (fun n => n)
              (fun t => Ok t) (fun t => Ok t) (fun t => Ok t) (fun _ t => Ok t)
              (fun _ shape => Ok (List.last shape 0))
              g (Some (ATensor Z Z 7)) None [])
       = [[1; 1; 28]].
Proof.
  destruct (succeeds_Ok (Generator1.create ext_ok Generator1_no_upsampling initial_state))
    as (g & s' & E); [vm_compute; reflexivity|].
  exists g, s'. split; [exact E|].
  exact (proj1 (Generator1_inference_no_upsampling Z (fun t => t) (fun _ t => Ok t)
                  (fun _ t _ => Ok (t, t)) (fun _ t => Ok t) (fun _ t => Ok t)
                  (fun _ t => t) (fun t _ => t) (fun t _ => t)
                  Z (fun n => n) (fun t => t) (fun n => n)
                  (fun t => Ok t) (fun t => Ok t) (fun t => Ok t) (fun _ t => Ok t)
                  (fun _ shape => Ok (List.last shape 0))
                  ext_ok Generator1_no_upsampling initial_state g s'
                  (ATensor Z Z 7) [] E eq_refl)).
Defined.

(** ** The receptive field and the blocks that were built *)

(** The arithmetic of Python numbers raises nothing but the
    [OverflowError] of an integer too large for a float. *)
Lemma py_float_raises z e : py_float z = Raise e -> e = OverflowError.
Proof. unfold py_float. destruct (is_infinity _); [by intros [= <-]|discriminate]. Qed.

Lemma py_add_raises a b e : py_add a b = Raise e -> e = OverflowError.
Proof.
  destruct a as [x|f], b as [y|g]; cbn; try discriminate.
  - destruct (py_float x) eqn:E; [discriminate|]. intros [= <-]. by eapply py_float_raises.
  - destruct (py_float y) eqn:E; [discriminate|]. intros [= <-]. by eapply py_float_raises.
Qed.

Lemma py_mul_raises a b e : py_mul a b = Raise e -> e = OverflowError.
Proof.
  destruct a as [x|f], b as [y|g]; cbn; try discriminate.
  - destruct (py_float x) eqn:E; [discriminate|]. intros [= <-]. by eapply py_float_raises.
  - destruct (py_float y) eqn:E; [discriminate|]. intros [= <-]. by eapply py_float_raises.
Qed.

Lemma py_sum_from_raises l acc e : py_sum_from acc l = Raise e -> e = OverflowError.
Proof.
  revert acc. induction l as [|x l IH]; intros acc; cbn; [discriminate|].
  destruct (py_add acc x) as [acc'|e'] eqn:E; cbn.
  - apply IH.
  - intros [= <-]. by eapply py_add_raises.
Qed.

(** X13. The [receptive_field_size] of a constructed [Generator1] is
    computed from the dilations of the residual blocks the constructor
    built: it is the value of [(kernel_size - 1) * sum(ds) + 1] for the list
    [ds] of the dilations of [conv_layers], in order; the property and the
    constructor's loop agree (also for a negative number of stacks). On a
    constructed instance the property raises nothing but the
    [OverflowError] of that expression (an integer too large for a float
    meeting a float dilation), and nothing with a positive number of
    stacks. *)
Theorem receptive_field_of_blocks ext a s g s' :
  Generator1.create ext a s = (Ok g, s') ->
  exists blocks ds,
    g !! "conv_layers" = Some (OModuleList blocks)
    /\ Forall2 (fun m d => dilation_of m = Some d) blocks ds
    /\ receptive_field_size g
       = (total ← py_sum ds;
          p ← py_mul (PInt (Generator1.kernel_size a - 1)) total;
          py_add p (PInt 1))
    /\ (forall e, receptive_field_size g = Raise e -> e = OverflowError)
    /\ (0 < Generator1.stacks a -> exists v, receptive_field_size g = Ok (PInt v)).
Proof.
  intros H.
  destruct (Generator1_create_blocks _ _ _ _ _ H)
    as (Hs & Hdiv & blocks & Hb & Hlen & Hdil).
  destruct (Generator1_create_attrs _ _ _ _ _ H) as (Hl & Hst & Hk).
  clear H.
  set (lpc := Generator1.layers a / Generator1.stacks a) in *.
  set (ds := (fun i => pow2 (i mod lpc)) <$> py_range (Generator1.layers a)).
  assert (Hrf : receptive_field_size g
                = (total ← py_sum ds;
                   p ← py_mul (PInt (Generator1.kernel_size a - 1)) total;
                   py_add p (PInt 1))).
  { unfold receptive_field_size, getattr. rewrite Hl, Hst, Hk. cbn.
    assert (Hmod : py_mod (Generator1.layers a) (Generator1.stacks a) = Ok 0).
    { unfold py_mod. destruct (Z.eqb_spec (Generator1.stacks a) 0) as [|_]; [done|].
      by rewrite Hdiv. }
    assert (Hfloor : py_floordiv (Generator1.layers a) (Generator1.stacks a) = Ok lpc).
    { unfold py_floordiv. by destruct (Z.eqb_spec (Generator1.stacks a) 0) as [|_]. }
    unfold _get_receptive_field_size. rewrite Hmod. cbn. rewrite Hfloor. cbn.
    rewrite (mapM_result_Ok _ (fun i => pow2 (i mod lpc))); [reflexivity|].
    intros k Hk'. apply elem_of_py_range in Hk'. unfold py_mod.
    destruct (Z.eqb_spec lpc 0) as [Hz|_]; [exfalso|reflexivity].
    pose proof (Z.div_mod (Generator1.layers a) (Generator1.stacks a) Hs) as Hdm.
    fold lpc in Hdm. rewrite Hz, Hdiv in Hdm. lia. }
  exists blocks, ds.
  split; [exact Hb|]. split; [|split; [exact Hrf|split]].
  - apply Forall2_same_length_lookup_2.
    { unfold ds. by rewrite length_fmap, length_py_range. }
    intros i m d Hm Hd. rewrite (Hdil i m Hm). f_equal.
    unfold ds in Hd. rewrite list_lookup_fmap in Hd.
    destruct (py_range (Generator1.layers a) !! i) as [k|] eqn:Ek; [|discriminate Hd].
    apply lookup_py_range in Ek as [-> _]. by injection Hd as <-.
  - intros e. rewrite Hrf. unfold py_sum.
    destruct (py_sum_from (PInt 0) ds) as [total|e1] eqn:E1; cbn [mbind result_bind].
    + destruct (py_mul (PInt (Generator1.kernel_size a - 1)) total) as [p|e2] eqn:E2;
        cbn [mbind result_bind].
      * apply py_add_raises.
      * intros [= <-]. by eapply py_mul_raises.
    + intros [= <-]. by eapply py_sum_from_raises.
  - intros Hpos. eexists.
    unfold receptive_field_size, getattr. rewrite Hl, Hst, Hk. cbn.
    by apply get_receptive_field_size_pos.
Qed.

(** The defaults: thirty blocks; and [Generator1(layers=60, stacks=-1)],
    whose dilations are floats but for the first. *)
Lemma receptive_field_of_blocks_witness :
  (exists g s' blocks ds,
    Generator1.create ext_ok Generator1.defaults initial_state = (Ok g, s')
    /\ g !! "conv_layers" = Some (OModuleList blocks)
    /\ Forall2 (fun m d => dilation_of m = Some d) blocks ds
    /\ receptive_field_size g
       = (total ← py_sum ds; p ← py_mul (PInt 2) total; py_add p (PInt 1)))
  /\ (exists g s' blocks ds,
        Generator1.create ext_ok (Generator1_layers 60 (-1)) initial_state = (Ok g, s')
        /\ g !! "conv_layers" = Some (OModuleList blocks)
        /\ Forall2 (fun m d => dilation_of m = Some d) blocks ds
        /\ receptive_field_size g
           = (total ← py_sum ds; p ← py_mul (PInt 2) total; py_add p (PInt 1))).
Proof.
  split.
  - destruct (succeeds_Ok (Generator1.create ext_ok Generator1.defaults initial_state))
      as (g & s' & E); [vm_compute; reflexivity|].
    destruct (receptive_field_of_blocks ext_ok Generator1.defaults initial_state g s' E)
      as (blocks & ds & Hb & Hd & Hr & _).
    exists g, s', blocks, ds. split; [exact E|]. split; [exact Hb|]. split; [exact Hd|].
    exact Hr.
  - destruct (succeeds_Ok
                (Generator1.create ext_ok (Generator1_layers 60 (-1)) initial_state))
      as (g & s' & E); [vm_compute; reflexivity|].
    destruct (receptive_field_of_blocks ext_ok (Generator1_layers 60 (-1))
                initial_state g s' E)
      as (blocks & ds & Hb & Hd & Hr & _).
    exists g, s', blocks, ds. split; [exact E|]. split; [exact Hb|]. split; [exact Hd|].
    exact Hr.
Defined.
